(** * RequestProbe: a shallow embedding of the request-minimization core

    The Go sources are embedded package by package: [GoStrings] carries the
    functions of Go's [strings] package that the program calls, [Models] the
    records of [backend/models], [Validator], [Manager], [Encoding],
    [CurlParser], [RawParser], [UnifiedParser] and [Tester] the code of the
    packages [validator], [manager], [encoding], [parser] and [tester], and
    [NetHTTP] the header map and the cookies of Go's [net/http] with the
    [User-Agent] line that it writes, [UTF8] the well-formed texts of
    [unicode/utf8].
    [Minimizer] and [FieldProbe] carry the cumulative removal and the test
    of one field of [tester], [Evaluator] the evaluator of expressions of
    [validator], [EncodingRegistry] the table of codecs of [encoding],
    [RequestChecks] what the parser does after parsing, [TemplateManager]
    the expression templates of [manager], and [Service] the package
    [services].  Go's [int] is a 64-bit integer and is kept as [Z]; a Go
    [string] is a sequence of bytes and is kept as [string]; a Go [error] is
    an [option] whose [None] is [nil]; a [map[string]T] is a [gmap string T]
    and a [range] loop over it runs over an arbitrary enumeration of the
    map. *)

From Stdlib Require Import ZArith Ascii String List Lia Bool Sorted.
From stdpp Require Import gmap strings list fin_maps pretty.

Local Open Scope Z_scope.

(** ** Go's [strings] package, on byte strings *)

Module GoStrings.

(** The texts all of whose bytes are below [utf8.RuneSelf]: the test with
    which [strings.ToLower] and [strings.ToUpper] begin, and the texts on
    which [TrimSpace], [Fields], [ToLower] and [ToUpper] below are Go's.  On
    another text Go decodes code points and consults the tables of
    [unicode], which are left out here: [U+00A0] is a space for
    [strings.TrimSpace] and not for [TrimSpace], and [strings.ToLower]
    changes the two bytes of a capital A with diaeresis where [ToLower]
    keeps them. *)
Fixpoint isASCII (s : string) : bool :=
  match s with
  | EmptyString => true
  | String c s' => (N_of_ascii c <? 128)%N && isASCII s'
  end.

(** [unicode.IsSpace] restricted to one-byte code points: tab, line feed,
    vertical tab, form feed, carriage return and space. *)
Definition isSpace (c : ascii) : bool :=
  match c with
  | "009" | "010" | "011" | "012" | "013" | " " => true
  | _ => false
  end%char.

Definition lowerByte (c : ascii) : ascii :=
  let n := N_of_ascii c in
  if ((65 <=? n) && (n <=? 90))%N then ascii_of_N (n + 32) else c.

Definition upperByte (c : ascii) : ascii :=
  let n := N_of_ascii c in
  if ((97 <=? n) && (n <=? 122))%N then ascii_of_N (n - 32) else c.

(** [strings.ToLower] and [strings.ToUpper]: the ASCII letters change case,
    every other byte is kept. *)
Fixpoint ToLower (s : string) : string :=
  match s with
  | EmptyString => EmptyString
  | String c s' => String (lowerByte c) (ToLower s')
  end.

Fixpoint ToUpper (s : string) : string :=
  match s with
  | EmptyString => EmptyString
  | String c s' => String (upperByte c) (ToUpper s')
  end.

(** [strings.HasPrefix s prefix]. *)
Definition HasPrefix (s prefix : string) : bool := String.prefix prefix s.

(** [strings.Contains s substr]: [substr] starts at some position of [s]. *)
Fixpoint Contains (s substr : string) : bool :=
  if String.prefix substr s then true
  else match s with
       | EmptyString => false
       | String _ s' => Contains s' substr
       end.

Fixpoint trimLeft (s : string) : string :=
  match s with
  | EmptyString => EmptyString
  | String c s' => if isSpace c then trimLeft s' else s
  end.

Fixpoint trimRight (s : string) : string :=
  match s with
  | EmptyString => EmptyString
  | String c s' =>
      match trimRight s' with
      | EmptyString => if isSpace c then EmptyString else String c EmptyString
      | t => String c t
      end
  end.

(** [strings.TrimSpace]. *)
Definition TrimSpace (s : string) : string := trimRight (trimLeft s).

(** [strings.Fields]: the maximal runs of non-space bytes. *)
Fixpoint Fields (s : string) : list string :=
  match s with
  | EmptyString => []
  | String c s' =>
      if isSpace c then Fields s'
      else match s' with
           | EmptyString => [String c EmptyString]
           | String c' _ =>
               if isSpace c' then String c EmptyString :: Fields s'
               else match Fields s' with
                    | w :: ws => String c w :: ws
                    | [] => [String c EmptyString]
                    end
           end
  end.

(** The scan shared by [Split] and [ReplaceAll]: [skip] counts the bytes of
    a separator found earlier that are still to be passed over. *)
Fixpoint splitGo (sep s : string) (skip : nat) (cur : string) : list string :=
  match s with
  | EmptyString => [cur]
  | String c s' =>
      match skip with
      | S k => splitGo sep s' k cur
      | O =>
          if String.prefix sep s
          then cur :: splitGo sep s' (Nat.pred (String.length sep)) EmptyString
          else splitGo sep s' O (cur +:+ String c EmptyString)
      end
  end.

(** [strings.Split s sep] for a non-empty [sep] (the program never passes
    an empty one). *)
Definition Split (s sep : string) : list string := splitGo sep s O EmptyString.

(** [strings.Join]. *)
Fixpoint Join (elems : list string) (sep : string) : string :=
  match elems with
  | [] => EmptyString
  | [e] => e
  | e :: rest => e +:+ sep +:+ Join rest sep
  end.

(** [strings.ReplaceAll s old new] for a non-empty [old]. *)
Definition ReplaceAll (s old new : string) : string := Join (Split s old) new.

Fixpoint indexGo (s substr : string) (i : Z) : Z :=
  if String.prefix substr s then i
  else match s with
       | EmptyString => -1
       | String _ s' => indexGo s' substr (i + 1)
       end.

(** [strings.Index s substr]: the first position of [substr], or [-1]. *)
Definition Index (s substr : string) : Z := indexGo s substr 0.

(** The slices [s[:i]] and [s[i:]] for [0 <= i <= len(s)]. *)
Definition sliceTo (s : string) (i : Z) : string :=
  String.substring 0 (Z.to_nat i) s.

Definition sliceFrom (s : string) (i : Z) : string :=
  String.substring (Z.to_nat i) (String.length s - Z.to_nat i) s.

(** [len(s)] as a Go [int]. *)
Definition len (s : string) : Z := Z.of_nat (String.length s).

(** The literals ["\n"] and ["\r\n"]. *)
Definition LF : string := String "010" EmptyString.
Definition CRLF : string := String "013" (String "010" EmptyString).

End GoStrings.

(** ** Go's [unicode/utf8] *)

Module UTF8.

Definition inRange (lo hi : N) (c : ascii) : bool :=
  ((lo <=? N_of_ascii c) && (N_of_ascii c <=? hi))%N.

(** The table [first] with [acceptRanges]: for a leading byte the size of
    the encoding and the range of the second byte; [None] for the bytes
    that begin no encoding ([80] to [C1] and [F5] to [FF]). *)
Definition first (c : ascii) : option (N * (N * N)) :=
  let n := N_of_ascii c in
  (if (194 <=? n) && (n <=? 223) then Some (2, (128, 191))
   else if n =? 224 then Some (3, (160, 191))
   else if (225 <=? n) && (n <=? 236) then Some (3, (128, 191))
   else if n =? 237 then Some (3, (128, 159))
   else if (238 <=? n) && (n <=? 239) then Some (3, (128, 191))
   else if n =? 240 then Some (4, (144, 191))
   else if (241 <=? n) && (n <=? 243) then Some (4, (128, 191))
   else if n =? 244 then Some (4, (128, 143))
   else None)%N.

(** [utf8.ValidString]: the text is a sequence of well-formed encodings.
    These are the texts that a [range] loop over the runes followed by
    [WriteRune] gives back byte for byte; a byte that begins no
    well-formed encoding is visited as [U+FFFD] and written as the three
    bytes [EF BF BD]. *)
Fixpoint ValidString (s : string) : bool :=
  match s with
  | EmptyString => true
  | String c s1 =>
      if (N_of_ascii c <? 128)%N then ValidString s1
      else
        match first c, s1 with
        | Some (size, (lo, hi)), String c1 s2 =>
            if negb (inRange lo hi c1) then false
            else if (size =? 2)%N then ValidString s2
            else
              match s2 with
              | String c2 s3 =>
                  if negb (inRange 128 191 c2) then false
                  else if (size =? 3)%N then ValidString s3
                  else
                    match s3 with
                    | String c3 s4 =>
                        if negb (inRange 128 191 c3) then false
                        else ValidString s4
                    | EmptyString => false
                    end
              | EmptyString => false
              end
        | _, _ => false
        end
  end.

End UTF8.

(** ** The records of [backend/models] *)

Module Models.

Module ParsedRequest.
Record t : Type := mk {
  Method : string;
  URL : string;
  Headers : gmap string string;
  Cookies : gmap string string;
  Body : string;
  QueryParams : gmap string string;
  ContentType : string
}.
End ParsedRequest.

Module TextMatchingConfig.
Record t : Type := mk {
  Enabled : bool;
  Texts : list string;
  MatchMode : string;
  CaseSensitive : bool
}.
End TextMatchingConfig.

Module LengthRangeConfig.
Record t : Type := mk {
  Enabled : bool;
  MinLength : Z;
  MaxLength : Z
}.
End LengthRangeConfig.

Module EncodingConfig.
Record t : Type := mk {
  Enabled : bool;
  CalibrationText : string;
  SupportedEncodings : list string;
  DetectedEncoding : string
}.
End EncodingConfig.

Module ValidationConfig.
Record t : Type := mk {
  Expression : string;
  Timeout : Z;
  MaxRetries : Z;
  FollowRedirect : bool;
  UserAgent : string;
  TextMatching : TextMatchingConfig.t;
  LengthRange : LengthRangeConfig.t;
  UseCustomExpr : bool;
  EncodingConfig : EncodingConfig.t;
  PreserveUserAgent : bool
}.
End ValidationConfig.

Module ResponseCookie.
Record t : Type := mk {
  Name : string;
  Value : string;
  Domain : string;
  Path : string
}.
End ResponseCookie.

Module ResponseData.
Record t : Type := mk {
  StatusCode : Z;
  Headers : gmap string string;
  Body : string;
  Cookies : list ResponseCookie.t;
  URL : string;
  Duration : Z;
  ContentLength : Z;
  CharacterCount : Z;
  RawBody : string;
  DetectedEncoding : string
}.
End ResponseData.

Module ResponseInfo.
Record t : Type := mk {
  StatusCode : Z;
  URL : string;
  Headers : gmap string string
}.
End ResponseInfo.

Module SingleRequestResult.
Record t : Type := mk {
  Success : bool;
  Error : string;
  Note : string;
  ResponseInfo : option ResponseInfo.t
}.
End SingleRequestResult.

Module FieldTestResult.
Record t : Type := mk {
  Required : bool;
  Value : string;
  TestResult : SingleRequestResult.t
}.
End FieldTestResult.

Module TestResults.
Record t : Type := mk {
  Headers : gmap string FieldTestResult.t;
  Cookies : gmap string FieldTestResult.t
}.
End TestResults.

(** A [range] loop over a Go map visits every entry once, in an order the
    runtime chooses: [range_of m l] says that [l] is such an order. *)
Definition range_of {V : Type} (m : gmap string V) (l : list (string * V)) : Prop :=
  l ≡ₚ map_to_list m.

End Models.

(** ** Package [validator]: [safe_validator.go] *)

Module Validator.
Import Models.

(** The operator tokens of [go/token] that [go/parser] puts in the [Op]
    field of a unary or binary expression. *)
Inductive Token : Type :=
| ADD | SUB | MUL | QUO | REM
| AND | OR | XOR | SHL | SHR | AND_NOT
| LAND | LOR | ARROW | NOT | TILDE
| EQL | LSS | GTR | NEQ | LEQ | GEQ.

(** [token.Token.String]. *)
Definition Token_String (t : Token) : string :=
  match t with
  | ADD => "+" | SUB => "-" | MUL => "*" | QUO => "/" | REM => "%"
  | AND => "&" | OR => "|" | XOR => "^" | SHL => "<<" | SHR => ">>"
  | AND_NOT => "&^" | LAND => "&&" | LOR => "||" | ARROW => "<-"
  | NOT => "!" | TILDE => "~"
  | EQL => "==" | LSS => "<" | GTR => ">" | NEQ => "!=" | LEQ => "<="
  | GEQ => ">="
  end.

(** The expression nodes of [go/ast].  The seven kinds that
    [validateASTNode] names have their fields; every other kind
    ([*ast.IndexExpr], [*ast.FuncLit], [*ast.StarExpr], ...) is [OtherExpr]
    with the name [%T] prints, since the walk never looks inside one. *)
#[warnings="-register-all"] Inductive Expr : Type :=
| BinaryExpr (X : Expr) (Op : Token) (Y : Expr)
| UnaryExpr (Op : Token) (X : Expr)
| CallExpr (Fun : Expr) (Args : list Expr)
| SelectorExpr (X : Expr) (Sel : string)
| Ident (Name : string)
| BasicLit (Value : string)
| ParenExpr (X : Expr)
| OtherExpr (T : string).

(** The errors of the validator, one constructor per [fmt.Errorf]. *)
Inductive Err : Type :=
| EmptyExpression
| SyntaxError (msg : string)
| OperatorNotAllowed (op : string)
| FunctionNotAllowed (name : string)
| ResponseMethodNotAllowed (name : string)
| MethodCallNotAllowed
| ResponseFieldNotAllowed (name : string)
| OnlyResponseFields
| IdentifierNotAllowed (name : string)
| UnsupportedExpression (T : string)
| EvaluationFailed (msg : string)
| NoValidationRule.

(** A Go [map[string]bool] read with [m[k]]: a missing key reads [false]. *)
Definition readBool (m : gmap string bool) (k : string) : bool :=
  default false (m !! k).

Definition allowedFunctions : gmap string bool :=
  list_to_map
    [("len", true); ("str", true); ("int", true); ("float", true);
     ("bool", true); ("lower", true); ("upper", true); ("strip", true);
     ("json", true)].

Definition allowedOperators : gmap string bool :=
  list_to_map
    [("==", true); ("!=", true); ("<", true); ("<=", true); (">", true);
     (">=", true); ("&&", true); ("||", true); ("!", true); ("in", true)].

Definition isAllowedResponseField (field : string) : bool :=
  readBool
    (list_to_map
       [("status_code", true); ("text", true); ("content", true);
        ("headers", true); ("cookies", true); ("url", true);
        ("elapsed", true); ("encoding", true); ("reason", true)])
    field.

Definition isAllowedResponseMethod (method : string) : bool :=
  readBool (list_to_map [("json", true)]) method.

Definition isBuiltinConstant (name : string) : bool :=
  readBool (list_to_map [("true", true); ("false", true); ("nil", true)]) name.

(** The check of a call's [Fun]: an identifier must be an allowed
    function, a selector must be an allowed method of [response]; a [Fun]
    of any other kind falls through both type assertions. *)
Definition validateCallTarget (f : Expr) : option Err :=
  match f with
  | Ident name =>
      if readBool allowedFunctions name then None
      else Some (FunctionNotAllowed name)
  | SelectorExpr (Ident x) sel =>
      if bool_decide (x = "response") then
        if isAllowedResponseMethod sel then None
        else Some (ResponseMethodNotAllowed sel)
      else Some MethodCallNotAllowed
  | SelectorExpr _ _ => Some MethodCallNotAllowed
  | _ => None
  end.

Fixpoint validateASTNode (node : Expr) : option Err :=
  match node with
  | BinaryExpr x op y =>
      match validateASTNode x with
      | Some err => Some err
      | None =>
          match validateASTNode y with
          | Some err => Some err
          | None =>
              if readBool allowedOperators (Token_String op) then None
              else Some (OperatorNotAllowed (Token_String op))
          end
      end
  | UnaryExpr op x =>
      match validateASTNode x with
      | Some err => Some err
      | None =>
          if readBool allowedOperators (Token_String op) then None
          else Some (OperatorNotAllowed (Token_String op))
      end
  | CallExpr f args =>
      match validateCallTarget f with
      | Some err => Some err
      | None =>
          (fix validateArgs (l : list Expr) : option Err :=
             match l with
             | [] => None
             | arg :: rest =>
                 match validateASTNode arg with
                 | Some err => Some err
                 | None => validateArgs rest
                 end
             end) args
      end
  | SelectorExpr (Ident x) sel =>
      if bool_decide (x = "response") then
        if isAllowedResponseField sel then None
        else Some (ResponseFieldNotAllowed sel)
      else Some OnlyResponseFields
  | SelectorExpr _ _ => Some OnlyResponseFields
  | Ident name =>
      if negb (bool_decide (name = "response")) && negb (isBuiltinConstant name)
      then Some (IdentifierNotAllowed name)
      else None
  | BasicLit _ => None
  | ParenExpr x => validateASTNode x
  | OtherExpr T => Some (UnsupportedExpression T)
  end.

(** [checkTextMatching]: the loop either returns from inside (mode [any],
    first hit) or ends with the number of needles found. *)
Fixpoint matchLoop (config : TextMatchingConfig.t) (text : string)
    (texts : list string) (matchCount : Z) : bool + Z :=
  match texts with
  | [] => inr matchCount
  | searchText :: rest =>
      if bool_decide (searchText = "") then matchLoop config text rest matchCount
      else
        let checkText :=
          if negb (TextMatchingConfig.CaseSensitive config)
          then GoStrings.ToLower searchText else searchText in
        if GoStrings.Contains text checkText then
          if bool_decide (TextMatchingConfig.MatchMode config = "any")
          then inl true
          else matchLoop config text rest (matchCount + 1)
        else matchLoop config text rest matchCount
  end.

Definition checkTextMatching (config : TextMatchingConfig.t)
    (responseBody : string) : bool :=
  if Z.of_nat (length (TextMatchingConfig.Texts config)) =? 0
  then 0 <? GoStrings.len responseBody
  else
    let text :=
      if negb (TextMatchingConfig.CaseSensitive config)
      then GoStrings.ToLower responseBody else responseBody in
    match matchLoop config text (TextMatchingConfig.Texts config) 0 with
    | inl returned => returned
    | inr matchCount =>
        if bool_decide (TextMatchingConfig.MatchMode config = "all")
        then matchCount =? Z.of_nat (length (TextMatchingConfig.Texts config))
        else 0 <? matchCount
    end.

Definition checkLengthRange (config : LengthRangeConfig.t)
    (responseBody : string) : bool :=
  let length := GoStrings.len responseBody in
  if length <? LengthRangeConfig.MinLength config then false
  else if (0 <? LengthRangeConfig.MaxLength config)
          && (LengthRangeConfig.MaxLength config <? length) then false
  else true.

(** The result of [EvaluateConfig] once the status code has passed the
    2xx gate: text matching, then the length range, then the
    configuration error. *)
Definition afterStatusGate (config : ValidationConfig.t)
    (response : ResponseData.t) : bool * option Err :=
  if TextMatchingConfig.Enabled (ValidationConfig.TextMatching config)
  then (checkTextMatching (ValidationConfig.TextMatching config)
          (ResponseData.Body response), None)
  else if LengthRangeConfig.Enabled (ValidationConfig.LengthRange config)
  then (checkLengthRange (ValidationConfig.LengthRange config)
          (ResponseData.Body response), None)
  else (false, Some NoValidationRule).

(** The grammar of the specification, in its words: the fields of
    [response], the method [response.json()], the nine free functions, the
    ten operators, literals, the constants [true], [false] and [nil], and
    parentheses.  The name [response] itself is the binding the fields hang
    from. *)
Definition specFields : list string :=
  ["status_code"; "text"; "content"; "headers"; "cookies"; "url"; "elapsed";
   "encoding"; "reason"].

Definition specFunctions : list string :=
  ["len"; "str"; "int"; "float"; "bool"; "lower"; "upper"; "strip"; "json"].

Definition specOperators : list string :=
  ["=="; "!="; "<"; "<="; ">"; ">="; "&&"; "||"; "!"; "in"].

Definition specConstants : list string := ["true"; "false"; "nil"].

#[warnings="-register-all"] Inductive SpecAllowed : Expr -> Prop :=
| SA_literal (value : string) : SpecAllowed (BasicLit value)
| SA_constant (name : string) :
    name ∈ specConstants -> SpecAllowed (Ident name)
| SA_response : SpecAllowed (Ident "response")
| SA_field (sel : string) :
    sel ∈ specFields -> SpecAllowed (SelectorExpr (Ident "response") sel)
| SA_paren (x : Expr) : SpecAllowed x -> SpecAllowed (ParenExpr x)
| SA_unary (op : Token) (x : Expr) :
    Token_String op ∈ specOperators -> SpecAllowed x ->
    SpecAllowed (UnaryExpr op x)
| SA_binary (x : Expr) (op : Token) (y : Expr) :
    Token_String op ∈ specOperators -> SpecAllowed x -> SpecAllowed y ->
    SpecAllowed (BinaryExpr x op y)
| SA_function (name : string) (args : list Expr) :
    name ∈ specFunctions -> Forall SpecAllowed args ->
    SpecAllowed (CallExpr (Ident name) args)
| SA_json (args : list Expr) :
    Forall SpecAllowed args ->
    SpecAllowed (CallExpr (SelectorExpr (Ident "response") "json") args).

(** Every call that the walk reaches has an identifier or a selector as
    its target. *)
Fixpoint plainCallTargets (node : Expr) : bool :=
  match node with
  | BinaryExpr x _ y => plainCallTargets x && plainCallTargets y
  | UnaryExpr _ x => plainCallTargets x
  | CallExpr f args =>
      match f with
      | Ident _ | SelectorExpr _ _ => true
      | _ => false
      end
      && (fix allPlain (l : list Expr) : bool :=
            match l with
            | [] => true
            | arg :: rest => plainCallTargets arg && allPlain rest
            end) args
  | ParenExpr x => plainCallTargets x
  | SelectorExpr _ _ | Ident _ | BasicLit _ | OtherExpr _ => true
  end.

Section Expressions.

(** [go/parser.ParseExpr]: the syntax tree of the expression, or the
    parser's message. *)
Variable ParseExpr : string -> Expr + string.

(** [evaluateSimpleExpression] applied to the map that
    [createResponseMap] builds from the response. *)
Variable evaluateSimpleExpression :
  string -> ResponseData.t -> bool * option string.

Definition ValidateExpression (expression : string) : option Err :=
  if bool_decide (GoStrings.TrimSpace expression = "") then Some EmptyExpression
  else match ParseExpr expression with
       | inr msg => Some (SyntaxError msg)
       | inl expr => validateASTNode expr
       end.

Definition EvaluateExpression (expression : string)
    (response : ResponseData.t) : bool * option Err :=
  match ValidateExpression expression with
  | Some err => (false, Some err)
  | None =>
      match evaluateSimpleExpression expression response with
      | (_, Some msg) => (false, Some (EvaluationFailed msg))
      | (result, None) => (result, None)
      end
  end.

Definition EvaluateConfig (config : ValidationConfig.t)
    (response : ResponseData.t) : bool * option Err :=
  if ValidationConfig.UseCustomExpr config
     && negb (bool_decide (ValidationConfig.Expression config = ""))
  then EvaluateExpression (ValidationConfig.Expression config) response
  else if (ResponseData.StatusCode response <? 200)
          || (300 <=? ResponseData.StatusCode response)
  then (false, None)
  else if TextMatchingConfig.Enabled (ValidationConfig.TextMatching config)
  then (checkTextMatching (ValidationConfig.TextMatching config)
          (ResponseData.Body response), None)
  else if LengthRangeConfig.Enabled (ValidationConfig.LengthRange config)
  then (checkLengthRange (ValidationConfig.LengthRange config)
          (ResponseData.Body response), None)
  else (false, Some NoValidationRule).

End Expressions.

End Validator.

(** ** Package [manager]: [ExpressionManager.ValidateExpression] *)

Module Manager.

Inductive Err : Type :=
| EmptyExpression
| MissingResponse.

(** The check behind the service's [ValidateExpression]: the expression is
    not empty and the word [response] occurs in it. *)
Definition ValidateExpression (expression : string) : option Err :=
  if bool_decide (expression = "") then Some EmptyExpression
  else if negb (GoStrings.Contains expression "response") then Some MissingResponse
  else None.

End Manager.

(** ** Package [encoding]: calibration detection *)

Module Encoding.

(** An [encoding.Encoding] is used through [decodeBytes] only: the decoded
    text, or the error of the transforming reader. *)
Definition Decoder : Type := string -> string + string.

Inductive Err : Type :=
| NoMatchingEncoding (calibrationText : string)
| UnsupportedEncoding (name : string)
| DecodeError (msg : string).

(** The loop of [DetectEncoding] over the registry, in the order the
    runtime enumerates it.  The second component lists the codecs that
    were run on the data. *)
Fixpoint detectLoop (data calibrationText : string)
    (encodings : list (string * Decoder)) (tried : list string)
    : (string * option Err) * list string :=
  match encodings with
  | [] => (("", Some (NoMatchingEncoding calibrationText)), tried)
  | (encodingName, enc) :: rest =>
      match enc data with
      | inr _ => detectLoop data calibrationText rest (tried ++ [encodingName])
      | inl decoded =>
          if GoStrings.Contains decoded calibrationText
          then ((encodingName, None), tried ++ [encodingName])
          else detectLoop data calibrationText rest (tried ++ [encodingName])
      end
  end.

Definition DetectEncoding (encodings : list (string * Decoder))
    (data calibrationText : string) : (string * option Err) * list string :=
  if bool_decide (calibrationText = "") then (("UTF-8", None), [])
  else detectLoop data calibrationText encodings [].

Definition DecodeWithEncoding (encodings : gmap string Decoder)
    (data encodingName : string) : string + Err :=
  match encodings !! encodingName with
  | None => inr (UnsupportedEncoding encodingName)
  | Some enc =>
      match enc data with
      | inl decoded => inl decoded
      | inr msg => inr (DecodeError msg)
      end
  end.

End Encoding.

(** ** Package [parser]: the curl command parser *)

Module CurlParser.
Import Models.

Inductive Err : Type :=
| EmptyCommand
| URLNotFound
| QueryParseError (msg : string).

(** The class [\s] of Go's [regexp]: tab, line feed, form feed, carriage
    return and space. *)
Definition reSpace (c : ascii) : bool :=
  match c with
  | "009" | "010" | "012" | "013" | " " => true
  | _ => false
  end%char.

(** Whether the run of [\s] bytes at the head of [s] holds a line feed. *)
Fixpoint runHasNewline (s : string) : bool :=
  match s with
  | String c s' =>
      if reSpace c
      then if bool_decide (c = "010"%char) then true else runHasNewline s'
      else false
  | EmptyString => false
  end.

(** The first replacement of [cleanCurlCommand]: a backslash followed by a
    run of [\s] bytes with a line feed in it becomes one space.
    [skipping] is set while the rest of such a run is passed over. *)
Fixpoint joinContinuations (s : string) (skipping : bool) : string :=
  match s with
  | EmptyString => EmptyString
  | String c s' =>
      if skipping && reSpace c then joinContinuations s' true
      else if bool_decide (c = "\"%char) && runHasNewline s'
      then String " " (joinContinuations s' true)
      else String c (joinContinuations s' false)
  end.

(** The second replacement: every run of [\s] bytes becomes one space. *)
Fixpoint collapseSpaces (s : string) (inRun : bool) : string :=
  match s with
  | EmptyString => EmptyString
  | String c s' =>
      if reSpace c
      then if inRun then collapseSpaces s' true
           else String " " (collapseSpaces s' true)
      else String c (collapseSpaces s' false)
  end.

Definition cleanCurlCommand (command : string) : string :=
  GoStrings.TrimSpace (collapseSpaces (joinContinuations command false) false).

(** The local variables of [parseCurlArgs].  The loop runs over the bytes
    of the command; the source runs over its runes and writes them with
    [WriteRune], which is the same for a command that [UTF8.ValidString]
    accepts, since every byte it tests is an ASCII one.  For a byte that
    begins no well-formed encoding the source writes [EF BF BD] where this
    loop keeps the byte. *)
Record ArgState : Type := mkArgState {
  args : list string;
  current : string;
  inQuotes : bool;
  quoteChar : ascii;
  escaped : bool
}.

Definition argStep (st : ArgState) (char : ascii) : ArgState :=
  if escaped st then
    mkArgState (args st) (current st +:+ String char EmptyString)
      (inQuotes st) (quoteChar st) false
  else if bool_decide (char = "\"%char) then
    mkArgState (args st) (current st) (inQuotes st) (quoteChar st) true
  else if negb (inQuotes st)
          && (bool_decide (char = "034"%char) || bool_decide (char = "'"%char)) then
    mkArgState (args st) (current st) true char false
  else if inQuotes st && bool_decide (char = quoteChar st) then
    mkArgState (args st) (current st) false (quoteChar st) false
  else if negb (inQuotes st) && bool_decide (char = " "%char) then
    if 0 <? GoStrings.len (current st)
    then mkArgState (args st ++ [current st]) EmptyString false (quoteChar st) false
    else st
  else
    mkArgState (args st) (current st +:+ String char EmptyString)
      (inQuotes st) (quoteChar st) false.

Fixpoint argLoop (command : string) (st : ArgState) : ArgState :=
  match command with
  | EmptyString => st
  | String char rest => argLoop rest (argStep st char)
  end.

Definition parseCurlArgs (command : string) : list string :=
  let st := argLoop command (mkArgState [] EmptyString false "000"%char false) in
  if 0 <? GoStrings.len (current st) then args st ++ [current st] else args st.

(** [args[i]] for an index in range. *)
Definition at_ (l : list string) (i : Z) : string :=
  nth (Z.to_nat i) l EmptyString.

(** The [range] loop of [extractURL]; [rest] is what is left to visit and
    [i] the index of its head.  The body's [i++] changes the iteration
    variable of this pass only: [range] assigns it again from its own
    counter before the next pass, so the value never reaches the loop. *)
Fixpoint extractURLLoop (all : list string) (i : Z) (rest : list string) : string :=
  match rest with
  | [] => EmptyString
  | arg :: rest' =>
      if bool_decide (arg = "curl") then extractURLLoop all (i + 1) rest'
      else if GoStrings.HasPrefix arg "-" then
        let i_body :=
          if (i + 1 <? Z.of_nat (length all))
             && negb (GoStrings.HasPrefix (at_ all (i + 1)) "-")
          then i + 1 else i in
        extractURLLoop all (i + 1) rest'
      else arg
  end.

Definition extractURL (args : list string) : string :=
  extractURLLoop args 0 args.

Fixpoint extractMethodLoop (all : list string) (i : Z) (rest : list string) : string :=
  match rest with
  | [] => "GET"
  | arg :: rest' =>
      if (bool_decide (arg = "-X") || bool_decide (arg = "--request"))
         && (i + 1 <? Z.of_nat (length all))
      then GoStrings.ToUpper (at_ all (i + 1))
      else extractMethodLoop all (i + 1) rest'
  end.

Definition extractMethod (args : list string) : string :=
  extractMethodLoop args 0 args.

Fixpoint extractHeadersLoop (all : list string) (i : Z) (rest : list string)
    (headers : gmap string string) : gmap string string :=
  match rest with
  | [] => headers
  | arg :: rest' =>
      if (bool_decide (arg = "-H") || bool_decide (arg = "--header"))
         && (i + 1 <? Z.of_nat (length all))
      then
        let headerValue := at_ all (i + 1) in
        let colonIndex := GoStrings.Index headerValue ":" in
        if 0 <? colonIndex then
          let key := GoStrings.TrimSpace (GoStrings.sliceTo headerValue colonIndex) in
          let value :=
            GoStrings.TrimSpace (GoStrings.sliceFrom headerValue (colonIndex + 1)) in
          extractHeadersLoop all (i + 1) rest' (<[key := value]> headers)
        else extractHeadersLoop all (i + 1) rest' headers
      else extractHeadersLoop all (i + 1) rest' headers
  end.

Definition extractHeaders (args : list string) : gmap string string :=
  extractHeadersLoop args 0 args ∅.

(** The inner loop shared by [extractCookies] and the raw parser's
    [parseCookieHeader]: one [name=value] pair per [;]-separated piece. *)
Fixpoint cookiePairs (pairs : list string) (cookies : gmap string string)
    : gmap string string :=
  match pairs with
  | [] => cookies
  | piece :: rest =>
      let piece := GoStrings.TrimSpace piece in
      let equalIndex := GoStrings.Index piece "=" in
      if 0 <? equalIndex then
        let name := GoStrings.TrimSpace (GoStrings.sliceTo piece equalIndex) in
        let value := GoStrings.TrimSpace (GoStrings.sliceFrom piece (equalIndex + 1)) in
        cookiePairs rest (<[name := value]> cookies)
      else cookiePairs rest cookies
  end.

Fixpoint extractCookiesLoop (all : list string) (i : Z) (rest : list string)
    (cookies : gmap string string) : gmap string string :=
  match rest with
  | [] => cookies
  | arg :: rest' =>
      if (bool_decide (arg = "-b") || bool_decide (arg = "--cookie"))
         && (i + 1 <? Z.of_nat (length all))
      then extractCookiesLoop all (i + 1) rest'
             (cookiePairs (GoStrings.Split (at_ all (i + 1)) ";") cookies)
      else extractCookiesLoop all (i + 1) rest' cookies
  end.

Definition extractCookies (args : list string) : gmap string string :=
  extractCookiesLoop args 0 args ∅.

Fixpoint extractBodyLoop (all : list string) (i : Z) (rest : list string) : string :=
  match rest with
  | [] => EmptyString
  | arg :: rest' =>
      if (bool_decide (arg = "-d") || bool_decide (arg = "--data")
          || bool_decide (arg = "--data-raw"))
         && (i + 1 <? Z.of_nat (length all))
      then at_ all (i + 1)
      else extractBodyLoop all (i + 1) rest'
  end.

Definition extractBody (args : list string) : string :=
  extractBodyLoop args 0 args.

(** [headers["Content-Type"]], then [headers["content-type"]] when the
    first is empty or missing. *)
Definition contentTypeOf (headers : gmap string string) : string :=
  let contentType := default EmptyString (headers !! "Content-Type") in
  if bool_decide (contentType = "")
  then default EmptyString (headers !! "content-type")
  else contentType.

Section WithURL.

(** [url.Parse] followed by [URL.Query]: the values of every query key,
    or the parse error. *)
Variable urlQuery : string -> gmap string (list string) + string.

Definition parseQueryParams (requestURL : string)
    : gmap string string + string :=
  match urlQuery requestURL with
  | inr msg => inr msg
  | inl values => inl (omap head values)
  end.

Definition Parse (curlCommand : string) : ParsedRequest.t + Err :=
  if bool_decide (GoStrings.TrimSpace curlCommand = "") then inr EmptyCommand
  else
    let cleanCommand := cleanCurlCommand curlCommand in
    let args := parseCurlArgs cleanCommand in
    let requestURL := extractURL args in
    if bool_decide (requestURL = "") then inr URLNotFound
    else
      let method := extractMethod args in
      let headers := extractHeaders args in
      let cookies := extractCookies args in
      let body := extractBody args in
      match parseQueryParams requestURL with
      | inr msg => inr (QueryParseError msg)
      | inl queryParams =>
          inl (ParsedRequest.mk method requestURL headers cookies body
                 queryParams (contentTypeOf headers))
      end.

End WithURL.

Definition IsCurlCommand (input : string) : bool :=
  let trimmed := GoStrings.TrimSpace input in
  GoStrings.HasPrefix trimmed "curl " || bool_decide (trimmed = "curl").

End CurlParser.

(** ** Package [parser]: the raw HTTP request parser *)

Module RawParser.
Import Models.

Inductive LineErr : Type :=
| InvalidRequestLine
| UnsupportedMethod (method : string).

Inductive Err : Type :=
| EmptyRequest
| InvalidFormat
| RequestLineError (err : LineErr)
| QueryParseError (msg : string).

Definition validMethods : list string :=
  ["GET"; "POST"; "PUT"; "DELETE"; "PATCH"; "HEAD"; "OPTIONS"].

Definition parseRequestLine (line : string) : (string * string) + LineErr :=
  let parts := GoStrings.Fields line in
  if Z.of_nat (length parts) <? 2 then inr InvalidRequestLine
  else
    let method := GoStrings.ToUpper (CurlParser.at_ parts 0) in
    let url := CurlParser.at_ parts 1 in
    if existsb (fun validMethod => bool_decide (method = validMethod)) validMethods
    then inl (method, url)
    else inr (UnsupportedMethod method).

Definition parseCookieHeader (cookieHeader : string) : gmap string string :=
  CurlParser.cookiePairs (GoStrings.Split cookieHeader ";") ∅.

(** The loop over [lines[1:]] that fills [headers] and [cookies] and stops
    at the first blank line; the last component is [bodyStartIndex], which
    stays [0] when no blank line is met.  Copying [cookieMap] into
    [cookies] key by key is the union that prefers [cookieMap]. *)
Fixpoint headerLoop (i : Z) (rest : list string)
    (headers cookies : gmap string string)
    : gmap string string * gmap string string * Z :=
  match rest with
  | [] => (headers, cookies, 0)
  | l :: rest' =>
      let line := GoStrings.TrimSpace l in
      if bool_decide (line = "") then (headers, cookies, i + 1)
      else
        let colonIndex := GoStrings.Index line ":" in
        if 0 <? colonIndex then
          let key := GoStrings.TrimSpace (GoStrings.sliceTo line colonIndex) in
          let value := GoStrings.TrimSpace (GoStrings.sliceFrom line (colonIndex + 1)) in
          let cookies' :=
            if bool_decide (GoStrings.ToLower key = "cookie")
            then parseCookieHeader value ∪ cookies else cookies in
          headerLoop (i + 1) rest' (<[key := value]> headers) cookies'
        else headerLoop (i + 1) rest' headers cookies
  end.

Section WithURL.

Variable urlQuery : string -> gmap string (list string) + string.

Definition Parse (rawRequest : string) : ParsedRequest.t + Err :=
  if bool_decide (GoStrings.TrimSpace rawRequest = "") then inr EmptyRequest
  else
    let lines :=
      GoStrings.Split
        (GoStrings.ReplaceAll rawRequest GoStrings.CRLF GoStrings.LF)
        GoStrings.LF in
    match lines with
    | [] => inr InvalidFormat
    | first :: others =>
        let requestLine := GoStrings.TrimSpace first in
        match parseRequestLine requestLine with
        | inr err => inr (RequestLineError err)
        | inl (method, requestURL) =>
            let '(headers, cookies, bodyStartIndex) := headerLoop 1 others ∅ ∅ in
            let body :=
              if bodyStartIndex <? Z.of_nat (length lines)
              then GoStrings.TrimSpace
                     (GoStrings.Join (drop (Z.to_nat bodyStartIndex) lines) GoStrings.LF)
              else EmptyString in
            match CurlParser.parseQueryParams urlQuery requestURL with
            | inr msg => inr (QueryParseError msg)
            | inl queryParams =>
                inl (ParsedRequest.mk method requestURL headers cookies body
                       queryParams (CurlParser.contentTypeOf headers))
            end
        end
    end.

End WithURL.

Fixpoint dropWhile (f : ascii -> bool) (s : string) : string :=
  match s with
  | EmptyString => EmptyString
  | String c s' => if f c then dropWhile f s' else s
  end.

Definition headIs (f : ascii -> bool) (s : string) : bool :=
  match s with
  | EmptyString => false
  | String c _ => f c
  end.

Definition isDigit (c : ascii) : bool :=
  let n := N_of_ascii c in ((48 <=? n) && (n <=? 57))%N.

(** The end of the pattern, [(\s+HTTP/\d\.\d)?$], on what follows the
    URL token. *)
Definition matchVersion (s : string) : bool :=
  match s with
  | EmptyString => true
  | _ =>
      headIs CurlParser.reSpace s &&
      match dropWhile CurlParser.reSpace s with
      | String "H" (String "T" (String "T" (String "P" (String "/"
          (String d1 (String "." (String d2 EmptyString))))))) =>
          isDigit d1 && isDigit d2
      | _ => false
      end
  end.

(** The middle of the pattern, [\s+\S+], then its end. *)
Definition matchAfterMethod (s : string) : bool :=
  headIs CurlParser.reSpace s &&
  let url := dropWhile CurlParser.reSpace s in
  headIs (fun c => negb (CurlParser.reSpace c)) url &&
  matchVersion (dropWhile (fun c => negb (CurlParser.reSpace c)) url).

(** [regexp.MatchString] of
    [^(GET|POST|PUT|DELETE|PATCH|HEAD|OPTIONS)\s+\S+(\s+HTTP/\d\.\d)?$]. *)
Definition matchRequestLine (line : string) : bool :=
  existsb
    (fun method =>
       GoStrings.HasPrefix line method &&
       matchAfterMethod (GoStrings.sliceFrom line (GoStrings.len method)))
    validMethods.

Definition IsRawRequest (input : string) : bool :=
  match GoStrings.Split (GoStrings.TrimSpace input) GoStrings.LF with
  | [] => false
  | first :: _ => matchRequestLine (GoStrings.TrimSpace first)
  end.

End RawParser.

(** ** Package [parser]: the unified parser *)

Module UnifiedParser.
Import Models.

Inductive Err : Type :=
| EmptyInput
| UnknownFormat
| UnsupportedInputType (inputType : string)
| CurlError (err : CurlParser.Err)
| RawError (err : RawParser.Err).

Definition DetectInputType (input : string) : string :=
  let trimmed := GoStrings.TrimSpace input in
  if CurlParser.IsCurlCommand trimmed then "curl"
  else if RawParser.IsRawRequest trimmed then "raw"
  else "unknown".

Section WithURL.

Variable urlQuery : string -> gmap string (list string) + string.

Definition viaCurl (input : string) : ParsedRequest.t + Err :=
  match CurlParser.Parse urlQuery input with
  | inl req => inl req
  | inr err => inr (CurlError err)
  end.

Definition viaRaw (input : string) : ParsedRequest.t + Err :=
  match RawParser.Parse urlQuery input with
  | inl req => inl req
  | inr err => inr (RawError err)
  end.

Definition Parse (input : string) : ParsedRequest.t + Err :=
  if bool_decide (GoStrings.TrimSpace input = "") then inr EmptyInput
  else
    let inputType := DetectInputType input in
    if bool_decide (inputType = "curl") then viaCurl input
    else if bool_decide (inputType = "raw") then viaRaw input
    else inr UnknownFormat.

Definition ParseWithType (input inputType : string) : ParsedRequest.t + Err :=
  let t := GoStrings.ToLower inputType in
  if bool_decide (t = "curl") then viaCurl input
  else if bool_decide (t = "raw") || bool_decide (t = "http") then viaRaw input
  else inr (UnsupportedInputType inputType).

End WithURL.

End UnifiedParser.

(** ** Go's [net/http] and [net/textproto], as far as [createHTTPRequest]
    uses them *)

Module NetHTTP.

(** [validHeaderFieldByte]: the token bytes of RFC 7230. *)
Definition validHeaderFieldByte (c : ascii) : bool :=
  let n := N_of_ascii c in
  (((48 <=? n) && (n <=? 57)) || ((65 <=? n) && (n <=? 90))
   || ((97 <=? n) && (n <=? 122)))%N
  || match c with
     | "!" | "#" | "$" | "%" | "&" | "'" | "*" | "+" | "-" | "." | "^"
     | "_" | "`" | "|" | "~" => true
     | _ => false
     end%char.

Fixpoint allValid (s : string) : bool :=
  match s with
  | EmptyString => true
  | String c s' => validHeaderFieldByte c && allValid s'
  end.

(** Upper case for the first letter and for a letter after a dash, lower
    case for the others. *)
Fixpoint canonicalCase (upper : bool) (s : string) : string :=
  match s with
  | EmptyString => EmptyString
  | String c s' =>
      let c' := if upper then GoStrings.upperByte c else GoStrings.lowerByte c in
      String c' (canonicalCase (bool_decide (c' = "-"%char)) s')
  end.

(** [textproto.CanonicalMIMEHeaderKey]: a key with a space or another
    byte that is not a token byte is returned as it is. *)
Definition CanonicalMIMEHeaderKey (s : string) : string :=
  if allValid s then canonicalCase true s else s.

(** [http.Header] is a [map[string][]string]. *)
Abbreviation Header := (gmap string (list string)).

(** [Header.Set]: the values under the canonical key are replaced. *)
Definition Header_Set (h : Header) (key value : string) : Header :=
  <[CanonicalMIMEHeaderKey key := [value]]> h.

(** [Header.Get]: the first value under the canonical key, or [""]. *)
Definition Header_Get (h : Header) (key : string) : string :=
  match h !! CanonicalMIMEHeaderKey key with
  | Some (v :: _) => v
  | _ => EmptyString
  end.

(** [sanitizeCookieName]: line breaks become dashes. *)
Fixpoint sanitizeCookieName (n : string) : string :=
  match n with
  | EmptyString => EmptyString
  | String c n' =>
      String (if bool_decide (c = "010"%char) || bool_decide (c = "013"%char)
              then "-"%char else c)
        (sanitizeCookieName n')
  end.

Definition validCookieValueByte (c : ascii) : bool :=
  let n := N_of_ascii c in
  ((32 <=? n) && (n <? 127))%N
  && negb (bool_decide (c = "034"%char)) && negb (bool_decide (c = ";"%char))
  && negb (bool_decide (c = "\"%char)).

Fixpoint keepValid (v : string) : string :=
  match v with
  | EmptyString => EmptyString
  | String c v' =>
      if validCookieValueByte c then String c (keepValid v') else keepValid v'
  end.

Fixpoint hasSpaceOrComma (v : string) : bool :=
  match v with
  | EmptyString => false
  | String c v' =>
      bool_decide (c = " "%char) || bool_decide (c = ","%char) || hasSpaceOrComma v'
  end.

(** [sanitizeCookieValue] for a cookie that is not marked as quoted. *)
Definition sanitizeCookieValue (v : string) : string :=
  let v := keepValid v in
  if bool_decide (v = "") then v
  else if hasSpaceOrComma v
  then String "034" (v +:+ String "034" EmptyString)
  else v.

(** [Request.AddCookie]: the pair [name=value] goes on the one [Cookie]
    line, after what the line already holds. *)
Definition AddCookie (h : Header) (name value : string) : Header :=
  let s := sanitizeCookieName name +:+ "=" +:+ sanitizeCookieValue value in
  let c := Header_Get h "Cookie" in
  if negb (bool_decide (c = ""))
  then Header_Set h "Cookie" (c +:+ "; " +:+ s)
  else Header_Set h "Cookie" s.

(** [Header.has]: the key as it is given is in the map. *)
Definition Header_has (h : Header) (key : string) : bool :=
  bool_decide (is_Some (h !! key)).

(** The constant [defaultUserAgent]. *)
Definition defaultUserAgent : string := "Go-http-client/1.1".

(** The replacer [headerNewlineToSpace]: a line feed and a carriage return
    become a space. *)
Fixpoint headerNewlineToSpace (s : string) : string :=
  match s with
  | EmptyString => EmptyString
  | String c s' =>
      String (if bool_decide (c = "010"%char) || bool_decide (c = "013"%char)
              then " "%char else c)
        (headerNewlineToSpace s')
  end.

(** [isASCIISpace] of [net/textproto]. *)
Definition isASCIISpace (c : ascii) : bool :=
  match c with
  | " " | "009" | "010" | "013" => true
  | _ => false
  end%char.

Fixpoint trimStart (s : string) : string :=
  match s with
  | EmptyString => EmptyString
  | String c s' => if isASCIISpace c then trimStart s' else s
  end.

Fixpoint trimEnd (s : string) : string :=
  match s with
  | EmptyString => EmptyString
  | String c s' =>
      match trimEnd s' with
      | EmptyString => if isASCIISpace c then EmptyString else String c EmptyString
      | t => String c t
      end
  end.

(** [textproto.TrimString]. *)
Definition TrimString (s : string) : string := trimEnd (trimStart s).

(** What [Request.write], with which the client puts an HTTP/1.1 request
    on the wire, writes as the [User-Agent] line, [None] when it writes
    none.  It takes [defaultUserAgent] unless the header map has the key
    [User-Agent], whose value may be empty to send no such line.  The
    header map itself is written afterwards without the key
    [User-Agent]. *)
Definition writeUserAgent (h : Header) : option string :=
  let userAgent :=
    if Header_has h "User-Agent" then Header_Get h "User-Agent"
    else defaultUserAgent in
  if negb (bool_decide (userAgent = ""))
  then Some (TrimString (headerNewlineToSpace userAgent))
  else None.

(** The part of an [*http.Request] that [createHTTPRequest] fills. *)
Record Request : Type := mkRequest {
  Method : string;
  URL : string;
  Body : option string;
  Header_ : Header
}.

End NetHTTP.

(** ** Package [tester]: [request_tester.go] *)

Module Tester.
Import Models.

(** The header loop of [createHTTPRequest] over the entries of
    [req.Headers] in the order of the [range]. *)
Fixpoint setHeaders (headers : list (string * string)) (h : NetHTTP.Header)
    : NetHTTP.Header :=
  match headers with
  | [] => h
  | (key, value) :: rest =>
      if bool_decide (GoStrings.ToLower key = "user-agent")
         && bool_decide (value = "")
      then setHeaders rest h
      else setHeaders rest (NetHTTP.Header_Set h key value)
  end.

(** The cookie loop of [createHTTPRequest]. *)
Fixpoint addCookies (cookies : list (string * string)) (h : NetHTTP.Header)
    : NetHTTP.Header :=
  match cookies with
  | [] => h
  | (name, value) :: rest => addCookies rest (NetHTTP.AddCookie h name value)
  end.

(** The header map of the request after both loops, starting from the
    empty map that replaces the default one. *)
Definition outgoingHeader (headerOrder cookieOrder : list (string * string))
    : NetHTTP.Header :=
  addCookies cookieOrder (setHeaders headerOrder ∅).

Section HTTP.

(** The error of [http.NewRequest] for a method and a URL, [None] when
    it builds the request. *)
Variable NewRequest_error : string -> string -> option string.

(** [createHTTPRequest]; [headerOrder] and [cookieOrder] are the orders
    in which the two [range] loops visit [req.Headers] and
    [req.Cookies]. *)
Definition createHTTPRequest (req : ParsedRequest.t)
    (headerOrder cookieOrder : list (string * string))
    : NetHTTP.Request + string :=
  let body :=
    if negb (bool_decide (ParsedRequest.Body req = ""))
    then Some (ParsedRequest.Body req) else None in
  match NewRequest_error (ParsedRequest.Method req) (ParsedRequest.URL req) with
  | Some err => inr err
  | None =>
      inl (NetHTTP.mkRequest (ParsedRequest.Method req) (ParsedRequest.URL req)
             body (outgoingHeader headerOrder cookieOrder))
  end.

End HTTP.

(** Go's [int] and [int64] arithmetic: the result is reduced to 64 bits,
    two's complement. *)
Definition wrap64 (z : Z) : Z := (z + 2 ^ 63) mod 2 ^ 64 - 2 ^ 63.

(** [time.Millisecond], in nanoseconds. *)
Definition Millisecond : Z := 1000000.

(** [time.Duration(100*(1<<attempt)) * time.Millisecond]. *)
Definition waitTime (attempt : Z) : Z :=
  wrap64 (wrap64 (100 * wrap64 (Z.shiftl 1 attempt)) * Millisecond).

(** What [TestRequestWithRetry] does to the outside: it sends the
    request, and it sleeps. *)
Inductive Event : Type :=
| Attempt (attempt : Z)
| Sleep (nanoseconds : Z).

Inductive Err : Type :=
| RetriesExhausted (maxRetries : Z) (lastErr : string).

Section Retry.

(** The state of the network and of the server. *)
Context {World : Type}.

(** [TestRequest]: the response or the transport error, and the world
    after the exchange. *)
Variable TestRequest :
  ParsedRequest.t -> ValidationConfig.t -> World ->
  (ResponseData.t + string) * World.

(** The [for] loop of [TestRequestWithRetry].  [fuel] bounds the number
    of passes; [None] means that the bound was reached. *)
Fixpoint retryLoop (fuel : nat) (req : ParsedRequest.t)
    (config : ValidationConfig.t) (maxRetries attempt : Z)
    (lastErr : string) (w : World) (trace : list Event)
    : option ((ResponseData.t + Err) * World * list Event) :=
  match fuel with
  | O => None
  | S fuel' =>
      if attempt <=? maxRetries then
        let '(outcome, w') := TestRequest req config w in
        let trace' := trace ++ [Attempt attempt] in
        match outcome with
        | inl response => Some (inl response, w', trace')
        | inr err =>
            let trace'' :=
              if attempt <? maxRetries
              then trace' ++ [Sleep (waitTime attempt)] else trace' in
            retryLoop fuel' req config maxRetries (wrap64 (attempt + 1))
              err w' trace''
        end
      else Some (inr (RetriesExhausted maxRetries lastErr), w, trace)
  end.

Definition TestRequestWithRetry (fuel : nat) (req : ParsedRequest.t)
    (config : ValidationConfig.t) (w : World)
    : option ((ResponseData.t + Err) * World * list Event) :=
  let maxRetries :=
    if ValidationConfig.MaxRetries config <=? 0 then 3
    else ValidationConfig.MaxRetries config in
  retryLoop fuel req config maxRetries 0 EmptyString w [].

End Retry.

(** The events of the attempts [first], ..., [first + more] when all of
    them fail but possibly the last: a sleep of [waitTime k] after attempt
    [k], none after the last. *)
Fixpoint schedule (first : Z) (more : nat) : list Event :=
  match more with
  | O => [Attempt first]
  | S more' => Attempt first :: Sleep (waitTime first) :: schedule (first + 1) more'
  end.

(** The number of requests sent in a trace. *)
Fixpoint attempts (trace : list Event) : Z :=
  match trace with
  | [] => 0
  | Attempt _ :: rest => 1 + attempts rest
  | Sleep _ :: rest => attempts rest
  end.

(** The two filtering loops of [generateSimplifiedRequestFromCumulative]:
    a field marked required is copied from the original request when the
    original has it. *)
Fixpoint keepRequired (originalFields : gmap string string)
    (results : list (string * FieldTestResult.t))
    (simplified : gmap string string) : gmap string string :=
  match results with
  | [] => simplified
  | (name, result) :: rest =>
      if FieldTestResult.Required result then
        match originalFields !! name with
        | Some value => keepRequired originalFields rest (<[name := value]> simplified)
        | None => keepRequired originalFields rest simplified
        end
      else keepRequired originalFields rest simplified
  end.

(** A loop that copies the entries of a map into another one. *)
Fixpoint copyInto (entries : list (string * string))
    (target : gmap string string) : gmap string string :=
  match entries with
  | [] => target
  | (key, value) :: rest => copyInto rest (<[key := value]> target)
  end.

(** [generateSimplifiedRequestFromCumulative]; the three lists are the
    orders in which the [range] loops visit [results.Headers],
    [results.Cookies] and [original.QueryParams]. *)
Definition generateSimplifiedRequestFromCumulative
    (original : ParsedRequest.t)
    (headerResults cookieResults : list (string * FieldTestResult.t))
    (queryOrder : list (string * string)) : ParsedRequest.t :=
  ParsedRequest.mk
    (ParsedRequest.Method original)
    (ParsedRequest.URL original)
    (keepRequired (ParsedRequest.Headers original) headerResults ∅)
    (keepRequired (ParsedRequest.Cookies original) cookieResults ∅)
    (ParsedRequest.Body original)
    (copyInto queryOrder ∅)
    (ParsedRequest.ContentType original).

End Tester.

(** ** Package [tester]: the cumulative removal *)

Module Minimizer.
Import Models Tester.

Module TestResult.
Record t : Type := mk {
  FieldName : string;
  FieldType : string;
  IsRequired : bool;
  TestPassed : bool;
  ErrorMsg : string;
  StatusCode : Z;
  ResponseMsg : string
}.
End TestResult.

(** The messages of the progress events, one constructor per format
    string. *)
Inductive Message : Type :=
| TestingOriginal
| TestingHeader (name : string)
| DoneHeader (name : string)
| DoneHeaderPreserved (name : string)
| TestingCookie (name : string)
| DoneCookie (name : string)
| Finished.

(** [models.TestProgress]; the percentage, a float computed from the two
    counters, is left out. *)
Module TestProgress.
Record t : Type := mk {
  CurrentStep : Message;
  TotalSteps : Z;
  CompletedSteps : Z;
  FieldResult : option TestResult.t
}.
End TestProgress.

Module CumulativeTestState.
Record t : Type := mk {
  Headers : gmap string string;
  Cookies : gmap string string
}.
End CumulativeTestState.

(** Why a batch stops at the original request. *)
Inductive BatchErr : Type :=
| OriginalRequestFailed (err : string)
| OriginalValidationError (err : Validator.Err)
| OriginalNotPassed.

(** [models.BatchTestResult], without the generated code and the
    duration. *)
Module BatchTestResult.
Record t : Type := mk {
  OriginalRequest : ParsedRequest.t;
  OriginalPassed : bool;
  OriginalError : option BatchErr;
  HeaderResults : list TestResult.t;
  CookieResults : list TestResult.t;
  SimplifiedRequest : option ParsedRequest.t;
  TotalTests : Z;
  PassedTests : Z;
  CumulativeResults : option TestResults.t
}.
End BatchTestResult.

(** [buildRequestFromState]: the three [range] loops copy the maps entry
    by entry, here in the order of [map_to_list]. *)
Definition buildRequestFromState (state : CumulativeTestState.t)
    (original : ParsedRequest.t) : ParsedRequest.t :=
  ParsedRequest.mk
    (ParsedRequest.Method original)
    (ParsedRequest.URL original)
    (copyInto (map_to_list (CumulativeTestState.Headers state)) ∅)
    (copyInto (map_to_list (CumulativeTestState.Cookies state)) ∅)
    (ParsedRequest.Body original)
    (copyInto (map_to_list (ParsedRequest.QueryParams original)) ∅)
    (ParsedRequest.ContentType original).

(** What the cumulative removal calls outside itself, for a type [World]
    of states of the network and of the server: the error of
    [http.NewRequest] for a method and a URL; [TestRequestWithRetry] as a
    whole, with the response or the message of its error and the world
    after the attempts; [ValidateResponseWithConfig], which is
    [EvaluateConfig]; and [error.Error] on a validation error. *)
Record Backend (World : Type) : Type := mkBackend {
  NewRequest_error : string -> string -> option string;
  TestRequestWithRetry :
    ParsedRequest.t -> ValidationConfig.t -> World ->
    (ResponseData.t + string) * World;
  ValidateResponseWithConfig :
    ResponseData.t -> ValidationConfig.t -> bool * option Validator.Err;
  errorText : Validator.Err -> string
}.

Arguments mkBackend {World}.
Arguments NewRequest_error {World}.
Arguments TestRequestWithRetry {World}.
Arguments ValidateResponseWithConfig {World}.
Arguments errorText {World}.

Section Probes.

Context {World : Type}.
Variable backend : Backend World.

(** [executeRequest], without its log lines. *)
Definition executeRequest (request : ParsedRequest.t)
    (config : ValidationConfig.t) (w : World) : SingleRequestResult.t * World :=
  match createHTTPRequest (NewRequest_error backend) request
          (map_to_list (ParsedRequest.Headers request))
          (map_to_list (ParsedRequest.Cookies request)) with
  | inr err => (SingleRequestResult.mk false err "" None, w)
  | inl _ =>
      let '(outcome, w') := TestRequestWithRetry backend request config w in
      match outcome with
      | inr err => (SingleRequestResult.mk false err "" None, w')
      | inl response =>
          match ValidateResponseWithConfig backend response config with
          | (_, Some err) =>
              (SingleRequestResult.mk false (errorText backend err) "" None, w')
          | (validationResult, None) =>
              (SingleRequestResult.mk validationResult "" ""
                 (Some (ResponseInfo.mk (ResponseData.StatusCode response)
                          (ResponseData.URL response)
                          (ResponseData.Headers response))), w')
          end
      end
  end.

(** The variables of [testFieldsWithCumulativeRemoval], with the progress
    events handed to the callback, the requests handed to
    [executeRequest] (the ones [testCounter] counts) and the world. *)
Record Run : Type := mkRun {
  state : CumulativeTestState.t;
  results : TestResults.t;
  HeaderResults : list TestResult.t;
  CookieResults : list TestResult.t;
  PassedTests : Z;
  currentStep : Z;
  events : list TestProgress.t;
  probed : list ParsedRequest.t;
  world : World
}.

(** [updateProgress] and [updateProgressWithResult]. *)
Definition emit (totalTests : Z) (message : Message)
    (fieldResult : option TestResult.t) (run : Run) : Run :=
  mkRun (state run) (results run) (HeaderResults run) (CookieResults run)
    (PassedTests run) (currentStep run)
    (events run ++ [TestProgress.mk message totalTests (currentStep run) fieldResult])
    (probed run) (world run).

(** The legacy record of a probe. *)
Definition legacyOf (name fieldType : string) (testResult : SingleRequestResult.t)
    : TestResult.t :=
  TestResult.mk name fieldType
    (negb (SingleRequestResult.Success testResult))
    (SingleRequestResult.Success testResult)
    (SingleRequestResult.Error testResult)
    (match SingleRequestResult.ResponseInfo testResult with
     | Some info => ResponseInfo.StatusCode info
     | None => 0
     end)
    EmptyString.

(** One pass of the loop over the headers. *)
Definition headerStep (original : ParsedRequest.t) (config : ValidationConfig.t)
    (totalTests : Z) (run : Run) (headerName : string) : Run :=
  let run := emit totalTests (TestingHeader headerName) None run in
  let headers := CumulativeTestState.Headers (state run) in
  let cookies := CumulativeTestState.Cookies (state run) in
  match headers !! headerName with
  | None => run
  | Some removedValue =>
      let isUserAgent := bool_decide (GoStrings.ToLower headerName = "user-agent") in
      if isUserAgent && ValidationConfig.PreserveUserAgent config then
        let legacyResult := TestResult.mk headerName "header" true true "" 0 "" in
        emit totalTests (DoneHeaderPreserved headerName) (Some legacyResult)
          (mkRun (state run)
             (TestResults.mk
                (<[headerName :=
                     FieldTestResult.mk true removedValue
                       (SingleRequestResult.mk true "" "" None)]>
                   (TestResults.Headers (results run)))
                (TestResults.Cookies (results run)))
             (HeaderResults run ++ [legacyResult]) (CookieResults run)
             (PassedTests run + 1) (currentStep run + 1)
             (events run) (probed run) (world run))
      else
        let removed :=
          if isUserAgent then <[headerName := EmptyString]> headers
          else delete headerName headers in
        let testRequest :=
          buildRequestFromState (CumulativeTestState.mk removed cookies) original in
        let '(testResult, w') := executeRequest testRequest config (world run) in
        let isRequired := negb (SingleRequestResult.Success testResult) in
        let kept :=
          if isRequired then <[headerName := removedValue]> removed else removed in
        let legacyResult := legacyOf headerName "header" testResult in
        emit totalTests (DoneHeader headerName) (Some legacyResult)
          (mkRun (CumulativeTestState.mk kept cookies)
             (TestResults.mk
                (<[headerName := FieldTestResult.mk isRequired removedValue testResult]>
                   (TestResults.Headers (results run)))
                (TestResults.Cookies (results run)))
             (HeaderResults run ++ [legacyResult]) (CookieResults run)
             (if SingleRequestResult.Success testResult
              then PassedTests run + 1 else PassedTests run)
             (currentStep run + 1)
             (events run) (probed run ++ [testRequest]) w')
  end.

(** One pass of the loop over the cookies. *)
Definition cookieStep (original : ParsedRequest.t) (config : ValidationConfig.t)
    (totalTests : Z) (run : Run) (cookieName : string) : Run :=
  let run := emit totalTests (TestingCookie cookieName) None run in
  let headers := CumulativeTestState.Headers (state run) in
  let cookies := CumulativeTestState.Cookies (state run) in
  match cookies !! cookieName with
  | None => run
  | Some removedValue =>
      let removed := delete cookieName cookies in
      let testRequest :=
        buildRequestFromState (CumulativeTestState.mk headers removed) original in
      let '(testResult, w') := executeRequest testRequest config (world run) in
      let isRequired := negb (SingleRequestResult.Success testResult) in
      let kept :=
        if isRequired then <[cookieName := removedValue]> removed else removed in
      let legacyResult := legacyOf cookieName "cookie" testResult in
      emit totalTests (DoneCookie cookieName) (Some legacyResult)
        (mkRun (CumulativeTestState.mk headers kept)
           (TestResults.mk
              (TestResults.Headers (results run))
              (<[cookieName := FieldTestResult.mk isRequired removedValue testResult]>
                 (TestResults.Cookies (results run))))
           (HeaderResults run) (CookieResults run ++ [legacyResult])
           (if SingleRequestResult.Success testResult
            then PassedTests run + 1 else PassedTests run)
           (currentStep run + 1)
           (events run) (probed run ++ [testRequest]) w')
  end.

(** [testFieldsWithCumulativeRemoval].  [headerOrder] and [cookieOrder]
    are what [getOriginalHeaderOrder] and [getOriginalCookieOrder] return:
    the keys of the two maps in the order of a [range]; [run] carries the
    step counter, the events and the world at the call. *)
Definition testFieldsWithCumulativeRemoval (originalReq : ParsedRequest.t)
    (config : ValidationConfig.t) (totalTests : Z)
    (headerOrder cookieOrder : list string) (step : Z)
    (emitted : list TestProgress.t) (w : World) : Run :=
  let start :=
    mkRun
      (CumulativeTestState.mk
         (copyInto (map_to_list (ParsedRequest.Headers originalReq)) ∅)
         (copyInto (map_to_list (ParsedRequest.Cookies originalReq)) ∅))
      (TestResults.mk ∅ ∅) [] [] 0 step emitted [] w in
  fold_left (cookieStep originalReq config totalTests) cookieOrder
    (fold_left (headerStep originalReq config totalTests) headerOrder start).

(** [totalTests]: one test for the original request and one for each
    field. *)
Definition totalTestsOf (req : ParsedRequest.t) : Z :=
  Z.of_nat (size (ParsedRequest.Headers req))
  + Z.of_nat (size (ParsedRequest.Cookies req)) + 1.

(** The removal as [BatchTestFieldNecessity] calls it: after the event
    for the original request and the first increment of the counter. *)
Definition removalOf (req : ParsedRequest.t) (config : ValidationConfig.t)
    (headerOrder cookieOrder : list string) (w : World) : Run :=
  testFieldsWithCumulativeRemoval req config (totalTestsOf req)
    headerOrder cookieOrder 1
    [TestProgress.mk TestingOriginal (totalTestsOf req) 0 None] w.

(** The result of a batch whose original request has passed. *)
Definition resultOf (req : ParsedRequest.t) (run : Run) : BatchTestResult.t :=
  BatchTestResult.mk req true None (HeaderResults run) (CookieResults run)
    (Some
       (generateSimplifiedRequestFromCumulative req
          (map_to_list (TestResults.Headers (results run)))
          (map_to_list (TestResults.Cookies (results run)))
          (map_to_list (ParsedRequest.QueryParams req))))
    (totalTestsOf req) (PassedTests run) (Some (results run)).

(** The result of a batch that stops at the original request. *)
Definition stoppedAt (req : ParsedRequest.t) (err : BatchErr) : BatchTestResult.t :=
  BatchTestResult.mk req false (Some err) [] [] None (totalTestsOf req) 0 None.

(** [BatchTestFieldNecessity]: the result, the error, the events, the
    requests handed to [executeRequest] and the world at the end. *)
Definition BatchTestFieldNecessity (req : ParsedRequest.t)
    (config : ValidationConfig.t) (headerOrder cookieOrder : list string)
    (w : World)
    : BatchTestResult.t * option BatchErr * list TestProgress.t
      * list ParsedRequest.t * World :=
  let first := [TestProgress.mk TestingOriginal (totalTestsOf req) 0 None] in
  let '(outcome, w1) := TestRequestWithRetry backend req config w in
  match outcome with
  | inr err =>
      (stoppedAt req (OriginalRequestFailed err),
       Some (OriginalRequestFailed err), first, [], w1)
  | inl originalResponse =>
      match ValidateResponseWithConfig backend originalResponse config with
      | (_, Some err) =>
          (stoppedAt req (OriginalValidationError err),
           Some (OriginalValidationError err), first, [], w1)
      | (false, None) =>
          (stoppedAt req OriginalNotPassed, Some OriginalNotPassed, first, [], w1)
      | (true, None) =>
          let run := removalOf req config headerOrder cookieOrder w1 in
          (resultOf req run, None,
           events run
           ++ [TestProgress.mk Finished (totalTestsOf req) (currentStep run) None],
           probed run, world run)
      end
  end.

End Probes.

End Minimizer.


(** ** Sample data *)

Module Samples.
Import Models.

Definition response (statusCode : Z) (body : string) : ResponseData.t :=
  ResponseData.mk statusCode ∅ body [] "https://a.test/" 0
    (GoStrings.len body) (GoStrings.len body) body "utf-8".

Definition noEncoding : EncodingConfig.t := EncodingConfig.mk false "" [] "".

(** Text matching in mode [all], case sensitive. *)
Definition allOf (texts : list string) : TextMatchingConfig.t :=
  TextMatchingConfig.mk true texts "all" true.

Definition lengthBetween (enabled : bool) (minLength maxLength : Z)
    : LengthRangeConfig.t :=
  LengthRangeConfig.mk enabled minLength maxLength.

(** A configuration in text-matching mode. *)
Definition textConfig (texts : list string) : ValidationConfig.t :=
  ValidationConfig.mk "" 30000000000 3 true "RequestProbe/1.0"
    (allOf texts) (lengthBetween false 0 (-1)) false noEncoding true.


(** A configuration with a custom expression. *)
Definition exprConfig (expression : string) : ValidationConfig.t :=
  ValidationConfig.mk expression 30000000000 3 true "RequestProbe/1.0"
    (allOf []) (lengthBetween false 0 (-1)) true noEncoding true.

(** A configuration with [maxRetries] retries. *)
Definition retryConfig (maxRetries : Z) : ValidationConfig.t :=
  ValidationConfig.mk "" 30000000000 maxRetries true "RequestProbe/1.0"
    (allOf []) (lengthBetween false 0 (-1)) false noEncoding true.

(** A parser that knows no expression and an evaluator that says yes. *)
Definition noParser (expression : string) : Validator.Expr + string :=
  inr "syntax error".

Definition yes (expression : string) (r : ResponseData.t) : bool * option string :=
  (true, None).

(** A request for [https://a.test/x?y=1] with the given headers and
    cookies. *)
Definition request (headers cookies : gmap string string) : ParsedRequest.t :=
  ParsedRequest.mk "GET" "https://a.test/x?y=1" headers cookies ""
    {["y" := "1"]} "".

(** A field result. *)
Definition field (required : bool) (value : string) : FieldTestResult.t :=
  FieldTestResult.mk required value
    (SingleRequestResult.mk (negb required) "" "" None).

(** A network on which every exchange fails. *)
Definition unreachable (req : ParsedRequest.t) (config : ValidationConfig.t)
    (w : unit) : (ResponseData.t + string) * unit :=
  (inr "connection refused", w).

(** A URL without a query. *)
Definition noQuery (requestURL : string) : gmap string (list string) + string :=
  inl ∅.

End Samples.

(** ** Sample servers *)

Module MinimizerSamples.
Import Models Minimizer.

(** A server that answers 200 to a request with the header [X-Key: k1]
    and 403 to any other; the world counts the exchanges. *)
Definition keyServer (request : ParsedRequest.t) (config : ValidationConfig.t)
    (w : nat) : (ResponseData.t + string) * nat :=
  (inl (Samples.response
          (if bool_decide (ParsedRequest.Headers request !! "X-Key" = Some "k1")
           then 200 else 403) "ok"), S w).

(** A server that answers 200 to the request it knows and 403 to any other
    set of headers or cookies. *)
Definition strictServer (known : ParsedRequest.t) (request : ParsedRequest.t)
    (config : ValidationConfig.t) (w : nat) : (ResponseData.t + string) * nat :=
  (inl (Samples.response
          (if bool_decide (ParsedRequest.Headers request = ParsedRequest.Headers known)
              && bool_decide (ParsedRequest.Cookies request = ParsedRequest.Cookies known)
           then 200 else 403) "ok"), S w).

(** A server that cannot be reached. *)
Definition downServer (request : ParsedRequest.t) (config : ValidationConfig.t)
    (w : nat) : (ResponseData.t + string) * nat :=
  (inr "connection refused", S w).

Definition backendOf
    (server : ParsedRequest.t -> ValidationConfig.t -> nat ->
              (ResponseData.t + string) * nat) : Backend nat :=
  mkBackend (fun _ _ => None) server
    (fun response config =>
       Validator.EvaluateConfig Samples.noParser Samples.yes config response)
    (fun _ => "validation error").

Definition keyRequest : ParsedRequest.t :=
  Samples.request
    {["User-Agent" := "UA/1"; "X-Key" := "k1"; "Accept" := "*/*"]}
    {["s" := "1"]}.

Definition keyHeaders : list (string * string) :=
  map_to_list (ParsedRequest.Headers keyRequest).

Definition keyCookies : list (string * string) :=
  map_to_list (ParsedRequest.Cookies keyRequest).

(** The batch against the three servers, with text matching on ["ok"]
    and the [User-Agent] preserved. *)
Definition keyBatch :=
  BatchTestFieldNecessity (backendOf keyServer) keyRequest
    (Samples.textConfig ["ok"]) keyHeaders.*1 keyCookies.*1 0%nat.

Definition strictBatch :=
  BatchTestFieldNecessity (backendOf (strictServer keyRequest)) keyRequest
    (Samples.textConfig ["ok"]) keyHeaders.*1 keyCookies.*1 0%nat.

Definition downBatch :=
  BatchTestFieldNecessity (backendOf downServer) keyRequest
    (Samples.textConfig ["ok"]) keyHeaders.*1 keyCookies.*1 0%nat.

End MinimizerSamples.

(** ** Package [encoding]: the registry of codecs *)

Module EncodingRegistry.

(** The codecs of [golang.org/x/text/encoding] that [initEncodings]
    registers. *)
Inductive Codec : Type :=
| UTF8 | UTF16_BigEndian_UseBOM | UTF16_BigEndian_IgnoreBOM
| UTF16_LittleEndian_IgnoreBOM
| GBK | HZGB2312 | GB18030 | Big5
| ShiftJIS | EUCJP | ISO2022JP | EUCKR
| ISO8859_1 | ISO8859_2 | ISO8859_3 | ISO8859_4 | ISO8859_5 | ISO8859_6
| ISO8859_7 | ISO8859_8 | ISO8859_9 | ISO8859_10 | ISO8859_13 | ISO8859_14
| ISO8859_15 | ISO8859_16
| Windows1250 | Windows1251 | Windows1252 | Windows1253 | Windows1254
| Windows1255 | Windows1256 | Windows1257 | Windows1258
| KOI8R | KOI8U.

(** The assignments [d.encodings[name] = codec] of [initEncodings], in the
    order of the source. *)
Definition assignments : list (string * Codec) :=
  [("UTF-8", UTF8); ("UTF-16", UTF16_BigEndian_UseBOM);
   ("UTF-16BE", UTF16_BigEndian_IgnoreBOM);
   ("UTF-16LE", UTF16_LittleEndian_IgnoreBOM);
   ("GBK", GBK); ("GB2312", HZGB2312); ("GB18030", GB18030); ("Big5", Big5);
   ("Shift_JIS", ShiftJIS); ("EUC-JP", EUCJP); ("ISO-2022-JP", ISO2022JP);
   ("EUC-KR", EUCKR);
   ("ISO-8859-1", ISO8859_1); ("ISO-8859-2", ISO8859_2);
   ("ISO-8859-3", ISO8859_3); ("ISO-8859-4", ISO8859_4);
   ("ISO-8859-5", ISO8859_5); ("ISO-8859-6", ISO8859_6);
   ("ISO-8859-7", ISO8859_7); ("ISO-8859-8", ISO8859_8);
   ("ISO-8859-9", ISO8859_9); ("ISO-8859-10", ISO8859_10);
   ("ISO-8859-13", ISO8859_13); ("ISO-8859-14", ISO8859_14);
   ("ISO-8859-15", ISO8859_15); ("ISO-8859-16", ISO8859_16);
   ("Windows-1250", Windows1250); ("Windows-1251", Windows1251);
   ("Windows-1252", Windows1252); ("Windows-1253", Windows1253);
   ("Windows-1254", Windows1254); ("Windows-1255", Windows1255);
   ("Windows-1256", Windows1256); ("Windows-1257", Windows1257);
   ("Windows-1258", Windows1258);
   ("KOI8-R", KOI8R); ("KOI8-U", KOI8U)].

(** [NewEncodingDetector]: the empty map, then the assignments one after
    the other. *)
Definition initEncodings : gmap string Codec :=
  foldl (fun encodings entry => <[entry.1 := entry.2]> encodings) ∅ assignments.

(** [GetSupportedEncodings]: the names in the order of the [range]. *)
Definition GetSupportedEncodings (order : list (string * Codec)) : list string :=
  order.*1.

Definition GetCommonEncodings : list string :=
  ["UTF-8"; "GBK"; "GB2312"; "GB18030"; "Big5"; "UTF-16"; "UTF-16BE";
   "UTF-16LE"; "ISO-8859-1"; "Windows-1252"; "Shift_JIS"; "EUC-JP"; "EUC-KR";
   "KOI8-R"; "Windows-1251"].

Definition IsValidEncoding (encodings : gmap string Codec)
    (encodingName : string) : bool :=
  bool_decide (is_Some (encodings !! encodingName)).

(** The detector with its codecs seen through [decodeBytes]. *)
Definition decoders (decodeBytes : Codec -> Encoding.Decoder)
    : gmap string Encoding.Decoder :=
  decodeBytes <$> initEncodings.

End EncodingRegistry.

(** ** Package [parser]: what follows the parsers *)

Module RequestChecks.
Import Models.

Inductive Err : Type :=
| NilRequest
| EmptyMethod
| EmptyURL
| SchemeMissing
| UnsupportedMethod (method : string).

(** [ValidateRequest]; the request is a pointer, [None] is [nil]. *)
Definition ValidateRequest (req : option ParsedRequest.t) : option Err :=
  match req with
  | None => Some NilRequest
  | Some req =>
      if bool_decide (ParsedRequest.Method req = "") then Some EmptyMethod
      else if bool_decide (ParsedRequest.URL req = "") then Some EmptyURL
      else if negb (GoStrings.HasPrefix (ParsedRequest.URL req) "http://")
              && negb (GoStrings.HasPrefix (ParsedRequest.URL req) "https://")
      then Some SchemeMissing
      else if existsb (fun method => bool_decide (ParsedRequest.Method req = method))
                RawParser.validMethods
      then None
      else Some (UnsupportedMethod (ParsedRequest.Method req))
  end.

(** The loop of [parseURLAndParams] over the pieces between [&]: a piece
    with exactly one [=] gives an entry. *)
Fixpoint paramPairs (pieces : list string) (queryParams : gmap string string)
    : gmap string string :=
  match pieces with
  | [] => queryParams
  | piece :: rest =>
      match GoStrings.Split piece "=" with
      | [key; value] => paramPairs rest (<[key := value]> queryParams)
      | _ => paramPairs rest queryParams
      end
  end.

(** [parseURLAndParams], the same in [UnifiedRequestParser] and in
    [RequestTester]. *)
Definition parseURLAndParams (fullURL : string) : string * gmap string string :=
  let parts := GoStrings.Split fullURL "?" in
  let baseURL := CurlParser.at_ parts 0 in
  if 1 <? Z.of_nat (length parts)
  then (baseURL, paramPairs (GoStrings.Split (CurlParser.at_ parts 1) "&") ∅)
  else (baseURL, ∅).

End RequestChecks.

(** ** Package [manager]: the expression templates *)

Module TemplateManager.

Module ExpressionTemplate.
Record t : Type := mk {
  ID : string;
  Name : string;
  Description : string;
  Expression : string;
  Category : string
}.
End ExpressionTemplate.

Inductive Err : Type :=
| TemplateExists (id : string)
| TemplateNotFound (id : string)
| DefaultTemplate
| WriteError (msg : string)
| ReadError (msg : string).

(** The table [defaultIDs] of [saveUserTemplates] and [DeleteTemplate]. *)
Definition defaultIDs : gmap string bool :=
  list_to_map
    [("status_success", true); ("status_ok", true); ("content_contains", true);
     ("json_status_ok", true); ("response_not_empty", true);
     ("response_length", true); ("no_error_message", true);
     ("chinese_content", true)].

(** The manager: its templates, and the contents that it has handed to
    [os.WriteFile] for [templates.json], oldest first. *)
Record Manager : Type := mkManager {
  templates : list ExpressionTemplate.t;
  writes : list (list ExpressionTemplate.t)
}.

Definition GetAllTemplates (m : Manager) : list ExpressionTemplate.t :=
  templates m.

Definition GetTemplatesByCategory (m : Manager) (category : string)
    : list ExpressionTemplate.t :=
  List.filter
    (fun template => bool_decide (ExpressionTemplate.Category template = category))
    (templates m).

Definition GetTemplateByID (m : Manager) (id : string)
    : ExpressionTemplate.t + Err :=
  match List.find (fun template => bool_decide (ExpressionTemplate.ID template = id))
          (templates m) with
  | Some template => inl template
  | None => inr (TemplateNotFound id)
  end.

(** [GetCategories]: the keys of [categoryMap] in the order of the
    [range]. *)
Definition categoryMap (m : Manager) : gmap string bool :=
  foldl (fun categories template =>
           <[ExpressionTemplate.Category template := true]> categories)
    ∅ (templates m).

Definition GetCategories (order : list (string * bool)) : list string :=
  order.*1.

Section Disk.

(** The error of [os.WriteFile] for a content of [templates.json]. *)
Variable WriteFile_error : list ExpressionTemplate.t -> option string.

(** [saveUserTemplates]; [json.MarshalIndent] has no error on a slice of
    records of strings, so the one error is the one of the write. *)
Definition saveUserTemplates (m : Manager) : Manager * option Err :=
  let userTemplates :=
    List.filter
      (fun template =>
         negb (Validator.readBool defaultIDs (ExpressionTemplate.ID template)))
      (templates m) in
  (mkManager (templates m) (writes m ++ [userTemplates]),
   WriteError <$> WriteFile_error userTemplates).

(** [AddTemplate] at the Unix time [now]. *)
Definition AddTemplate (now : Z) (template : ExpressionTemplate.t) (m : Manager)
    : Manager * option Err :=
  if existsb
       (fun existing =>
          bool_decide (ExpressionTemplate.ID existing = ExpressionTemplate.ID template))
       (templates m)
  then (m, Some (TemplateExists (ExpressionTemplate.ID template)))
  else
    let template :=
      if bool_decide (ExpressionTemplate.ID template = "")
      then ExpressionTemplate.mk ("custom_" +:+ pretty now)
             (ExpressionTemplate.Name template)
             (ExpressionTemplate.Description template)
             (ExpressionTemplate.Expression template)
             (ExpressionTemplate.Category template)
      else template in
    saveUserTemplates (mkManager (templates m ++ [template]) (writes m)).

(** The loop of [UpdateTemplate]: the first template with the ID is
    replaced. *)
Fixpoint replaceFirst (template : ExpressionTemplate.t)
    (l : list ExpressionTemplate.t) : option (list ExpressionTemplate.t) :=
  match l with
  | [] => None
  | existing :: rest =>
      if bool_decide (ExpressionTemplate.ID existing = ExpressionTemplate.ID template)
      then Some (template :: rest)
      else cons existing <$> replaceFirst template rest
  end.

Definition UpdateTemplate (template : ExpressionTemplate.t) (m : Manager)
    : Manager * option Err :=
  match replaceFirst template (templates m) with
  | Some l => saveUserTemplates (mkManager l (writes m))
  | None => (m, Some (TemplateNotFound (ExpressionTemplate.ID template)))
  end.

(** The loop of [DeleteTemplate]: the first template with the ID is cut
    out. *)
Fixpoint removeFirst (id : string) (l : list ExpressionTemplate.t)
    : option (list ExpressionTemplate.t) :=
  match l with
  | [] => None
  | template :: rest =>
      if bool_decide (ExpressionTemplate.ID template = id) then Some rest
      else cons template <$> removeFirst id rest
  end.

Definition DeleteTemplate (id : string) (m : Manager) : Manager * option Err :=
  if Validator.readBool defaultIDs id then (m, Some DefaultTemplate)
  else
    match removeFirst id (templates m) with
    | Some l => saveUserTemplates (mkManager l (writes m))
    | None => (m, Some (TemplateNotFound id))
    end.

(** [ImportTemplates]; [file] is what [os.ReadFile] and [json.Unmarshal]
    give for the path: the templates of the file, or the error. *)
Definition ImportTemplates (file : list ExpressionTemplate.t + string)
    (m : Manager) : Manager * option Err :=
  match file with
  | inr msg => (m, Some (ReadError msg))
  | inl importedTemplates =>
      let existingIDs : gmap string bool :=
        foldl (fun ids template => <[ExpressionTemplate.ID template := true]> ids)
          ∅ (templates m) in
      let added :=
        List.filter
          (fun template =>
             negb (Validator.readBool existingIDs (ExpressionTemplate.ID template)))
          importedTemplates in
      let m' := mkManager (templates m ++ added) (writes m) in
      if 0 <? Z.of_nat (length added) then saveUserTemplates m' else (m', None)
  end.

End Disk.

End TemplateManager.

(** ** Package [tester]: the test of one field *)

Module FieldProbe.
Import Models Tester Minimizer.

(** The loops of [createTestRequest] over the headers and over the
    cookies: every entry is copied but the field under test, which is
    passed over when [skip] says that the loop is the one for its type. *)
Fixpoint copyExcept (skip : bool) (fieldName : string)
    (entries : list (string * string)) (target : gmap string string)
    : gmap string string :=
  match entries with
  | [] => target
  | (key, value) :: rest =>
      if skip && bool_decide (key = fieldName)
      then copyExcept skip fieldName rest target
      else copyExcept skip fieldName rest (<[key := value]> target)
  end.

(** [createTestRequest]; the three lists are the orders of the [range]
    loops over the headers, the cookies and the query parameters. *)
Definition createTestRequest (original : ParsedRequest.t)
    (fieldName fieldType : string)
    (headerOrder cookieOrder queryOrder : list (string * string))
    : ParsedRequest.t :=
  ParsedRequest.mk
    (ParsedRequest.Method original)
    (ParsedRequest.URL original)
    (copyExcept (bool_decide (fieldType = "header")) fieldName headerOrder ∅)
    (copyExcept (bool_decide (fieldType = "cookie")) fieldName cookieOrder ∅)
    (ParsedRequest.Body original)
    (copyInto queryOrder ∅)
    (ParsedRequest.ContentType original).

Section Probe.

Context {World : Type}.
Variable backend : Backend World.

(** The text that [fmt.Sprintf] puts before a validation error. *)
Definition validationFailed : string := "验证失败: ".

(** [TestFieldNecessity]; its error result is always [nil]. *)
Definition TestFieldNecessity (originalReq : ParsedRequest.t)
    (fieldName fieldType : string) (config : ValidationConfig.t)
    (headerOrder cookieOrder queryOrder : list (string * string)) (w : World)
    : TestResult.t * World :=
  let testReq :=
    createTestRequest originalReq fieldName fieldType
      headerOrder cookieOrder queryOrder in
  let '(outcome, w') := TestRequestWithRetry backend testReq config w in
  match outcome with
  | inr err => (TestResult.mk fieldName fieldType true false err 0 "", w')
  | inl response =>
      match ValidateResponseWithConfig backend response config with
      | (_, Some err) =>
          (TestResult.mk fieldName fieldType true false
             (validationFailed +:+ errorText backend err)
             (ResponseData.StatusCode response) (ResponseData.Body response), w')
      | (passed, None) =>
          (TestResult.mk fieldName fieldType (negb passed) passed ""
             (ResponseData.StatusCode response) (ResponseData.Body response), w')
      end
  end.

End Probe.

End FieldProbe.

(** ** Package [validator]: the evaluator of expressions *)

Module Evaluator.
Import Models.

(** [strings.HasSuffix], [strings.TrimPrefix] and [strings.Trim] with its
    set of bytes to cut. *)
Definition HasSuffix (s suffix : string) : bool :=
  (GoStrings.len suffix <=? GoStrings.len s)
  && bool_decide
       (GoStrings.sliceFrom s (GoStrings.len s - GoStrings.len suffix) = suffix).

Definition TrimPrefix (s prefix : string) : string :=
  if GoStrings.HasPrefix s prefix
  then GoStrings.sliceFrom s (GoStrings.len prefix) else s.

Fixpoint inCutset (c : ascii) (cutset : string) : bool :=
  match cutset with
  | EmptyString => false
  | String c' rest => bool_decide (c = c') || inCutset c rest
  end.

Fixpoint cutLeft (cutset s : string) : string :=
  match s with
  | EmptyString => EmptyString
  | String c s' => if inCutset c cutset then cutLeft cutset s' else s
  end.

Fixpoint cutRight (cutset s : string) : string :=
  match s with
  | EmptyString => EmptyString
  | String c s' =>
      match cutRight cutset s' with
      | EmptyString => if inCutset c cutset then EmptyString else String c EmptyString
      | t => String c t
      end
  end.

Definition Trim (s cutset : string) : string := cutRight cutset (cutLeft cutset s).

(** [strconv.Itoa]. *)
Definition Itoa (i : Z) : string := pretty i.

(** The value of a run of decimal digits, read from the left. *)
Fixpoint digitsValue (s : string) (acc : Z) : option Z :=
  match s with
  | EmptyString => Some acc
  | String c rest =>
      if RawParser.isDigit c
      then digitsValue rest (10 * acc + (Z.of_N (N_of_ascii c) - 48))
      else None
  end.

(** [strconv.Atoi]: an optional sign, then decimal digits, at least one,
    with a value that fits in 64 bits; [None] is the error. *)
Definition Atoi (s : string) : option Z :=
  let '(negative, body) :=
    match s with
    | String "-" rest => (true, rest)
    | String "+" rest => (false, rest)
    | _ => (false, s)
    end in
  if bool_decide (body = "") then None
  else
    match digitsValue body 0 with
    | None => None
    | Some n =>
        let v := if negative then - n else n in
        if (- 2 ^ 63 <=? v) && (v <? 2 ^ 63) then Some v else None
    end.

#[global] Instance ResponseCookie_eq_dec : EqDecision ResponseCookie.t.
Proof. solve_decision. Defined.

Section Values.

(** The documents that [json.Unmarshal] gives other than a string. *)
Context {Document : Type} `{EqDecision Document}.

(** A value of type [interface{}] in the map of the response: the Go
    types [int], [string], [map[string]string], [[]*http.Cookie],
    [time.Duration], and what a JSON document decodes to. *)
Inductive Value : Type :=
| VInt (i : Z)
| VString (s : string)
| VHeaders (headers : gmap string string)
| VCookies (cookies : list ResponseCookie.t)
| VDuration (d : Z)
| VDocument (document : Document).

#[global] Instance Value_eq_dec : EqDecision Value.
Proof. solve_decision. Defined.

(** [json.Unmarshal] into an [interface{}]: a document that is a string,
    another document, or [None] for an error. *)
Variable Unmarshal : string -> option (string + Document).

Definition createResponseMap (response : ResponseData.t) : gmap string Value :=
  let responseMap : gmap string Value :=
    <["elapsed" := VDuration (ResponseData.Duration response)]>
      (<["url" := VString (ResponseData.URL response)]>
         (<["cookies" := VCookies (ResponseData.Cookies response)]>
            (<["headers" := VHeaders (ResponseData.Headers response)]>
               (<["content" := VString (ResponseData.Body response)]>
                  (<["text" := VString (ResponseData.Body response)]>
                     (<["status_code" := VInt (ResponseData.StatusCode response)]>
                        ∅)))))) in
  if negb (bool_decide (ResponseData.Body response = "")) then
    match Unmarshal (ResponseData.Body response) with
    | Some (inl s) => <["json" := VString s]> responseMap
    | Some (inr document) => <["json" := VDocument document]> responseMap
    | None => responseMap
    end
  else responseMap.

(** [parseValue]; its error result is always [nil]. *)
Definition parseValue (value : string) (responseMap : gmap string Value) : Value :=
  let value := GoStrings.TrimSpace value in
  match Atoi value with
  | Some intVal => VInt intVal
  | None =>
      if GoStrings.HasPrefix value (String "034" "")
         && HasSuffix value (String "034" "")
      then VString (Trim value (String "034" ""))
      else if GoStrings.HasPrefix value "'" && HasSuffix value "'"
      then VString (Trim value "'")
      else if GoStrings.HasPrefix value "response." then
        match responseMap !! TrimPrefix value "response." with
        | Some val => val
        | None => VString value
        end
      else VString value
  end.

(** The message of the last [fmt.Errorf] of [evaluateSimpleExpression]. *)
Definition unsupportedFormat : string := "不支持的表达式格式".

(** The three shapes that [evaluateSimpleExpression] knows, each with
    [None] when the code falls through to the next one. *)
Definition equalityShape (expr : string) (responseMap : gmap string Value)
    : option (bool * option string) :=
  if GoStrings.Contains expr "==" then
    match GoStrings.Split expr "==" with
    | [left_; right_] =>
        let leftVal := parseValue (GoStrings.TrimSpace left_) responseMap in
        let rightVal := parseValue (GoStrings.TrimSpace right_) responseMap in
        Some (bool_decide (leftVal = rightVal), None)
    | _ => None
    end
  else None.

Definition rangeShape (expr : string) (responseMap : gmap string Value)
    : option (bool * option string) :=
  if GoStrings.Contains expr "<=" && GoStrings.Contains expr "<" then
    match responseMap !! "status_code" with
    | Some (VInt statusCode) =>
        if (200 <=? statusCode) && (statusCode <? 300)
        then Some (true, None) else Some (false, None)
    | _ => Some (false, None)
    end
  else None.

Definition containsShape (expr : string) (responseMap : gmap string Value)
    : option (bool * option string) :=
  if GoStrings.Contains expr " in " then
    match GoStrings.Split expr " in " with
    | [needlePart; haystackPart] =>
        let needle :=
          Trim (GoStrings.TrimSpace needlePart) (String "034" (String "'" "")) in
        let haystack := GoStrings.TrimSpace haystackPart in
        if bool_decide (haystack = "response.text") then
          match responseMap !! "text" with
          | Some (VString text) => Some (GoStrings.Contains text needle, None)
          | _ => None
          end
        else None
    | _ => None
    end
  else None.

(** [evaluateSimpleExpression] on the map of the response. *)
Definition evaluateSimpleExpression (expression : string)
    (response : ResponseData.t) : bool * option string :=
  let responseMap := createResponseMap response in
  let expr :=
    match responseMap !! "status_code" with
    | Some (VInt statusCode) =>
        GoStrings.ReplaceAll expression "response.status_code" (Itoa statusCode)
    | _ => expression
    end in
  match equalityShape expr responseMap with
  | Some result => result
  | None =>
      match rangeShape expr responseMap with
      | Some result => result
      | None =>
          match containsShape expr responseMap with
          | Some result => result
          | None => (false, Some unsupportedFormat)
          end
      end
  end.

End Values.

End Evaluator.

(** ** Package [services]: the default configuration *)

Module Service.
Import Models.

(** [time.Second], in nanoseconds. *)
Definition Second : Z := 1000000000.

Definition GetDefaultValidationConfig : ValidationConfig.t :=
  ValidationConfig.mk "" (30 * Second) 3 true "RequestProbe/1.0"
    (TextMatchingConfig.mk true [] "all" false)
    (LengthRangeConfig.mk false 0 (-1))
    false
    (EncodingConfig.mk false "" ["UTF-8"; "GBK"; "GB2312"; "Big5"] "UTF-8")
    true.

Inductive Err : Type :=
| ParseError (err : UnifiedParser.Err)
| InvalidRequest (err : RequestChecks.Err).

Section WithURL.

Variable urlQuery : string -> gmap string (list string) + string.

(** [ParseRequest]: the parser, then [ValidateRequest]. *)
Definition ParseRequest (input : string) : ParsedRequest.t + Err :=
  match UnifiedParser.Parse urlQuery input with
  | inr err => inr (ParseError err)
  | inl request =>
      match RequestChecks.ValidateRequest (Some request) with
      | Some err => inr (InvalidRequest err)
      | None => inl request
      end
  end.

Definition ParseRequestWithType (input inputType : string)
    : ParsedRequest.t + Err :=
  match UnifiedParser.ParseWithType urlQuery input inputType with
  | inr err => inr (ParseError err)
  | inl request =>
      match RequestChecks.ValidateRequest (Some request) with
      | Some err => inr (InvalidRequest err)
      | None => inl request
      end
  end.

End WithURL.

(** What [TestRequestWithRetry] of the service does to the outside: it
    sends the request, and it waits for a timer or for the context. *)
Inductive Event : Type :=
| Attempt (i : Z)
| Wait (nanoseconds : Z).

Inductive RetryErr : Type :=
| Cancelled
| RetriesExhausted (maxRetries : Z) (lastErr : string).

(** [time.Second * time.Duration(i+1)]. *)
Definition waitTime (i : Z) : Z :=
  Tester.wrap64 (Second * Tester.wrap64 (i + 1)).

Section Retry.

Context {World : Type}.

(** [TestSingleRequest]: one exchange, with the response or the error. *)
Variable TestSingleRequest :
  ParsedRequest.t -> ValidationConfig.t -> World ->
  (ResponseData.t + string) * World.

(** The [select] between [ctx.Done()] and the timer of the given
    duration: [true] when the context wins. *)
Variable contextDone : Z -> World -> bool * World.

(** The [for] loop of [TestRequestWithRetry]; [None] means that [fuel]
    passes were not enough. *)
Fixpoint retryLoop (fuel : nat) (request : ParsedRequest.t)
    (config : ValidationConfig.t) (maxRetries i : Z) (lastErr : string)
    (w : World) (trace : list Event)
    : option ((ResponseData.t + RetryErr) * World * list Event) :=
  match fuel with
  | O => None
  | S fuel' =>
      if i <? maxRetries then
        let '(outcome, w1) := TestSingleRequest request config w in
        let trace1 := trace ++ [Attempt i] in
        match outcome with
        | inl response => Some (inl response, w1, trace1)
        | inr err =>
            if i <? Tester.wrap64 (maxRetries - 1) then
              let '(done, w2) := contextDone (waitTime i) w1 in
              let trace2 := trace1 ++ [Wait (waitTime i)] in
              if done then Some (inr Cancelled, w2, trace2)
              else retryLoop fuel' request config maxRetries
                     (Tester.wrap64 (i + 1)) err w2 trace2
            else retryLoop fuel' request config maxRetries
                   (Tester.wrap64 (i + 1)) err w1 trace1
        end
      else Some (inr (RetriesExhausted maxRetries lastErr), w, trace)
  end.

Definition TestRequestWithRetry (fuel : nat) (request : ParsedRequest.t)
    (config : ValidationConfig.t) (w : World)
    : option ((ResponseData.t + RetryErr) * World * list Event) :=
  let maxRetries :=
    if ValidationConfig.MaxRetries config <=? 0 then 1
    else ValidationConfig.MaxRetries config in
  retryLoop fuel request config maxRetries 0 EmptyString w [].

End Retry.


(** The number of requests sent in a trace. *)
Fixpoint attempts (trace : list Event) : Z :=
  match trace with
  | [] => 0
  | Attempt _ :: rest => 1 + attempts rest
  | Wait _ :: rest => attempts rest
  end.

End Service.

(** ** Sample codecs and configurations *)

Module DetectionSamples.
Import Models.

(** A codec that takes the bytes as they are, one that fails on every
    input, and one that decodes to upper case. *)
Definition plain : Encoding.Decoder := fun data => inl data.

Definition broken : Encoding.Decoder := fun _ => inr "invalid byte".

Definition shouting : Encoding.Decoder := fun data => inl (GoStrings.ToUpper data).

(** A configuration in which no rule is enabled. *)
Definition noRules : ValidationConfig.t :=
  ValidationConfig.mk "" 30000000000 3 true "RequestProbe/1.0"
    (TextMatchingConfig.mk false [] "all" false)
    (Samples.lengthBetween false 0 (-1)) false Samples.noEncoding true.

(** A body that is never a JSON document. *)
Definition noDocument (body : string) : option (string + unit) := None.

End DetectionSamples.

Module TemplateSamples.
Import TemplateManager.

Definition template (id category : string) : ExpressionTemplate.t :=
  ExpressionTemplate.mk id "name" "description" "response.status_code == 200"
    category.

(** A disk that takes every write, and one that refuses every write. *)
Definition diskOK (content : list ExpressionTemplate.t) : option string := None.

Definition diskFull (content : list ExpressionTemplate.t) : option string :=
  Some "no space left on device".

Definition two : Manager :=
  mkManager [template "a" "status"; template "b" "body"] [].

End TemplateSamples.


(** * Properties *)

(** ** The validator *)

Module ValidatorFacts.
Import Models Validator.

(** Induction over expressions, with the arguments of a call. *)
Lemma Expr_ind_args (P : Expr -> Prop) :
  (forall x op y, P x -> P y -> P (BinaryExpr x op y)) ->
  (forall op x, P x -> P (UnaryExpr op x)) ->
  (forall f args, P f -> Forall P args -> P (CallExpr f args)) ->
  (forall x sel, P x -> P (SelectorExpr x sel)) ->
  (forall name, P (Ident name)) ->
  (forall value, P (BasicLit value)) ->
  (forall x, P x -> P (ParenExpr x)) ->
  (forall T, P (OtherExpr T)) ->
  forall e, P e.
Proof.
  intros Hbin Hun Hcall Hsel Hid Hlit Hpar Hoth.
  fix IH 1. intros [x op y|op x|f args|x sel|name|value|x|T].
  - apply Hbin; apply IH.
  - apply Hun; apply IH.
  - apply Hcall; [apply IH|].
    induction args as [|a args IHargs]; constructor; [apply IH|exact IHargs].
  - apply Hsel; apply IH.
  - apply Hid.
  - apply Hlit.
  - apply Hpar; apply IH.
  - apply Hoth.
Qed.

(** A key that reads [true] in a map built from a list is a key of the
    list. *)
Lemma readBool_list_to_map (l : list (string * bool)) (k : string) :
  readBool (list_to_map l) k = true -> k ∈ l.*1.
Proof.
  unfold readBool. intros H.
  destruct (list_to_map l !! k) as [b|] eqn:Hk; [|discriminate H].
  apply elem_of_list_to_map_2 in Hk.
  apply list_elem_of_fmap. exists (k, b). split; [reflexivity|exact Hk].
Qed.

Lemma validateArgs_None (args : list Expr) :
  (fix validateArgs (l : list Expr) : option Err :=
     match l with
     | [] => None
     | arg :: rest =>
         match validateASTNode arg with
         | Some err => Some err
         | None => validateArgs rest
         end
     end) args = None ->
  Forall (fun arg => validateASTNode arg = None) args.
Proof.
  induction args as [|a args IH]; intros H; [constructor|].
  destruct (validateASTNode a) eqn:Ha; [discriminate H|].
  constructor; [exact Ha|apply IH, H].
Qed.

Lemma allPlain_true (args : list Expr) :
  (fix allPlain (l : list Expr) : bool :=
     match l with
     | [] => true
     | arg :: rest => plainCallTargets arg && allPlain rest
     end) args = true ->
  Forall (fun arg => plainCallTargets arg = true) args.
Proof.
  induction args as [|a args IH]; intros H; [constructor|].
  apply andb_true_iff in H as [Ha Hr].
  constructor; [exact Ha|apply IH, Hr].
Qed.

(** What the walk accepts lies inside the grammar of the specification,
    as long as every call it meets has a plain target. *)
Lemma validateASTNode_sound (e : Expr) :
  plainCallTargets e = true -> validateASTNode e = None -> SpecAllowed e.
Proof.
  induction e as [x op y IHx IHy|op x IHx|f args _ IHargs|x sel _|name|value|x IHx|T]
    using Expr_ind_args; simpl; intros Hplain Hval.
  - apply andb_true_iff in Hplain as [Hx Hy].
    destruct (validateASTNode x); [discriminate Hval|].
    destruct (validateASTNode y); [discriminate Hval|].
    destruct (readBool allowedOperators (Token_String op)) eqn:Hop;
      [|discriminate Hval].
    apply SA_binary; [|apply IHx|apply IHy]; try done.
    apply (readBool_list_to_map _ _ Hop).
  - destruct (validateASTNode x); [discriminate Hval|].
    destruct (readBool allowedOperators (Token_String op)) eqn:Hop;
      [|discriminate Hval].
    apply SA_unary; [|apply IHx]; try done.
    apply (readBool_list_to_map _ _ Hop).
  - apply andb_true_iff in Hplain as [Hf Hargs].
    destruct (validateCallTarget f) eqn:Htarget; [discriminate Hval|].
    apply validateArgs_None in Hval. apply allPlain_true in Hargs.
    assert (Forall SpecAllowed args) as Hall.
    { clear Htarget Hf. induction IHargs as [|a args IHa _ IH]; [constructor|].
      inversion Hval; subst. inversion Hargs; subst.
      constructor; [apply IHa; assumption|apply IH; assumption]. }
    destruct f as [| | |fx fsel|fname| | |]; try discriminate Hf.
    + destruct fx; try discriminate Htarget. simpl in Htarget.
      case_bool_decide as Hresp; [|discriminate Htarget]. subst.
      destruct (isAllowedResponseMethod fsel) eqn:Hm; [|discriminate Htarget].
      apply readBool_list_to_map in Hm.
      apply list_elem_of_singleton in Hm. simpl in Hm. subst fsel.
      apply SA_json, Hall.
    + simpl in Htarget.
      destruct (readBool allowedFunctions fname) eqn:Hfun; [|discriminate Htarget].
      apply SA_function; [|exact Hall].
      apply (readBool_list_to_map _ _ Hfun).
  - destruct x; try discriminate Hval.
    case_bool_decide as Hresp; [|discriminate Hval]. subst.
    destruct (isAllowedResponseField sel) eqn:Hfield; [|discriminate Hval].
    apply SA_field. apply (readBool_list_to_map _ _ Hfield).
  - case_bool_decide as Hresp; [subst; apply SA_response|].
    destruct (isBuiltinConstant name) eqn:Hc; [|discriminate Hval].
    apply SA_constant. apply (readBool_list_to_map _ _ Hc).
  - apply SA_literal.
  - apply SA_paren, IHx; assumption.
  - discriminate Hval.
Qed.

(** Conversely the walk accepts every expression of the grammar. *)
Lemma validateASTNode_complete (e : Expr) :
  SpecAllowed e -> validateASTNode e = None.
Proof.
  induction e as [x op y IHx IHy|op x IHx|f args _ IHargs|x sel _|name|value|x IHx|T]
    using Expr_ind_args; intros H; inversion H; subst; simpl.
  - rewrite IHx, IHy by assumption.
    match goal with Hop : _ ∈ specOperators |- _ =>
      apply list_elem_of_In in Hop; simpl in Hop;
      destruct Hop as [<-|[<-|[<-|[<-|[<-|[<-|[<-|[<-|[<-|[<-|[]]]]]]]]]]]
    end; reflexivity.
  - rewrite IHx by assumption.
    match goal with Hop : _ ∈ specOperators |- _ =>
      apply list_elem_of_In in Hop; simpl in Hop;
      destruct Hop as [<-|[<-|[<-|[<-|[<-|[<-|[<-|[<-|[<-|[<-|[]]]]]]]]]]]
    end; reflexivity.
  - match goal with Hf : _ ∈ specFunctions |- _ =>
      apply list_elem_of_In in Hf; simpl in Hf;
      destruct Hf as [<-|[<-|[<-|[<-|[<-|[<-|[<-|[<-|[<-|[]]]]]]]]]]
    end; simpl;
    match goal with Hall : Forall SpecAllowed args |- _ =>
      clear H; induction IHargs as [|a args IHa _ IH]; [reflexivity|];
      inversion Hall; subst; rewrite IHa by assumption; apply IH; assumption
    end.
  - match goal with Hall : Forall SpecAllowed args |- _ =>
      clear H; induction IHargs as [|a args IHa _ IH]; [reflexivity|];
      inversion Hall; subst; rewrite IHa by assumption; apply IH; assumption
    end.
  - match goal with Hf : _ ∈ specFields |- _ =>
      apply list_elem_of_In in Hf; simpl in Hf;
      destruct Hf as [<-|[<-|[<-|[<-|[<-|[<-|[<-|[<-|[<-|[]]]]]]]]]]
    end; reflexivity.
  - match goal with Hc : _ ∈ specConstants |- _ =>
      apply list_elem_of_In in Hc; simpl in Hc;
      destruct Hc as [<-|[<-|[<-|[]]]]
    end; reflexivity.
  - reflexivity.
  - reflexivity.
  - apply IHx; assumption.
Qed.

(** The service's check, as a condition on the string. *)
Lemma Manager_ValidateExpression_None (expression : string) :
  Manager.ValidateExpression expression = None <->
  expression <> "" /\ GoStrings.Contains expression "response" = true.
Proof.
  unfold Manager.ValidateExpression.
  case_bool_decide as Hempty.
  - split; [discriminate|]. intros [Hne _]. contradiction.
  - destruct (GoStrings.Contains expression "response"); simpl.
    + split; [intros _; split; [exact Hempty|reflexivity]|reflexivity].
    + split; [discriminate|]. intros [_ Hc]. discriminate Hc.
Qed.

(** C1, as the code has it.  The walk [validateASTNode] returns an error
    for every expression outside the grammar of the specification whose
    calls have an identifier or a selector as target; [ValidateExpression]
    is the parse followed by the walk, and [EvaluateExpression] returns its
    error whatever the evaluator is, so nothing is evaluated after a
    rejection.  The check that the service offers as [ValidateExpression]
    is another one: it accepts exactly the non-empty strings in which the
    word [response] occurs. *)
Theorem expression_rejection_is_static :
  (forall e : Expr,
      plainCallTargets e = true -> ~ SpecAllowed e ->
      exists err, validateASTNode e = Some err)
  /\ (forall (ParseExpr : string -> Expr + string) (expression : string) (e : Expr),
        GoStrings.TrimSpace expression <> "" -> ParseExpr expression = inl e ->
        ValidateExpression ParseExpr expression = validateASTNode e)
  /\ (forall (ParseExpr : string -> Expr + string)
             (evaluate : string -> ResponseData.t -> bool * option string)
             (expression : string) (response : ResponseData.t) (err : Err),
        ValidateExpression ParseExpr expression = Some err ->
        EvaluateExpression ParseExpr evaluate expression response = (false, Some err))
  /\ (forall expression : string,
        Manager.ValidateExpression expression = None <->
        expression <> "" /\ GoStrings.Contains expression "response" = true).
Proof.
  split; [|split; [|split]].
  - intros e Hplain Hnot.
    destruct (validateASTNode e) as [err|] eqn:Hval; [exists err; reflexivity|].
    exfalso. apply Hnot. apply validateASTNode_sound; assumption.
  - intros ParseExpr expression e Hne Hparse. unfold ValidateExpression.
    case_bool_decide; [contradiction|]. rewrite Hparse. reflexivity.
  - intros ParseExpr evaluate expression response err Hval.
    unfold EvaluateExpression. rewrite Hval. reflexivity.
  - apply Manager_ValidateExpression_None.
Qed.

Lemma expression_rejection_is_static_witness :
  (exists err, validateASTNode (Ident "evil") = Some err)
  /\ ValidateExpression (fun _ => inl (Ident "evil")) "evil" = Some (IdentifierNotAllowed "evil").
Proof.
  destruct expression_rejection_is_static as (Hwalk & Hparse & _ & _).
  split.
  - apply Hwalk; [reflexivity|].
    intros H. inversion H as [|name Hc| | | | | | |]; subst.
    apply list_elem_of_In in Hc. simpl in Hc.
    destruct Hc as [Hc|[Hc|[Hc|[]]]]; discriminate Hc.
  - rewrite (Hparse (fun _ => inl (Ident "evil")) "evil" (Ident "evil"));
      [reflexivity|vm_compute; discriminate|reflexivity].
Defined.

(** C1, as stated, fails on the service's check: [system(response)], whose
    tree is a call of the function [system], is outside the grammar, the
    walk rejects the tree, and the service's [ValidateExpression] accepts
    the string. *)
Lemma service_accepts_unlisted_function :
  ~ SpecAllowed (CallExpr (Ident "system") [Ident "response"])
  /\ validateASTNode (CallExpr (Ident "system") [Ident "response"])
     = Some (FunctionNotAllowed "system")
  /\ Manager.ValidateExpression "system(response)" = None.
Proof.
  split; [|split; vm_compute; reflexivity].
  intros H. inversion H as [| | | | | | |name args Hf _|]; subst.
  apply list_elem_of_In in Hf. simpl in Hf.
  repeat (destruct Hf as [Hf|Hf]; [discriminate Hf|]). exact Hf.
Qed.

(** The walk has a gap of its own: a call whose target is neither an
    identifier nor a selector is accepted without a look at the target. *)
Example validateASTNode_parenthesized_target :
  validateASTNode (CallExpr (ParenExpr (Ident "system")) [BasicLit "1"]) = None.
Proof. reflexivity. Qed.

Section EvaluateConfigFacts.

Variable ParseExpr : string -> Expr + string.
Variable evaluateSimpleExpression :
  string -> ResponseData.t -> bool * option string.

(** C2.  With [useCustomExpr] set and a non-empty expression the result of
    [EvaluateConfig] is the result of evaluating the expression, whatever
    the status code; otherwise a status code outside [200,300) fails
    validation, and one inside goes on to the modes behind the gate: 199
    and 300 fail, 200 and 299 pass the gate. *)
Theorem EvaluateConfig_expression_then_status_gate
    (config : ValidationConfig.t) (response : ResponseData.t) :
  (ValidationConfig.UseCustomExpr config = true ->
   ValidationConfig.Expression config <> "" ->
   EvaluateConfig ParseExpr evaluateSimpleExpression config response
   = EvaluateExpression ParseExpr evaluateSimpleExpression
       (ValidationConfig.Expression config) response)
  /\ (~ (ValidationConfig.UseCustomExpr config = true
         /\ ValidationConfig.Expression config <> "") ->
      (~ 200 <= ResponseData.StatusCode response < 300 ->
       EvaluateConfig ParseExpr evaluateSimpleExpression config response
       = (false, None))
      /\ (200 <= ResponseData.StatusCode response < 300 ->
          EvaluateConfig ParseExpr evaluateSimpleExpression config response
          = afterStatusGate config response)
      /\ (ResponseData.StatusCode response = 199
          \/ ResponseData.StatusCode response = 300 ->
          EvaluateConfig ParseExpr evaluateSimpleExpression config response
          = (false, None))
      /\ (ResponseData.StatusCode response = 200
          \/ ResponseData.StatusCode response = 299 ->
          EvaluateConfig ParseExpr evaluateSimpleExpression config response
          = afterStatusGate config response)).
Proof.
  assert (forall b, ~ (ValidationConfig.UseCustomExpr config = true
                       /\ ValidationConfig.Expression config <> "") ->
          (if ValidationConfig.UseCustomExpr config
              && negb (bool_decide (ValidationConfig.Expression config = ""))
           then b else afterStatusGate config response) = afterStatusGate config response)
    as Hoff.
  { intros b Hno. destruct (ValidationConfig.UseCustomExpr config); [|reflexivity].
    case_bool_decide; [reflexivity|]. exfalso; apply Hno; split; [reflexivity|assumption]. }
  assert (~ (ValidationConfig.UseCustomExpr config = true
             /\ ValidationConfig.Expression config <> "") ->
          ~ 200 <= ResponseData.StatusCode response < 300 ->
          EvaluateConfig ParseExpr evaluateSimpleExpression config response
          = (false, None)) as Hfail.
  { intros Hno Hout. unfold EvaluateConfig.
    destruct (ValidationConfig.UseCustomExpr config
              && negb (bool_decide (ValidationConfig.Expression config = ""))) eqn:Hc.
    - exfalso. apply Hno. apply andb_true_iff in Hc as [Hu He].
      split; [exact Hu|]. apply negb_true_iff, bool_decide_eq_false in He. exact He.
    - destruct (ResponseData.StatusCode response <? 200) eqn:Hlo; [reflexivity|].
      destruct (300 <=? ResponseData.StatusCode response) eqn:Hhi; [reflexivity|].
      exfalso. apply Hout. lia. }
  assert (~ (ValidationConfig.UseCustomExpr config = true
             /\ ValidationConfig.Expression config <> "") ->
          200 <= ResponseData.StatusCode response < 300 ->
          EvaluateConfig ParseExpr evaluateSimpleExpression config response
          = afterStatusGate config response) as Hpass.
  { intros Hno Hin. unfold EvaluateConfig.
    destruct (ValidationConfig.UseCustomExpr config
              && negb (bool_decide (ValidationConfig.Expression config = ""))) eqn:Hc.
    - exfalso. apply Hno. apply andb_true_iff in Hc as [Hu He].
      split; [exact Hu|]. apply negb_true_iff, bool_decide_eq_false in He. exact He.
    - destruct (ResponseData.StatusCode response <? 200) eqn:Hlo; [lia|].
      destruct (300 <=? ResponseData.StatusCode response) eqn:Hhi; [lia|].
      reflexivity. }
  split.
  - intros Hu He. unfold EvaluateConfig. rewrite Hu.
    rewrite bool_decide_eq_false_2 by exact He. reflexivity.
  - intros Hno. split; [|split; [|split]].
    + apply Hfail, Hno.
    + apply Hpass, Hno.
    + intros Hs. apply Hfail; [exact Hno|lia].
    + intros Hs. apply Hpass; [exact Hno|lia].
Qed.

End EvaluateConfigFacts.

Lemma EvaluateConfig_expression_then_status_gate_witness :
  EvaluateConfig Samples.noParser Samples.yes
    (Samples.exprConfig "response.status_code == 404") (Samples.response 404 "gone")
  = EvaluateExpression Samples.noParser Samples.yes
      "response.status_code == 404" (Samples.response 404 "gone")
  /\ EvaluateConfig Samples.noParser Samples.yes
       (Samples.textConfig ["ok"]) (Samples.response 199 "ok") = (false, None)
  /\ EvaluateConfig Samples.noParser Samples.yes
       (Samples.textConfig ["ok"]) (Samples.response 299 "ok")
     = afterStatusGate (Samples.textConfig ["ok"]) (Samples.response 299 "ok").
Proof.
  split; [|split].
  - apply (EvaluateConfig_expression_then_status_gate Samples.noParser Samples.yes
             (Samples.exprConfig "response.status_code == 404")
             (Samples.response 404 "gone")); [reflexivity|discriminate].
  - apply (EvaluateConfig_expression_then_status_gate Samples.noParser Samples.yes
             (Samples.textConfig ["ok"]) (Samples.response 199 "ok"));
      [intros [H _]; discriminate H|left; reflexivity].
  - apply (EvaluateConfig_expression_then_status_gate Samples.noParser Samples.yes
             (Samples.textConfig ["ok"]) (Samples.response 299 "ok"));
      [intros [H _]; discriminate H|right; reflexivity].
Defined.

(** In a mode other than [any] the loop runs to its end, and counts the
    needles that are non-empty and found. *)
Lemma matchLoop_counts (config : TextMatchingConfig.t) (text : string)
    (texts : list string) (matchCount : Z) :
  TextMatchingConfig.MatchMode config <> "any" ->
  exists k : Z,
    matchLoop config text texts matchCount = inr (matchCount + k)
    /\ 0 <= k <= Z.of_nat (length texts)
    /\ (k = Z.of_nat (length texts) <->
        Forall (fun searchText =>
                  searchText <> ""
                  /\ GoStrings.Contains text
                       (if negb (TextMatchingConfig.CaseSensitive config)
                        then GoStrings.ToLower searchText else searchText) = true)
          texts).
Proof.
  intros Hmode. revert matchCount.
  induction texts as [|t texts IH]; intros matchCount; simpl matchLoop.
  - exists 0. split; [f_equal; lia|]. split; [simpl; lia|].
    split; [constructor|reflexivity].
  - case_bool_decide as Hempty.
    + destruct (IH matchCount) as (k & Hk & Hbound & Hall).
      exists k. split; [exact Hk|]. split; [simpl length; lia|].
      split; [simpl length; lia|].
      intros HF. inversion HF as [|? ? [Hne _] _]; subst. contradiction.
    + destruct (GoStrings.Contains text _) eqn:Hc.
      * rewrite bool_decide_eq_false_2 by exact Hmode.
        destruct (IH (matchCount + 1)) as (k & Hk & Hbound & Hall).
        exists (k + 1). split; [rewrite Hk; f_equal; lia|].
        split; [simpl length; lia|]. split.
        -- intros Heq. constructor; [split; assumption|].
           apply Hall. simpl length in Heq. lia.
        -- intros HF. inversion HF; subst. simpl length.
           assert (k = Z.of_nat (length texts)) by (apply Hall; assumption). lia.
      * destruct (IH matchCount) as (k & Hk & Hbound & Hall).
        exists k. split; [exact Hk|]. split; [simpl length; lia|].
        split; [simpl length; lia|].
        intros HF. inversion HF as [|? ? [_ Hc'] _]; subst.
        rewrite Hc in Hc'. discriminate Hc'.
Qed.

(** Mode [all] with a non-empty list passes exactly when every needle of
    the list is non-empty and found: an empty needle is skipped by the
    loop, and still counted by [len(config.Texts)]. *)
Lemma checkTextMatching_all_iff (config : TextMatchingConfig.t) (body : string) :
  TextMatchingConfig.MatchMode config = "all" ->
  TextMatchingConfig.Texts config <> [] ->
  checkTextMatching config body = true <->
  Forall (fun searchText =>
            searchText <> ""
            /\ GoStrings.Contains
                 (if negb (TextMatchingConfig.CaseSensitive config)
                  then GoStrings.ToLower body else body)
                 (if negb (TextMatchingConfig.CaseSensitive config)
                  then GoStrings.ToLower searchText else searchText) = true)
    (TextMatchingConfig.Texts config).
Proof.
  intros Hmode Hne. unfold checkTextMatching.
  destruct (Z.of_nat (length (TextMatchingConfig.Texts config)) =? 0) eqn:Hlen.
  { apply Z.eqb_eq in Hlen.
    destruct (TextMatchingConfig.Texts config); [contradiction|simpl in Hlen; lia]. }
  assert (TextMatchingConfig.MatchMode config <> "any") as Hany
    by (rewrite Hmode; discriminate).
  destruct (matchLoop_counts config
              (if negb (TextMatchingConfig.CaseSensitive config)
               then GoStrings.ToLower body else body)
              (TextMatchingConfig.Texts config) 0 Hany) as (k & Hk & _ & Hall).
  rewrite Hk. rewrite bool_decide_eq_true_2 by exact Hmode.
  rewrite Z.eqb_eq. rewrite <- Hall. lia.
Qed.

(** C3 at a failing input.  In mode [all] the needles are ["ok"] and [""]
    and the body is ["ok"]: every non-empty needle is contained in the
    body, and the check fails, since the one needle counted is compared
    with the two of the list.  Without the empty needle the check
    passes. *)
Theorem checkTextMatching_all_empty_needle :
  checkTextMatching (Samples.allOf ["ok"; ""]) "ok" = false
  /\ checkTextMatching (Samples.allOf ["ok"]) "ok" = true
  /\ EvaluateConfig Samples.noParser Samples.yes
       (Samples.textConfig ["ok"; ""]) (Samples.response 200 "ok") = (false, None).
Proof. repeat split. Qed.



End ValidatorFacts.

(** ** Encoding detection *)

Module EncodingFacts.
Import Encoding.

(** C10.  With an empty calibration text [DetectEncoding] answers
    ["UTF-8"] with no error, for every registry and every data, and runs
    no codec of the registry on the data. *)
Theorem DetectEncoding_empty_calibration
    (encodings : list (string * Decoder)) (data : string) :
  DetectEncoding encodings data "" = (("UTF-8", None), []).
Proof. reflexivity. Qed.

Lemma detectLoop_found (data calibrationText : string)
    (encodings : list (string * Decoder)) (tried tried' : list string)
    (name : string) :
  detectLoop data calibrationText encodings tried = ((name, None), tried') ->
  exists enc decoded,
    (name, enc) ∈ encodings /\ enc data = inl decoded
    /\ GoStrings.Contains decoded calibrationText = true.
Proof.
  revert tried. induction encodings as [|[n enc] rest IH]; intros tried H.
  - discriminate H.
  - simpl in H. destruct (enc data) as [decoded|msg] eqn:Hdec.
    + destruct (GoStrings.Contains decoded calibrationText) eqn:Hc.
      * injection H as <- _. exists enc, decoded.
        split; [apply list_elem_of_here|]. split; [exact Hdec|exact Hc].
      * destruct (IH _ H) as (enc' & decoded' & Hin & Hd & Hc').
        exists enc', decoded'. split; [apply list_elem_of_further, Hin|].
        split; assumption.
    + destruct (IH _ H) as (enc' & decoded' & Hin & Hd & Hc').
      exists enc', decoded'. split; [apply list_elem_of_further, Hin|].
      split; assumption.
Qed.

(** With a calibration text, a codec that is answered is one of the
    registry whose decoding of the data contains the text. *)
Lemma DetectEncoding_found (encodings : list (string * Decoder))
    (data calibrationText name : string) (tried : list string) :
  calibrationText <> "" ->
  DetectEncoding encodings data calibrationText = ((name, None), tried) ->
  exists enc decoded,
    (name, enc) ∈ encodings /\ enc data = inl decoded
    /\ GoStrings.Contains decoded calibrationText = true.
Proof.
  intros Hne H. unfold DetectEncoding in H.
  rewrite bool_decide_eq_false_2 in H by exact Hne.
  eapply detectLoop_found, H.
Qed.

End EncodingFacts.

(** ** The parsers *)

Module ParserFacts.
Import Models.

(** What [extractURL] returns: the first argument that is neither [curl]
    nor begins with a dash, whatever stands before it. *)
Lemma extractURLLoop_first (all : list string) (i : Z) (rest : list string) :
  CurlParser.extractURLLoop all i rest
  = hd EmptyString
      (filter (fun arg => arg <> "curl" /\ GoStrings.HasPrefix arg "-" = false) rest).
Proof.
  revert i. induction rest as [|arg rest IH]; intros i; [reflexivity|].
  simpl CurlParser.extractURLLoop. rewrite filter_cons.
  case_bool_decide as Hcurl.
  - rewrite decide_False by (intros [Hne _]; contradiction). apply IH.
  - destruct (GoStrings.HasPrefix arg "-") eqn:Hdash.
    + rewrite decide_False by (intros [_ Hd]; discriminate Hd). apply IH.
    + rewrite decide_True by (split; [exact Hcurl|reflexivity]). reflexivity.
Qed.

Lemma extractURL_first (args : list string) :
  CurlParser.extractURL args
  = hd EmptyString
      (filter (fun arg => arg <> "curl" /\ GoStrings.HasPrefix arg "-" = false) args).
Proof. apply extractURLLoop_first. Qed.

(** C7 at a failing input.  For [curl -X POST https://example.com/api] the
    arguments are [curl], [-X], [POST] and the address; [POST] is the value
    of [-X], and it is what [extractURL] returns and what [Parse] puts in
    the [URL] of the request, with [POST] as the method as well. *)
Theorem extractURL_takes_flag_value :
  CurlParser.parseCurlArgs
    (CurlParser.cleanCurlCommand "curl -X POST https://example.com/api")
  = ["curl"; "-X"; "POST"; "https://example.com/api"]
  /\ CurlParser.extractURL ["curl"; "-X"; "POST"; "https://example.com/api"] = "POST"
  /\ forall urlQuery : string -> gmap string (list string) + string,
       match CurlParser.Parse urlQuery "curl -X POST https://example.com/api" with
       | inl req =>
           ParsedRequest.URL req = "POST" /\ ParsedRequest.Method req = "POST"
       | inr err => exists msg, err = CurlParser.QueryParseError msg
       end.
Proof.
  split; [reflexivity|]. split; [reflexivity|].
  intros urlQuery. unfold CurlParser.Parse.
  rewrite bool_decide_eq_false_2 by (vm_compute; discriminate).
  change (CurlParser.parseCurlArgs
            (CurlParser.cleanCurlCommand "curl -X POST https://example.com/api"))
    with ["curl"; "-X"; "POST"; "https://example.com/api"].
  change (CurlParser.extractURL ["curl"; "-X"; "POST"; "https://example.com/api"])
    with "POST".
  rewrite bool_decide_eq_false_2 by discriminate.
  destruct (CurlParser.parseQueryParams urlQuery "POST") as [q|msg].
  - split; reflexivity.
  - exists msg. reflexivity.
Qed.

(** A text that the raw parser accepts has a first line with at least two
    fields, and these give the method, in upper case, and the URL. *)
Lemma Parse_accepts_first_line
    (urlQuery : string -> gmap string (list string) + string)
    (rawRequest : string) (req : ParsedRequest.t) :
  RawParser.Parse urlQuery rawRequest = inl req ->
  exists first others method rest,
    GoStrings.Split
      (GoStrings.ReplaceAll rawRequest GoStrings.CRLF GoStrings.LF) GoStrings.LF
    = first :: others
    /\ GoStrings.Fields (GoStrings.TrimSpace first)
       = method :: ParsedRequest.URL req :: rest
    /\ ParsedRequest.Method req = GoStrings.ToUpper method.
Proof.
  unfold RawParser.Parse. case_bool_decide; [discriminate|].
  destruct (GoStrings.Split _ _) as [|first others]; [discriminate|].
  destruct (RawParser.parseRequestLine _) as [[method url]|err] eqn:Hline;
    [|discriminate].
  destruct (RawParser.headerLoop 1 others ∅ ∅) as [[headers cookies] start].
  destruct (CurlParser.parseQueryParams urlQuery url) as [q|msg]; [|discriminate].
  intros [= <-]. cbn [ParsedRequest.URL ParsedRequest.Method].
  unfold RawParser.parseRequestLine in Hline.
  destruct (GoStrings.Fields (GoStrings.TrimSpace first)) as [|m [|u rest]]
    eqn:Hfields; try discriminate Hline.
  cbv zeta in Hline.
  destruct (Z.ltb_spec (Z.of_nat (length (m :: u :: rest))) 2) as [Hlt|_];
    [simpl length in Hlt; lia|].
  destruct (existsb _ _); [|discriminate Hline].
  injection Hline as <- <-.
  exists first, others, m, rest. split; [reflexivity|].
  split; [exact Hfields|reflexivity].
Qed.

(** The text of the failing input of C8: an empty line, then a request. *)
Lemma leading_blank_line_text :
  GoStrings.Split
    (GoStrings.ReplaceAll
       (GoStrings.LF +:+ "GET http://a.test/x HTTP/1.1" +:+ GoStrings.CRLF
        +:+ "Host: a.test" +:+ GoStrings.CRLF +:+ GoStrings.CRLF)
       GoStrings.CRLF GoStrings.LF)
    GoStrings.LF
  = [""; "GET http://a.test/x HTTP/1.1"; "Host: a.test"; ""; ""].
Proof. reflexivity. Qed.

(** C8 at a failing input.  The text begins with an empty line, and its
    first non-empty line is a request line.  [RawParser.Parse] reads
    [lines[0]], the empty line, as the request line and fails; the detector
    [IsRawRequest], which trims the text first, recognises the request, so
    that the unified parser takes the text for a raw request and returns
    the error. *)
Theorem Parse_leading_blank_line
    (urlQuery : string -> gmap string (list string) + string) :
  RawParser.Parse urlQuery
    (GoStrings.LF +:+ "GET http://a.test/x HTTP/1.1" +:+ GoStrings.CRLF
     +:+ "Host: a.test" +:+ GoStrings.CRLF +:+ GoStrings.CRLF)
  = inr (RawParser.RequestLineError RawParser.InvalidRequestLine)
  /\ RawParser.IsRawRequest
       (GoStrings.LF +:+ "GET http://a.test/x HTTP/1.1" +:+ GoStrings.CRLF
        +:+ "Host: a.test" +:+ GoStrings.CRLF +:+ GoStrings.CRLF) = true
  /\ UnifiedParser.Parse urlQuery
       (GoStrings.LF +:+ "GET http://a.test/x HTTP/1.1" +:+ GoStrings.CRLF
        +:+ "Host: a.test" +:+ GoStrings.CRLF +:+ GoStrings.CRLF)
     = inr (UnifiedParser.RawError
              (RawParser.RequestLineError RawParser.InvalidRequestLine))
  /\ (exists req,
        RawParser.Parse Samples.noQuery
          ("GET http://a.test/x HTTP/1.1" +:+ GoStrings.CRLF
           +:+ "Host: a.test" +:+ GoStrings.CRLF +:+ GoStrings.CRLF) = inl req
        /\ ParsedRequest.Method req = "GET"
        /\ ParsedRequest.URL req = "http://a.test/x").
Proof.
  assert (RawParser.Parse urlQuery
            (GoStrings.LF +:+ "GET http://a.test/x HTTP/1.1" +:+ GoStrings.CRLF
             +:+ "Host: a.test" +:+ GoStrings.CRLF +:+ GoStrings.CRLF)
          = inr (RawParser.RequestLineError RawParser.InvalidRequestLine)) as Hraw.
  { unfold RawParser.Parse.
    rewrite bool_decide_eq_false_2 by (vm_compute; discriminate).
    rewrite leading_blank_line_text. reflexivity. }
  split; [exact Hraw|]. split; [vm_compute; reflexivity|]. split.
  - unfold UnifiedParser.Parse.
    rewrite bool_decide_eq_false_2 by (vm_compute; discriminate).
    change (UnifiedParser.DetectInputType _) with "raw".
    rewrite bool_decide_eq_false_2 by discriminate.
    rewrite bool_decide_eq_true_2 by reflexivity.
    unfold UnifiedParser.viaRaw. rewrite Hraw. reflexivity.
  - eexists. split; [vm_compute; reflexivity|]. split; reflexivity.
Qed.

End ParserFacts.

(** ** The tester *)

Module TesterFacts.
Import Models Tester.

(** *** Enumerations of a map *)

Lemma range_of_elem {V : Type} (m : gmap string V) (l : list (string * V))
    (k : string) (v : V) :
  range_of m l -> (k, v) ∈ l <-> m !! k = Some v.
Proof.
  unfold range_of. intros Hl. rewrite Hl. apply elem_of_map_to_list.
Qed.

Lemma range_of_NoDup {V : Type} (m : gmap string V) (l : list (string * V)) :
  range_of m l -> NoDup l.*1.
Proof.
  unfold range_of. intros Hl. rewrite Hl. apply NoDup_fst_map_to_list.
Qed.

Lemma range_of_singleton {V : Type} (k : string) (v : V) :
  range_of ({[k := v]} : gmap string V) [(k, v)].
Proof. unfold range_of. rewrite map_to_list_singleton. reflexivity. Qed.

Lemma range_of_empty {V : Type} : range_of (∅ : gmap string V) [].
Proof. unfold range_of. rewrite map_to_list_empty. reflexivity. Qed.

(** *** The simplified request *)

Lemma keepRequired_within (originalFields : gmap string string)
    (results : list (string * FieldTestResult.t))
    (simplified : gmap string string) :
  (forall name value,
      simplified !! name = Some value -> originalFields !! name = Some value) ->
  forall name value,
    keepRequired originalFields results simplified !! name = Some value ->
    originalFields !! name = Some value.
Proof.
  revert simplified.
  induction results as [|[n r] results IH]; intros simplified Hin name value;
    simpl; [apply Hin|].
  destruct (FieldTestResult.Required r); [|apply IH, Hin].
  destruct (originalFields !! n) as [v|] eqn:Hn; [|apply IH, Hin].
  apply IH. intros name' value'. rewrite lookup_insert.
  case_decide as Heq; [|apply Hin].
  subst name'. intros [= <-]. exact Hn.
Qed.

Lemma copyInto_list_to_map (entries : list (string * string))
    (target : gmap string string) :
  NoDup entries.*1 -> copyInto entries target = list_to_map entries ∪ target.
Proof.
  revert target. induction entries as [|[k v] entries IH]; intros target Hnd.
  - simpl. symmetry. apply (left_id ∅ (∪)).
  - rewrite fmap_cons in Hnd. apply NoDup_cons in Hnd as [Hk Hnd].
    simpl. rewrite (IH _ Hnd).
    rewrite <- insert_union_l. symmetry. apply insert_union_r.
    apply not_elem_of_list_to_map_1, Hk.
Qed.

Lemma copyInto_range (m : gmap string string) (entries : list (string * string)) :
  range_of m entries -> copyInto entries ∅ = m.
Proof.
  intros Hr. rewrite copyInto_list_to_map by (eapply range_of_NoDup, Hr).
  rewrite (right_id ∅ (∪)).
  rewrite <- (list_to_map_to_list m).
  apply list_to_map_proper; [eapply range_of_NoDup, Hr|exact Hr].
Qed.

(** C9.  In the request that [generateSimplifiedRequestFromCumulative]
    builds, a header is a header of the original request with the same
    value, a cookie is a cookie of the original with the same value, and
    the query parameters, the method, the URL, the body and the content
    type are those of the original. *)
Theorem simplified_request_within_original
    (original : ParsedRequest.t)
    (headerResults cookieResults : list (string * FieldTestResult.t))
    (queryOrder : list (string * string)) :
  range_of (ParsedRequest.QueryParams original) queryOrder ->
  let simplified :=
    generateSimplifiedRequestFromCumulative original headerResults
      cookieResults queryOrder in
  (forall name value,
      ParsedRequest.Headers simplified !! name = Some value ->
      ParsedRequest.Headers original !! name = Some value)
  /\ (forall name value,
        ParsedRequest.Cookies simplified !! name = Some value ->
        ParsedRequest.Cookies original !! name = Some value)
  /\ ParsedRequest.QueryParams simplified = ParsedRequest.QueryParams original
  /\ ParsedRequest.Method simplified = ParsedRequest.Method original
  /\ ParsedRequest.URL simplified = ParsedRequest.URL original
  /\ ParsedRequest.Body simplified = ParsedRequest.Body original
  /\ ParsedRequest.ContentType simplified = ParsedRequest.ContentType original.
Proof.
  intros Hq simplified. subst simplified. simpl.
  split; [|split; [|split; [|repeat split]]].
  - apply keepRequired_within. intros name value H.
    rewrite lookup_empty in H. discriminate H.
  - apply keepRequired_within. intros name value H.
    rewrite lookup_empty in H. discriminate H.
  - apply copyInto_range, Hq.
Qed.

Lemma simplified_request_within_original_witness :
  ParsedRequest.QueryParams
    (generateSimplifiedRequestFromCumulative
       (Samples.request {["Accept" := "*/*"]} {["s" := "1"]})
       [("Accept", Samples.field true "*/*")] [("s", Samples.field false "1")]
       [("y", "1")])
  = ParsedRequest.QueryParams
      (Samples.request {["Accept" := "*/*"]} {["s" := "1"]})
  /\ ParsedRequest.Headers
       (generateSimplifiedRequestFromCumulative
          (Samples.request {["Accept" := "*/*"]} {["s" := "1"]})
          [("Accept", Samples.field true "*/*")] [("s", Samples.field false "1")]
          [("y", "1")]) !! "Accept" = Some "*/*"
  /\ ParsedRequest.Cookies
       (generateSimplifiedRequestFromCumulative
          (Samples.request {["Accept" := "*/*"]} {["s" := "1"]})
          [("Accept", Samples.field true "*/*")] [("s", Samples.field false "1")]
          [("y", "1")]) !! "s" = None.
Proof.
  split; [|split; reflexivity].
  apply (simplified_request_within_original
           (Samples.request {["Accept" := "*/*"]} {["s" := "1"]})
           [("Accept", Samples.field true "*/*")] [("s", Samples.field false "1")]
           [("y", "1")]).
  apply range_of_singleton.
Defined.

(** *** Retries *)

Lemma wrap64_small (z : Z) : - 2 ^ 63 <= z < 2 ^ 63 -> wrap64 z = z.
Proof. intros Hz. unfold wrap64. rewrite Z.mod_small; lia. Qed.

(** Up to attempt 36 the product stays inside 64 bits and the sleep is
    [100 ms * 2^attempt]. *)
Lemma waitTime_exact (attempt : Z) :
  0 <= attempt <= 36 -> waitTime attempt = 100 * 2 ^ attempt * Millisecond.
Proof.
  intros Ha. unfold waitTime, Millisecond.
  rewrite Z.shiftl_1_l.
  assert (0 < 2 ^ attempt <= 2 ^ 36) as Hp.
  { split; [apply Z.pow_pos_nonneg; lia|apply Z.pow_le_mono_r; lia]. }
  change (2 ^ 36) with 68719476736 in Hp.
  rewrite (wrap64_small (2 ^ attempt)) by (change (2 ^ 63) with 9223372036854775808; lia).
  rewrite (wrap64_small (100 * 2 ^ attempt))
    by (change (2 ^ 63) with 9223372036854775808; lia).
  apply wrap64_small. change (2 ^ 63) with 9223372036854775808. lia.
Qed.

(** At attempt 37 the duration no longer fits: the sleep is negative,
    which [time.Sleep] takes for no sleep at all. *)
Example waitTime_37 : waitTime 37 = -4702848726509551616.
Proof. reflexivity. Qed.

Lemma attempts_app (t1 t2 : list Event) :
  attempts (t1 ++ t2) = attempts t1 + attempts t2.
Proof.
  induction t1 as [|[a|d] t1 IH]; simpl; [reflexivity|rewrite IH; lia|exact IH].
Qed.

Lemma attempts_schedule (first : Z) (more : nat) :
  attempts (schedule first more) = Z.of_nat more + 1.
Proof.
  revert first. induction more as [|more IH]; intros first; [reflexivity|].
  simpl schedule. simpl attempts. rewrite IH. lia.
Qed.

Section RetryFacts.

Context {World : Type}.
Variable TestRequest :
  ParsedRequest.t -> ValidationConfig.t -> World ->
  (ResponseData.t + string) * World.

(** The loop, entered at [attempt] with [gap] attempts left after it,
    ends, and from there on sends the attempts [attempt], ..., [last] for
    some [last] up to [maxRetries], sleeping between two of them. *)
Lemma retryLoop_schedule (req : ParsedRequest.t) (config : ValidationConfig.t)
    (maxRetries : Z) (gap : nat) :
  maxRetries < 2 ^ 63 - 1 ->
  forall (fuel : nat) (attempt : Z) (lastErr : string) (w : World)
         (trace : list Event),
    0 <= attempt -> attempt + Z.of_nat gap = maxRetries ->
    (gap + 2 <= fuel)%nat ->
    exists outcome w' (done_ : nat),
      (done_ <= gap)%nat
      /\ retryLoop TestRequest fuel req config maxRetries attempt lastErr w trace
         = Some (outcome, w', trace ++ schedule attempt done_).
Proof.
  intros Hmax. induction gap as [|gap IH];
    intros fuel attempt lastErr w trace Hattempt Hgap Hfuel.
  - destruct fuel as [|[|fuel]]; [lia|lia|].
    simpl retryLoop. rewrite (proj2 (Z.leb_le attempt maxRetries)) by lia.
    destruct (TestRequest req config w) as [[response|err] w'].
    + exists (inl response), w', 0%nat. split; [lia|reflexivity].
    + rewrite (proj2 (Z.ltb_ge attempt maxRetries)) by lia.
      rewrite wrap64_small by lia.
      rewrite (proj2 (Z.leb_gt (attempt + 1) maxRetries)) by lia.
      exists (inr (RetriesExhausted maxRetries err)), w', 0%nat.
      split; [lia|reflexivity].
  - destruct fuel as [|fuel]; [lia|].
    simpl retryLoop. rewrite (proj2 (Z.leb_le attempt maxRetries)) by lia.
    destruct (TestRequest req config w) as [[response|err] w'].
    + exists (inl response), w', 0%nat. split; [lia|reflexivity].
    + rewrite (proj2 (Z.ltb_lt attempt maxRetries)) by lia.
      rewrite wrap64_small by lia.
      destruct (IH fuel (attempt + 1) err w'
                  ((trace ++ [Attempt attempt]) ++ [Sleep (waitTime attempt)]))
        as (outcome & w'' & done_ & Hdone & Hloop); [lia|lia|lia|].
      exists outcome, w'', (S done_). split; [lia|].
      rewrite Hloop. simpl schedule. rewrite <- !app_assoc. reflexivity.
Qed.

(** C5, as the code has it.  Let [n] be [maxRetries], or 3 when
    [maxRetries] is not positive.  [TestRequestWithRetry] returns: it sends
    the attempts [0], ..., [last] for some [last <= n], so at most [n + 1]
    requests, and sleeps [waitTime k] between the attempts [k] and
    [k + 1], which is [100 ms * 2^k] up to [k = 36]. *)
Theorem TestRequestWithRetry_attempts (req : ParsedRequest.t)
    (config : ValidationConfig.t) (w : World) (fuel : nat) :
  let n :=
    if ValidationConfig.MaxRetries config <=? 0 then 3
    else ValidationConfig.MaxRetries config in
  ValidationConfig.MaxRetries config < 2 ^ 63 - 1 ->
  (Z.to_nat n + 2 <= fuel)%nat ->
  exists outcome w' (last : nat),
    TestRequestWithRetry TestRequest fuel req config w
    = Some (outcome, w', schedule 0 last)
    /\ Z.of_nat last <= n
    /\ attempts (schedule 0 last) <= n + 1
    /\ forall k : Z, 0 <= k <= 36 -> waitTime k = 100 * 2 ^ k * Millisecond.
Proof.
  intros n Hmax Hfuel.
  assert (0 < n < 2 ^ 63 - 1) as Hn.
  { subst n. destruct (Z.leb_spec (ValidationConfig.MaxRetries config) 0);
      [change (2 ^ 63 - 1) with 9223372036854775807|]; lia. }
  destruct (retryLoop_schedule req config n (Z.to_nat n) (proj2 Hn)
              fuel 0 EmptyString w []) as (outcome & w' & last & Hlast & Hloop);
    [lia|lia|exact Hfuel|].
  exists outcome, w', last. split; [exact Hloop|].
  split; [lia|]. split; [rewrite attempts_schedule; lia|].
  apply waitTime_exact.
Qed.

End RetryFacts.

Lemma TestRequestWithRetry_attempts_witness :
  exists outcome w' (last : nat),
    TestRequestWithRetry Samples.unreachable 10 (Samples.request ∅ ∅)
      (Samples.retryConfig 2) tt
    = Some (outcome, w', schedule 0 last)
    /\ Z.of_nat last <= 2
    /\ attempts (schedule 0 last) <= 2 + 1
    /\ forall k : Z, 0 <= k <= 36 -> waitTime k = 100 * 2 ^ k * Millisecond.
Proof.
  apply (TestRequestWithRetry_attempts Samples.unreachable (Samples.request ∅ ∅)
           (Samples.retryConfig 2) tt 10); [reflexivity|simpl; lia].
Defined.

(** C5, as stated, fails at [maxRetries = 0]: on a network where every
    exchange fails the request is sent four times, not once. *)
Lemma zero_retries_four_attempts :
  TestRequestWithRetry Samples.unreachable 10 (Samples.request ∅ ∅)
    (Samples.retryConfig 0) tt
  = Some (inr (RetriesExhausted 3 "connection refused"), tt,
          [Attempt 0; Sleep 100000000; Attempt 1; Sleep 200000000;
           Attempt 2; Sleep 400000000; Attempt 3])
  /\ attempts [Attempt 0; Sleep 100000000; Attempt 1; Sleep 200000000;
               Attempt 2; Sleep 400000000; Attempt 3] = 4
  /\ ~ 4 <= ValidationConfig.MaxRetries (Samples.retryConfig 0) + 1.
Proof. split; [reflexivity|]. split; [reflexivity|]. simpl. lia. Qed.

(** *** The outgoing headers *)

Lemma lowerByte_upperByte (c : ascii) :
  GoStrings.lowerByte (GoStrings.upperByte c) = GoStrings.lowerByte c.
Proof. destruct c as [[] [] [] [] [] [] [] []]; reflexivity. Qed.

Lemma lowerByte_lowerByte (c : ascii) :
  GoStrings.lowerByte (GoStrings.lowerByte c) = GoStrings.lowerByte c.
Proof. destruct c as [[] [] [] [] [] [] [] []]; reflexivity. Qed.

Lemma ToLower_canonicalCase (upper : bool) (s : string) :
  GoStrings.ToLower (NetHTTP.canonicalCase upper s) = GoStrings.ToLower s.
Proof.
  revert upper. induction s as [|c s IH]; intros upper; [reflexivity|].
  simpl. rewrite IH. f_equal.
  destruct upper; [apply lowerByte_upperByte|apply lowerByte_lowerByte].
Qed.

(** The canonical key differs from the key by the case of letters only. *)
Lemma ToLower_CanonicalMIMEHeaderKey (s : string) :
  GoStrings.ToLower (NetHTTP.CanonicalMIMEHeaderKey s) = GoStrings.ToLower s.
Proof.
  unfold NetHTTP.CanonicalMIMEHeaderKey.
  destruct (NetHTTP.allValid s); [apply ToLower_canonicalCase|reflexivity].
Qed.

Lemma canonical_user_agent (key : string) :
  NetHTTP.CanonicalMIMEHeaderKey key = "User-Agent" ->
  GoStrings.ToLower key = "user-agent".
Proof.
  intros H. rewrite <- ToLower_CanonicalMIMEHeaderKey, H. reflexivity.
Qed.

Lemma setHeaders_app (l1 l2 : list (string * string)) (h : NetHTTP.Header) :
  setHeaders (l1 ++ l2) h = setHeaders l2 (setHeaders l1 h).
Proof.
  revert h. induction l1 as [|[k v] l1 IH]; intros h; [reflexivity|].
  simpl. destruct (_ && _); apply IH.
Qed.

(** The loop leaves a canonical key alone when no header that it sets has
    this canonical key. *)
Lemma setHeaders_other (l : list (string * string)) (h : NetHTTP.Header)
    (ck : string) :
  (forall k v, (k, v) ∈ l ->
               ~ (GoStrings.ToLower k = "user-agent" /\ v = "") ->
               NetHTTP.CanonicalMIMEHeaderKey k <> ck) ->
  setHeaders l h !! ck = h !! ck.
Proof.
  revert h. induction l as [|[k v] l IH]; intros h Hl; [reflexivity|].
  simpl.
  assert (forall k' v', (k', v') ∈ l ->
            ~ (GoStrings.ToLower k' = "user-agent" /\ v' = "") ->
            NetHTTP.CanonicalMIMEHeaderKey k' <> ck) as Hl'
    by (intros k' v' Hin; apply Hl, list_elem_of_further, Hin).
  destruct (bool_decide (GoStrings.ToLower k = "user-agent") && bool_decide (v = ""))
    eqn:Hskip; [apply IH, Hl'|].
  rewrite (IH _ Hl'). unfold NetHTTP.Header_Set.
  apply lookup_insert_ne, (Hl k v); [apply list_elem_of_here|].
  intros [Hk Hv]. rewrite !bool_decide_eq_true_2 in Hskip by assumption.
  discriminate Hskip.
Qed.

(** Dropping the [User-Agent] headers with an empty value from the
    enumeration does not change what the loop builds. *)
Lemma setHeaders_filter (l : list (string * string)) (h : NetHTTP.Header) :
  setHeaders
    (filter (fun kv => ~ (GoStrings.ToLower kv.1 = "user-agent" /\ kv.2 = "")) l) h
  = setHeaders l h.
Proof.
  revert h. induction l as [|[k v] l IH]; intros h; [reflexivity|].
  rewrite filter_cons. simpl.
  destruct (bool_decide (GoStrings.ToLower k = "user-agent") && bool_decide (v = ""))
    eqn:Hskip.
  - apply andb_true_iff in Hskip as [Hk Hv].
    apply bool_decide_eq_true in Hk. apply bool_decide_eq_true in Hv.
    rewrite decide_False by (intros Hn; apply Hn; split; assumption). apply IH.
  - rewrite decide_True.
    + simpl. rewrite Hskip. apply IH.
    + intros [Hk Hv]. rewrite !bool_decide_eq_true_2 in Hskip by assumption.
      discriminate Hskip.
Qed.

Lemma canonical_Cookie : NetHTTP.CanonicalMIMEHeaderKey "Cookie" = "Cookie".
Proof. reflexivity. Qed.

(** [AddCookie] writes under the key [Cookie] only. *)
Lemma addCookies_other (l : list (string * string)) (h : NetHTTP.Header)
    (ck : string) :
  ck <> "Cookie" -> addCookies l h !! ck = h !! ck.
Proof.
  intros Hck. revert h. induction l as [|[n v] l IH]; intros h; [reflexivity|].
  simpl. rewrite IH. unfold NetHTTP.AddCookie, NetHTTP.Header_Set.
  rewrite canonical_Cookie.
  destruct (negb _); apply lookup_insert_ne; congruence.
Qed.

Section HeaderFacts.

Variable NewRequest_error : string -> string -> option string.

(** In the request that [createHTTPRequest] builds, the header map is the
    one that the other headers alone give:
    a [User-Agent] header with an empty value leaves no trace, and when
    every [User-Agent] header is empty the map has no [User-Agent] key.
    Every other header is in the map under its canonical key with its
    value, provided that no other header that is set has the same
    canonical key and that, for the key [Cookie], the request has no
    cookies (which [AddCookie] appends to that line). *)
Theorem createHTTPRequest_headers (req : ParsedRequest.t)
    (headerOrder cookieOrder : list (string * string)) (r : NetHTTP.Request) :
  range_of (ParsedRequest.Headers req) headerOrder ->
  range_of (ParsedRequest.Cookies req) cookieOrder ->
  createHTTPRequest NewRequest_error req headerOrder cookieOrder = inl r ->
  NetHTTP.Header_ r
  = outgoingHeader
      (filter (fun kv => ~ (GoStrings.ToLower kv.1 = "user-agent" /\ kv.2 = ""))
         headerOrder)
      cookieOrder
  /\ ((forall key value,
         ParsedRequest.Headers req !! key = Some value ->
         GoStrings.ToLower key = "user-agent" -> value = "") ->
      NetHTTP.Header_ r !! "User-Agent" = None)
  /\ (forall key value,
        ParsedRequest.Headers req !! key = Some value ->
        ~ (GoStrings.ToLower key = "user-agent" /\ value = "") ->
        (forall key' value',
            key' <> key ->
            ParsedRequest.Headers req !! key' = Some value' ->
            ~ (GoStrings.ToLower key' = "user-agent" /\ value' = "") ->
            NetHTTP.CanonicalMIMEHeaderKey key'
            <> NetHTTP.CanonicalMIMEHeaderKey key) ->
        ParsedRequest.Cookies req = ∅
        \/ NetHTTP.CanonicalMIMEHeaderKey key <> "Cookie" ->
        NetHTTP.Header_ r !! NetHTTP.CanonicalMIMEHeaderKey key = Some [value]).
Proof.
  intros Hh Hc Hcreate. unfold createHTTPRequest in Hcreate.
  destruct (NewRequest_error _ _); [discriminate Hcreate|].
  injection Hcreate as <-. simpl NetHTTP.Header_.
  split; [|split].
  - unfold outgoingHeader. rewrite setHeaders_filter. reflexivity.
  - intros Hempty. unfold outgoingHeader.
    rewrite addCookies_other by discriminate.
    rewrite setHeaders_other; [apply lookup_empty|].
    intros k v Hin Hset Hcanon. apply Hset.
    apply canonical_user_agent in Hcanon. split; [exact Hcanon|].
    apply (Hempty k v); [|exact Hcanon].
    apply (range_of_elem _ _ _ _ Hh), Hin.
  - intros key value Hkey Hset Hunique Hcookie. unfold outgoingHeader.
    assert (addCookies cookieOrder (setHeaders headerOrder ∅)
              !! NetHTTP.CanonicalMIMEHeaderKey key
            = setHeaders headerOrder ∅ !! NetHTTP.CanonicalMIMEHeaderKey key) as ->.
    { destruct Hcookie as [Hnone|Hother]; [|apply addCookies_other, Hother].
      rewrite Hnone in Hc. unfold range_of in Hc.
      rewrite map_to_list_empty in Hc. apply Permutation_nil_r in Hc.
      rewrite Hc. reflexivity. }
    apply (range_of_elem _ _ _ _ Hh) in Hkey.
    pose proof (range_of_NoDup _ _ Hh) as Hnd.
    apply list_elem_of_split in Hkey as (l1 & l2 & ->).
    rewrite setHeaders_app. simpl.
    destruct (bool_decide (GoStrings.ToLower key = "user-agent")
              && bool_decide (value = "")) eqn:Hskip.
    { exfalso. apply Hset. apply andb_true_iff in Hskip as [Hk Hv].
      split; [apply bool_decide_eq_true in Hk|apply bool_decide_eq_true in Hv];
        assumption. }
    rewrite setHeaders_other.
    + unfold NetHTTP.Header_Set. apply lookup_insert_eq.
    + intros k v Hin Hset'. apply (Hunique k v); [| |exact Hset'].
      * intros ->. rewrite fmap_app, fmap_cons in Hnd.
        apply NoDup_app in Hnd as (_ & _ & Hnd).
        apply NoDup_cons in Hnd as [Hnotin _]. apply Hnotin.
        apply list_elem_of_fmap. exists (key, v). split; [reflexivity|exact Hin].
      * apply (range_of_elem _ _ _ _ Hh).
        apply elem_of_app. right. apply list_elem_of_further, Hin.
Qed.

(** C6, what the code does.  For a request whose [User-Agent] headers
    all have an empty value, as one with an empty [User-Agent], the header
    map that [createHTTPRequest] builds has no key [User-Agent], and for
    such a map [Request.write] sends the [User-Agent] of [net/http]
    itself: the request goes out with [User-Agent: Go-http-client/1.1].
    No line is sent for a map that holds the key with an empty value, which
    is what the loop skips. *)
Theorem empty_user_agent_sent_as_default (req : ParsedRequest.t)
    (headerOrder cookieOrder : list (string * string)) (r : NetHTTP.Request) :
  range_of (ParsedRequest.Headers req) headerOrder ->
  createHTTPRequest NewRequest_error req headerOrder cookieOrder = inl r ->
  (forall key value,
      ParsedRequest.Headers req !! key = Some value ->
      GoStrings.ToLower key = "user-agent" -> value = "") ->
  NetHTTP.Header_ r !! "User-Agent" = None
  /\ NetHTTP.writeUserAgent (NetHTTP.Header_ r) = Some "Go-http-client/1.1"
  /\ NetHTTP.writeUserAgent (NetHTTP.Header_Set (NetHTTP.Header_ r) "User-Agent" "")
     = None.
Proof.
  intros Hh Hcreate Hempty. unfold createHTTPRequest in Hcreate.
  destruct (NewRequest_error _ _); [discriminate Hcreate|].
  injection Hcreate as <-. simpl NetHTTP.Header_.
  assert (outgoingHeader headerOrder cookieOrder !! "User-Agent" = None) as Hnone.
  { unfold outgoingHeader. rewrite addCookies_other by discriminate.
    rewrite setHeaders_other; [apply lookup_empty|].
    intros k v Hin Hset Hcanon. apply Hset.
    apply canonical_user_agent in Hcanon. split; [exact Hcanon|].
    apply (Hempty k v); [|exact Hcanon].
    apply (range_of_elem _ _ _ _ Hh), Hin. }
  split; [exact Hnone|]. split.
  - unfold NetHTTP.writeUserAgent, NetHTTP.Header_has.
    rewrite Hnone. reflexivity.
  - unfold NetHTTP.writeUserAgent, NetHTTP.Header_has, NetHTTP.Header_Get,
      NetHTTP.Header_Set.
    change (NetHTTP.CanonicalMIMEHeaderKey "User-Agent") with "User-Agent".
    rewrite lookup_insert_eq.
    rewrite bool_decide_eq_true_2 by (eexists; reflexivity). reflexivity.
Qed.

End HeaderFacts.

Lemma empty_user_agent_sent_as_default_witness :
  outgoingHeader [("User-Agent", ""); ("Accept", "*/*")] [] !! "User-Agent" = None
  /\ NetHTTP.writeUserAgent (outgoingHeader [("User-Agent", ""); ("Accept", "*/*")] [])
     = Some "Go-http-client/1.1"
  /\ NetHTTP.writeUserAgent
       (NetHTTP.Header_Set
          (outgoingHeader [("User-Agent", ""); ("Accept", "*/*")] [])
          "User-Agent" "")
     = None.
Proof.
  apply (empty_user_agent_sent_as_default (fun _ _ => None)
           (Samples.request {["Accept" := "*/*"; "User-Agent" := ""]} ∅)
           [("User-Agent", ""); ("Accept", "*/*")] []
           (NetHTTP.mkRequest "GET" "https://a.test/x?y=1" None
              (outgoingHeader [("User-Agent", ""); ("Accept", "*/*")] [])));
    [unfold range_of; vm_compute; reflexivity|reflexivity|].
  intros key value Hkey Hlower. simpl in Hkey.
  apply lookup_insert_Some in Hkey as [[<- _]|[_ Hkey]]; [discriminate Hlower|].
  apply lookup_singleton_Some in Hkey as [_ <-]. reflexivity.
Defined.

Lemma createHTTPRequest_headers_witness :
  outgoingHeader [("User-Agent", ""); ("Accept", "*/*")] [] !! "User-Agent" = None
  /\ outgoingHeader [("User-Agent", ""); ("Accept", "*/*")] [] !! "Accept"
     = Some ["*/*"].
Proof.
  destruct (createHTTPRequest_headers (fun _ _ => None)
              (Samples.request {["Accept" := "*/*"; "User-Agent" := ""]} ∅)
              [("User-Agent", ""); ("Accept", "*/*")] []
              (NetHTTP.mkRequest "GET" "https://a.test/x?y=1" None
                 (outgoingHeader [("User-Agent", ""); ("Accept", "*/*")] [])))
    as (_ & Hua & Hkeep);
    [unfold range_of; vm_compute; reflexivity|apply range_of_empty|reflexivity|].
  split.
  - apply Hua. intros key value Hkey Hlower. simpl in Hkey.
    apply lookup_insert_Some in Hkey as [[<- _]|[_ Hkey]]; [discriminate Hlower|].
    apply lookup_singleton_Some in Hkey as [_ <-]. reflexivity.
  - apply (Hkeep "Accept" "*/*").
    + reflexivity.
    + intros [Hlower _]. discriminate Hlower.
    + intros key' value' Hne Hkey' Hset. simpl in Hkey'.
      apply lookup_insert_Some in Hkey' as [[Heq _]|[_ Hkey']]; [congruence|].
      apply lookup_singleton_Some in Hkey' as [<- <-].
      exfalso. apply Hset. split; reflexivity.
    + left. reflexivity.
Defined.

(** A header is not always kept with its value: for the [Cookie] header of
    a request that has cookies, as every raw request with a [Cookie] line
    has, the header is [Cookie: s=1] and the map of the outgoing request
    holds [s=1; s=1] under [Cookie]. *)
Lemma cookie_header_not_sent_as_given :
  ~ (forall (req : ParsedRequest.t) (headerOrder cookieOrder : list (string * string))
            (key value : string),
       range_of (ParsedRequest.Headers req) headerOrder ->
       range_of (ParsedRequest.Cookies req) cookieOrder ->
       ParsedRequest.Headers req !! key = Some value ->
       ~ (GoStrings.ToLower key = "user-agent" /\ value = "") ->
       outgoingHeader headerOrder cookieOrder
         !! NetHTTP.CanonicalMIMEHeaderKey key = Some [value]).
Proof.
  intros H.
  specialize (H (Samples.request {["Cookie" := "s=1"]} {["s" := "1"]})
                [("Cookie", "s=1")] [("s", "1")] "Cookie" "s=1"
                (range_of_singleton _ _) (range_of_singleton _ _) eq_refl).
  assert (outgoingHeader [("Cookie", "s=1")] [("s", "1")] !! "Cookie"
          = Some ["s=1; s=1"]) as Hsent by reflexivity.
  rewrite canonical_Cookie, Hsent in H.
  assert (Some ["s=1; s=1"] = Some ["s=1"]) as Heq
    by (apply H; intros [Hlower _]; discriminate Hlower).
  discriminate Heq.
Qed.

(** Two headers that differ by case only share a canonical key, and one of
    the two values is lost: which one depends on the order of the
    [range]. *)
Example same_canonical_key :
  outgoingHeader [("x-a", "1"); ("X-A", "2")] [] !! "X-A" = Some ["2"]
  /\ outgoingHeader [("X-A", "2"); ("x-a", "1")] [] !! "X-A" = Some ["1"].
Proof. split; reflexivity. Qed.

End TesterFacts.

(** ** The cumulative removal *)

Module MinimizerFacts.
Import Models Tester Minimizer.

Lemma copyInto_map_to_list (m : gmap string string) :
  copyInto (map_to_list m) ∅ = m.
Proof. apply TesterFacts.copyInto_range. unfold range_of. reflexivity. Qed.

Lemma buildRequestFromState_maps (st : CumulativeTestState.t)
    (original : ParsedRequest.t) :
  buildRequestFromState st original
  = ParsedRequest.mk (ParsedRequest.Method original) (ParsedRequest.URL original)
      (CumulativeTestState.Headers st) (CumulativeTestState.Cookies st)
      (ParsedRequest.Body original) (ParsedRequest.QueryParams original)
      (ParsedRequest.ContentType original).
Proof.
  unfold buildRequestFromState. rewrite !copyInto_map_to_list. reflexivity.
Qed.

(** What [keepRequired] leaves under a key: the value of the original for
    a key with a required result, what was there otherwise. *)
Lemma keepRequired_absent (originalFields : gmap string string)
    (l : list (string * FieldTestResult.t)) (acc : gmap string string)
    (k : string) :
  (forall r, (k, r) ∈ l ->
     FieldTestResult.Required r = false \/ originalFields !! k = None) ->
  keepRequired originalFields l acc !! k = acc !! k.
Proof.
  revert acc. induction l as [|[n r] l IH]; intros acc Hl; [reflexivity|].
  simpl.
  assert (forall r', (k, r') ∈ l ->
            FieldTestResult.Required r' = false \/ originalFields !! k = None)
    as Hl' by (intros r' Hin; apply Hl, list_elem_of_further, Hin).
  destruct (FieldTestResult.Required r) eqn:Hreq; [|apply IH, Hl'].
  destruct (originalFields !! n) as [v|] eqn:Hn; [|apply IH, Hl'].
  rewrite (IH _ Hl'). apply lookup_insert_ne. intros ->.
  destruct (Hl r (list_elem_of_here _ _)) as [H|H]; congruence.
Qed.

Lemma keepRequired_present (originalFields : gmap string string)
    (l : list (string * FieldTestResult.t)) (acc : gmap string string)
    (k v : string) (r : FieldTestResult.t) :
  NoDup l.*1 -> (k, r) ∈ l -> FieldTestResult.Required r = true ->
  originalFields !! k = Some v ->
  keepRequired originalFields l acc !! k = Some v.
Proof.
  revert acc. induction l as [|[n r'] l IH]; intros acc Hnd Hin Hreq Hv.
  { apply elem_of_nil in Hin. contradiction. }
  rewrite fmap_cons in Hnd. apply NoDup_cons in Hnd as [Hn Hnd].
  apply elem_of_cons in Hin as [Heq|Hin].
  - injection Heq as <- <-. simpl. rewrite Hreq, Hv.
    rewrite keepRequired_absent; [apply lookup_insert_eq|].
    intros r' Hin'. exfalso. apply Hn.
    apply list_elem_of_fmap. exists (k, r'). split; [reflexivity|exact Hin'].
  - simpl. destruct (FieldTestResult.Required r'); [|apply IH; assumption].
    destruct (originalFields !! n); apply IH; assumption.
Qed.

(** The simplified fields, read off the map of results. *)
Lemma keepRequired_results (originalFields : gmap string string)
    (fieldResults : gmap string FieldTestResult.t) (k : string) :
  keepRequired originalFields (map_to_list fieldResults) ∅ !! k
  = match fieldResults !! k with
    | Some r => if FieldTestResult.Required r then originalFields !! k else None
    | None => None
    end.
Proof.
  destruct (fieldResults !! k) as [r|] eqn:Hr.
  - destruct (FieldTestResult.Required r) eqn:Hreq.
    + destruct (originalFields !! k) as [v|] eqn:Hv.
      * apply (keepRequired_present _ _ _ k v r);
          [apply NoDup_fst_map_to_list|apply elem_of_map_to_list, Hr|exact Hreq|exact Hv].
      * rewrite keepRequired_absent; [apply lookup_empty|]. intros; right; exact Hv.
    + rewrite keepRequired_absent; [apply lookup_empty|].
      intros r' Hin. apply elem_of_map_to_list in Hin. left. congruence.
  - rewrite keepRequired_absent; [apply lookup_empty|].
    intros r' Hin. apply elem_of_map_to_list in Hin. congruence.
Qed.

Lemma range_of_keys {V : Type} (m : gmap string V) (l : list (string * V))
    (k : string) :
  range_of m l -> k ∈ l.*1 <-> is_Some (m !! k).
Proof.
  intros Hr. rewrite list_elem_of_fmap. split.
  - intros ([k' v] & -> & Hin). exists v.
    apply (TesterFacts.range_of_elem _ _ _ _ Hr), Hin.
  - intros [v Hv]. exists (k, v). split; [reflexivity|].
    apply (TesterFacts.range_of_elem _ _ _ _ Hr), Hv.
Qed.

Lemma sorted_snoc (l : list Z) (x : Z) :
  StronglySorted Z.le l -> Forall (fun y => y <= x) l ->
  StronglySorted Z.le (l ++ [x]).
Proof.
  induction 1 as [|y l Hs IH Hy]; intros Hx; cbn.
  - repeat constructor.
  - apply Forall_cons in Hx as [Hyx Hx]. constructor; [apply IH, Hx|].
    apply Forall_app. split; [exact Hy|]. constructor; [exact Hyx|constructor].
Qed.

Section ProbeFacts.

Context {World : Type}.
Variable backend : Backend World.

Variable original : ParsedRequest.t.
Variable config : ValidationConfig.t.
Variable totalTests : Z.

(** A pass over a header touches this header only. *)
Lemma headerStep_frame (run : Run) (name : string) :
  (forall k, k <> name ->
     CumulativeTestState.Headers (state (headerStep backend original config totalTests run name)) !! k
     = CumulativeTestState.Headers (state run) !! k)
  /\ (forall k, k <> name ->
        TestResults.Headers (results (headerStep backend original config totalTests run name)) !! k
        = TestResults.Headers (results run) !! k)
  /\ CumulativeTestState.Cookies (state (headerStep backend original config totalTests run name))
     = CumulativeTestState.Cookies (state run)
  /\ TestResults.Cookies (results (headerStep backend original config totalTests run name))
     = TestResults.Cookies (results run)
  /\ CookieResults (headerStep backend original config totalTests run name) = CookieResults run.
Proof.
  unfold Minimizer.headerStep. cbn [emit state results CookieResults world].
  destruct (CumulativeTestState.Headers (state run) !! name) as [v|] eqn:Hv.
  2:{ cbn. repeat split. }
  destruct (bool_decide (GoStrings.ToLower name = "user-agent")
            && ValidationConfig.PreserveUserAgent config) eqn:Hkeep.
  { cbn. repeat split. intros k Hk. apply lookup_insert_ne. congruence. }
  destruct (executeRequest backend _ config (world run)) as [testResult w'].
  cbn. repeat split.
  - intros k Hk.
    destruct (negb (SingleRequestResult.Success testResult));
      destruct (bool_decide (GoStrings.ToLower name = "user-agent"));
      rewrite ?lookup_insert_ne, ?lookup_delete_ne by congruence; reflexivity.
  - intros k Hk. apply lookup_insert_ne. congruence.
Qed.

(** A pass over a header that the state still has: the header gets its
    result, with the value it had; unless it is a preserved [User-Agent],
    one request goes out, which is the state without the header (or with
    an empty [User-Agent]), and the header stays in the state exactly when
    the probe fails. *)
Lemma headerStep_present (run : Run) (name v : string) :
  CumulativeTestState.Headers (state run) !! name = Some v ->
  exists (r : FieldTestResult.t) (t : TestResult.t),
    TestResults.Headers (results (headerStep backend original config totalTests run name)) !! name
    = Some r
    /\ FieldTestResult.Value r = v
    /\ CumulativeTestState.Headers
         (state (headerStep backend original config totalTests run name)) !! name
       = (if FieldTestResult.Required r then Some v
          else if bool_decide (GoStrings.ToLower name = "user-agent")
               then Some EmptyString else None)
    /\ HeaderResults (headerStep backend original config totalTests run name)
       = HeaderResults run ++ [t]
    /\ TestResult.FieldName t = name
    /\ TestResult.IsRequired t = FieldTestResult.Required r
    /\ currentStep (headerStep backend original config totalTests run name)
       = currentStep run + 1
    /\ (if bool_decide (GoStrings.ToLower name = "user-agent")
           && ValidationConfig.PreserveUserAgent config
        then FieldTestResult.Required r = true
             /\ probed (headerStep backend original config totalTests run name)
                = probed run
             /\ world (headerStep backend original config totalTests run name)
                = world run
        else exists request,
            probed (headerStep backend original config totalTests run name)
            = probed run ++ [request]
            /\ ParsedRequest.Headers request
               = (if bool_decide (GoStrings.ToLower name = "user-agent")
                  then <[name := EmptyString]>
                         (CumulativeTestState.Headers (state run))
                  else delete name (CumulativeTestState.Headers (state run)))
            /\ ParsedRequest.Cookies request
               = CumulativeTestState.Cookies (state run)
            /\ FieldTestResult.Required r
               = negb (SingleRequestResult.Success
                         (executeRequest backend request config (world run)).1)
            /\ world (headerStep backend original config totalTests run name)
               = (executeRequest backend request config (world run)).2).
Proof.
  intros Hv. unfold Minimizer.headerStep.
  cbn [emit state results HeaderResults currentStep probed world].
  rewrite Hv.
  destruct (bool_decide (GoStrings.ToLower name = "user-agent")
            && ValidationConfig.PreserveUserAgent config) eqn:Hkeep.
  { eexists _, _. cbn. rewrite lookup_insert_eq.
    split; [reflexivity|]. cbn. split; [reflexivity|]. split; [exact Hv|].
    repeat split. }
  rewrite buildRequestFromState_maps.
  cbn [CumulativeTestState.Headers CumulativeTestState.Cookies].
  destruct (executeRequest backend _ config (world run)) as [testResult w'] eqn:Hexec.
  eexists _, _. cbn. rewrite lookup_insert_eq.
  split; [reflexivity|]. cbn. split; [reflexivity|]. split.
  { destruct (negb (SingleRequestResult.Success testResult)).
    - apply lookup_insert_eq.
    - destruct (bool_decide (GoStrings.ToLower name = "user-agent"));
        [apply lookup_insert_eq|apply lookup_delete_eq]. }
  split; [reflexivity|]. split; [reflexivity|]. split; [reflexivity|].
  split; [reflexivity|].
  eexists. split; [reflexivity|]. cbn.
  split; [reflexivity|]. split; [reflexivity|].
  rewrite Hexec. split; reflexivity.
Qed.

(** The loop over the headers, for names without repetition that the
    state has at the start. *)
Lemma headers_loop (names : list string) :
  NoDup names ->
  forall run : Run,
    (forall k, k ∈ names ->
       is_Some (CumulativeTestState.Headers (state run) !! k)) ->
    (forall k, k ∉ names ->
       CumulativeTestState.Headers
         (state (fold_left (headerStep backend original config totalTests) names run)) !! k
       = CumulativeTestState.Headers (state run) !! k)
    /\ (forall k, k ∉ names ->
          TestResults.Headers
            (results (fold_left (headerStep backend original config totalTests) names run)) !! k
          = TestResults.Headers (results run) !! k)
    /\ (forall k v, k ∈ names ->
          CumulativeTestState.Headers (state run) !! k = Some v ->
          exists r,
            TestResults.Headers
              (results (fold_left (headerStep backend original config totalTests) names run)) !! k
            = Some r
            /\ FieldTestResult.Value r = v
            /\ CumulativeTestState.Headers
                 (state (fold_left (headerStep backend original config totalTests) names run)) !! k
               = (if FieldTestResult.Required r then Some v
                  else if bool_decide (GoStrings.ToLower k = "user-agent")
                       then Some EmptyString else None)
            /\ (bool_decide (GoStrings.ToLower k = "user-agent")
                && ValidationConfig.PreserveUserAgent config = true ->
                FieldTestResult.Required r = true))
    /\ TestResult.FieldName
         <$> HeaderResults (fold_left (headerStep backend original config totalTests) names run)
       = (TestResult.FieldName <$> HeaderResults run) ++ names
    /\ currentStep (fold_left (headerStep backend original config totalTests) names run)
       = currentStep run + Z.of_nat (length names)
    /\ length (probed (fold_left (headerStep backend original config totalTests) names run))
       = (length (probed run)
          + length (filter (fun k =>
                              bool_decide (GoStrings.ToLower k = "user-agent")
                              && ValidationConfig.PreserveUserAgent config = false)
                      names))%nat
    /\ CumulativeTestState.Cookies
         (state (fold_left (headerStep backend original config totalTests) names run))
       = CumulativeTestState.Cookies (state run)
    /\ TestResults.Cookies
         (results (fold_left (headerStep backend original config totalTests) names run))
       = TestResults.Cookies (results run)
    /\ CookieResults (fold_left (headerStep backend original config totalTests) names run)
       = CookieResults run.
Proof.
  induction names as [|n names IH]; intros Hnd run Hhas.
  { cbn. rewrite app_nil_r. repeat split; try lia. intros k v Hk.
    apply elem_of_nil in Hk. contradiction. }
  apply NoDup_cons in Hnd as [Hn Hnd]. cbn [fold_left].
  destruct (Hhas n) as [vn Hvn]; [apply list_elem_of_here|].
  destruct (headerStep_frame run n) as (Fst & Fres & Fck & Frck & Fcr).
  destruct (headerStep_present run n vn Hvn)
    as (r & t & Hr & Hval & Hst & Hleg & Hname & _ & Hstep & Hprobe).
  set (run1 := headerStep backend original config totalTests run n) in *.
  destruct (IH Hnd run1) as (A1 & A2 & B & C & D & E & F1 & F2 & F3).
  { intros k Hk. rewrite Fst; [apply Hhas, list_elem_of_further, Hk|].
    intros ->. contradiction. }
  split; [|split; [|split; [|split; [|split; [|split; [|split; [|split]]]]]]].
  - intros k Hk. apply not_elem_of_cons in Hk as [Hkn Hk].
    rewrite A1 by exact Hk. apply Fst, Hkn.
  - intros k Hk. apply not_elem_of_cons in Hk as [Hkn Hk].
    rewrite A2 by exact Hk. apply Fres, Hkn.
  - intros k v Hk Hkv. apply elem_of_cons in Hk as [->|Hk].
    + rewrite Hvn in Hkv. injection Hkv as <-.
      exists r. rewrite A1, A2 by exact Hn.
      split; [exact Hr|]. split; [exact Hval|]. split; [exact Hst|].
      intros Hkeep. rewrite Hkeep in Hprobe. apply Hprobe.
    + apply (B k v Hk). rewrite Fst; [exact Hkv|]. intros ->. contradiction.
  - rewrite C, Hleg, fmap_app. cbn. rewrite Hname, <- app_assoc. reflexivity.
  - rewrite D, Hstep. cbn [length]. lia.
  - rewrite E. rewrite filter_cons.
    destruct (bool_decide (GoStrings.ToLower n = "user-agent")
              && ValidationConfig.PreserveUserAgent config) eqn:Hkeep.
    + destruct Hprobe as (_ & -> & _).
      rewrite decide_False by discriminate. reflexivity.
    + destruct Hprobe as (request & -> & _).
      rewrite decide_True by reflexivity. rewrite length_app. cbn. lia.
  - rewrite F1. exact Fck.
  - rewrite F2. exact Frck.
  - rewrite F3. exact Fcr.
Qed.

(** A pass over a cookie touches this cookie only. *)
Lemma cookieStep_frame (run : Run) (name : string) :
  (forall k, k <> name ->
     CumulativeTestState.Cookies (state (cookieStep backend original config totalTests run name)) !! k
     = CumulativeTestState.Cookies (state run) !! k)
  /\ (forall k, k <> name ->
        TestResults.Cookies (results (cookieStep backend original config totalTests run name)) !! k
        = TestResults.Cookies (results run) !! k)
  /\ CumulativeTestState.Headers (state (cookieStep backend original config totalTests run name))
     = CumulativeTestState.Headers (state run)
  /\ TestResults.Headers (results (cookieStep backend original config totalTests run name))
     = TestResults.Headers (results run)
  /\ HeaderResults (cookieStep backend original config totalTests run name) = HeaderResults run.
Proof.
  unfold Minimizer.cookieStep. cbn [emit state results HeaderResults world].
  destruct (CumulativeTestState.Cookies (state run) !! name) as [v|] eqn:Hv.
  2:{ cbn. repeat split. }
  destruct (executeRequest backend _ config (world run)) as [testResult w'].
  cbn. repeat split.
  - intros k Hk.
    destruct (negb (SingleRequestResult.Success testResult));
      rewrite ?lookup_insert_ne, ?lookup_delete_ne by congruence; reflexivity.
  - intros k Hk. apply lookup_insert_ne. congruence.
Qed.

Lemma cookieStep_present (run : Run) (name v : string) :
  CumulativeTestState.Cookies (state run) !! name = Some v ->
  exists (r : FieldTestResult.t) (t : TestResult.t) (request : ParsedRequest.t),
    TestResults.Cookies (results (cookieStep backend original config totalTests run name)) !! name
    = Some r
    /\ FieldTestResult.Value r = v
    /\ CumulativeTestState.Cookies
         (state (cookieStep backend original config totalTests run name)) !! name
       = (if FieldTestResult.Required r then Some v else None)
    /\ CookieResults (cookieStep backend original config totalTests run name)
       = CookieResults run ++ [t]
    /\ TestResult.FieldName t = name
    /\ TestResult.IsRequired t = FieldTestResult.Required r
    /\ currentStep (cookieStep backend original config totalTests run name)
       = currentStep run + 1
    /\ probed (cookieStep backend original config totalTests run name)
       = probed run ++ [request]
    /\ ParsedRequest.Headers request = CumulativeTestState.Headers (state run)
    /\ ParsedRequest.Cookies request
       = delete name (CumulativeTestState.Cookies (state run))
    /\ FieldTestResult.Required r
       = negb (SingleRequestResult.Success
                 (executeRequest backend request config (world run)).1)
    /\ world (cookieStep backend original config totalTests run name)
       = (executeRequest backend request config (world run)).2.
Proof.
  intros Hv. unfold Minimizer.cookieStep.
  cbn [emit state results CookieResults currentStep probed world].
  rewrite Hv. rewrite buildRequestFromState_maps.
  cbn [CumulativeTestState.Headers CumulativeTestState.Cookies].
  destruct (executeRequest backend _ config (world run)) as [testResult w'] eqn:Hexec.
  eexists _, _, _. cbn. rewrite lookup_insert_eq.
  split; [reflexivity|]. cbn. split; [reflexivity|]. split.
  { destruct (negb (SingleRequestResult.Success testResult));
      [apply lookup_insert_eq|apply lookup_delete_eq]. }
  split; [reflexivity|]. split; [reflexivity|]. split; [reflexivity|].
  split; [reflexivity|]. split; [reflexivity|]. cbn.
  split; [reflexivity|]. split; [reflexivity|].
  rewrite Hexec. split; reflexivity.
Qed.

(** The loop over the cookies. *)
Lemma cookies_loop (names : list string) :
  NoDup names ->
  forall run : Run,
    (forall k, k ∈ names ->
       is_Some (CumulativeTestState.Cookies (state run) !! k)) ->
    (forall k, k ∉ names ->
       CumulativeTestState.Cookies
         (state (fold_left (cookieStep backend original config totalTests) names run)) !! k
       = CumulativeTestState.Cookies (state run) !! k)
    /\ (forall k, k ∉ names ->
          TestResults.Cookies
            (results (fold_left (cookieStep backend original config totalTests) names run)) !! k
          = TestResults.Cookies (results run) !! k)
    /\ (forall k v, k ∈ names ->
          CumulativeTestState.Cookies (state run) !! k = Some v ->
          exists r,
            TestResults.Cookies
              (results (fold_left (cookieStep backend original config totalTests) names run)) !! k
            = Some r
            /\ FieldTestResult.Value r = v
            /\ CumulativeTestState.Cookies
                 (state (fold_left (cookieStep backend original config totalTests) names run)) !! k
               = (if FieldTestResult.Required r then Some v else None))
    /\ TestResult.FieldName
         <$> CookieResults (fold_left (cookieStep backend original config totalTests) names run)
       = (TestResult.FieldName <$> CookieResults run) ++ names
    /\ currentStep (fold_left (cookieStep backend original config totalTests) names run)
       = currentStep run + Z.of_nat (length names)
    /\ length (probed (fold_left (cookieStep backend original config totalTests) names run))
       = (length (probed run) + length names)%nat
    /\ CumulativeTestState.Headers
         (state (fold_left (cookieStep backend original config totalTests) names run))
       = CumulativeTestState.Headers (state run)
    /\ TestResults.Headers
         (results (fold_left (cookieStep backend original config totalTests) names run))
       = TestResults.Headers (results run)
    /\ HeaderResults (fold_left (cookieStep backend original config totalTests) names run)
       = HeaderResults run.
Proof.
  induction names as [|n names IH]; intros Hnd run Hhas.
  { cbn. rewrite app_nil_r. repeat split; try lia. intros k v Hk.
    apply elem_of_nil in Hk. contradiction. }
  apply NoDup_cons in Hnd as [Hn Hnd]. cbn [fold_left].
  destruct (Hhas n) as [vn Hvn]; [apply list_elem_of_here|].
  destruct (cookieStep_frame run n) as (Fst & Fres & Fh & Frh & Fhr).
  destruct (cookieStep_present run n vn Hvn)
    as (r & t & request & Hr & Hval & Hst & Hleg & Hname & _ & Hstep & Hprobe & _).
  set (run1 := cookieStep backend original config totalTests run n) in *.
  destruct (IH Hnd run1) as (A1 & A2 & B & C & D & E & F1 & F2 & F3).
  { intros k Hk. rewrite Fst; [apply Hhas, list_elem_of_further, Hk|].
    intros ->. contradiction. }
  split; [|split; [|split; [|split; [|split; [|split; [|split; [|split]]]]]]].
  - intros k Hk. apply not_elem_of_cons in Hk as [Hkn Hk].
    rewrite A1 by exact Hk. apply Fst, Hkn.
  - intros k Hk. apply not_elem_of_cons in Hk as [Hkn Hk].
    rewrite A2 by exact Hk. apply Fres, Hkn.
  - intros k v Hk Hkv. apply elem_of_cons in Hk as [->|Hk].
    + rewrite Hvn in Hkv. injection Hkv as <-.
      exists r. rewrite A1, A2 by exact Hn.
      split; [exact Hr|]. split; [exact Hval|exact Hst].
    + apply (B k v Hk). rewrite Fst; [exact Hkv|]. intros ->. contradiction.
  - rewrite C, Hleg, fmap_app. cbn. rewrite Hname, <- app_assoc. reflexivity.
  - rewrite D, Hstep. cbn [length]. lia.
  - rewrite E, Hprobe, length_app. cbn. lia.
  - rewrite F1. exact Fh.
  - rewrite F2. exact Frh.
  - rewrite F3. exact Fhr.
Qed.

(** The two loops together, from the copy of the original request. *)
Lemma removal_run (hs cs : list (string * string)) (step : Z)
    (emitted : list TestProgress.t) (w : World) :
  range_of (ParsedRequest.Headers original) hs ->
  range_of (ParsedRequest.Cookies original) cs ->
  (forall k,
     match ParsedRequest.Headers original !! k with
     | Some v =>
         exists r,
           TestResults.Headers
             (results (testFieldsWithCumulativeRemoval backend original config
                         totalTests hs.*1 cs.*1 step emitted w)) !! k = Some r
           /\ FieldTestResult.Value r = v
           /\ CumulativeTestState.Headers
                (state (testFieldsWithCumulativeRemoval backend original config
                          totalTests hs.*1 cs.*1 step emitted w)) !! k
              = (if FieldTestResult.Required r then Some v
                 else if bool_decide (GoStrings.ToLower k = "user-agent")
                      then Some EmptyString else None)
           /\ (bool_decide (GoStrings.ToLower k = "user-agent")
               && ValidationConfig.PreserveUserAgent config = true ->
               FieldTestResult.Required r = true)
     | None =>
         TestResults.Headers
           (results (testFieldsWithCumulativeRemoval backend original config
                       totalTests hs.*1 cs.*1 step emitted w)) !! k = None
         /\ CumulativeTestState.Headers
              (state (testFieldsWithCumulativeRemoval backend original config
                        totalTests hs.*1 cs.*1 step emitted w)) !! k = None
     end)
  /\ (forall k,
        match ParsedRequest.Cookies original !! k with
        | Some v =>
            exists r,
              TestResults.Cookies
                (results (testFieldsWithCumulativeRemoval backend original config
                            totalTests hs.*1 cs.*1 step emitted w)) !! k = Some r
              /\ FieldTestResult.Value r = v
              /\ CumulativeTestState.Cookies
                   (state (testFieldsWithCumulativeRemoval backend original config
                             totalTests hs.*1 cs.*1 step emitted w)) !! k
                 = (if FieldTestResult.Required r then Some v else None)
        | None =>
            TestResults.Cookies
              (results (testFieldsWithCumulativeRemoval backend original config
                          totalTests hs.*1 cs.*1 step emitted w)) !! k = None
            /\ CumulativeTestState.Cookies
                 (state (testFieldsWithCumulativeRemoval backend original config
                           totalTests hs.*1 cs.*1 step emitted w)) !! k = None
        end)
  /\ TestResult.FieldName
       <$> HeaderResults (testFieldsWithCumulativeRemoval backend original config
                            totalTests hs.*1 cs.*1 step emitted w) = hs.*1
  /\ TestResult.FieldName
       <$> CookieResults (testFieldsWithCumulativeRemoval backend original config
                            totalTests hs.*1 cs.*1 step emitted w) = cs.*1
  /\ currentStep (testFieldsWithCumulativeRemoval backend original config
                    totalTests hs.*1 cs.*1 step emitted w)
     = step + Z.of_nat (length hs) + Z.of_nat (length cs)
  /\ length (probed (testFieldsWithCumulativeRemoval backend original config
                       totalTests hs.*1 cs.*1 step emitted w))
     = (length (filter (fun k =>
                          bool_decide (GoStrings.ToLower k = "user-agent")
                          && ValidationConfig.PreserveUserAgent config = false)
                  hs.*1)
        + length cs)%nat.
Proof.
  intros Hh Hc. unfold testFieldsWithCumulativeRemoval.
  rewrite !copyInto_map_to_list.
  set (start := mkRun _ _ _ _ _ _ _ _ _).
  destruct (headers_loop hs.*1 (TesterFacts.range_of_NoDup _ _ Hh) start)
    as (HA1 & HA2 & HB & HC & HD & HE & HF1 & HF2 & HF3).
  { intros k Hk. apply (range_of_keys _ _ _ Hh), Hk. }
  set (mid := fold_left (headerStep backend original config totalTests) hs.*1 start) in *.
  destruct (cookies_loop cs.*1 (TesterFacts.range_of_NoDup _ _ Hc) mid)
    as (CA1 & CA2 & CB & CC & CD & CE & CF1 & CF2 & CF3).
  { intros k Hk. rewrite HF1. apply (range_of_keys _ _ _ Hc), Hk. }
  split; [|split; [|split; [|split; [|split]]]].
  - intros k. rewrite CF1, CF2.
    destruct (ParsedRequest.Headers original !! k) as [v|] eqn:Hv.
    + apply HB; [|exact Hv]. apply (range_of_keys _ _ _ Hh). eauto.
    + assert (k ∉ hs.*1) as Hk.
      { intros Hk. apply (range_of_keys _ _ _ Hh) in Hk as [v Hk]. congruence. }
      rewrite HA1, HA2 by exact Hk. split; [apply lookup_empty|exact Hv].
  - intros k.
    destruct (ParsedRequest.Cookies original !! k) as [v|] eqn:Hv.
    + apply CB; [|rewrite HF1; exact Hv]. apply (range_of_keys _ _ _ Hc). eauto.
    + assert (k ∉ cs.*1) as Hk.
      { intros Hk. apply (range_of_keys _ _ _ Hc) in Hk as [v Hk]. congruence. }
      rewrite CA1, CA2 by exact Hk. rewrite HF1, HF2.
      split; [apply lookup_empty|exact Hv].
  - rewrite CF3, HC. reflexivity.
  - rewrite CC, HF3. reflexivity.
  - rewrite CD, HD. rewrite !length_fmap. cbn. lia.
  - rewrite CE, HE. rewrite !length_fmap. cbn. lia.
Qed.

(** What a pass over a header does to the state and to the probes: nothing,
    or one probe of the state without the header (with an empty value for
    a [User-Agent]), after which the state is that probe's when it passes
    and the state before when it fails. *)
Lemma headerStep_cases (run : Run) (name : string) :
  (state (headerStep backend original config totalTests run name) = state run
   /\ probed (headerStep backend original config totalTests run name) = probed run)
  \/ (exists v removed,
        CumulativeTestState.Headers (state run) !! name = Some v
        /\ bool_decide (GoStrings.ToLower name = "user-agent")
           && ValidationConfig.PreserveUserAgent config = false
        /\ removed
           = (if bool_decide (GoStrings.ToLower name = "user-agent")
              then <[name := EmptyString]> (CumulativeTestState.Headers (state run))
              else delete name (CumulativeTestState.Headers (state run)))
        /\ probed (headerStep backend original config totalTests run name)
           = probed run
             ++ [buildRequestFromState
                   (CumulativeTestState.mk removed
                      (CumulativeTestState.Cookies (state run))) original]
        /\ state (headerStep backend original config totalTests run name)
           = (if SingleRequestResult.Success
                   (executeRequest backend
                      (buildRequestFromState
                         (CumulativeTestState.mk removed
                            (CumulativeTestState.Cookies (state run))) original)
                      config (world run)).1
              then CumulativeTestState.mk removed
                     (CumulativeTestState.Cookies (state run))
              else state run)).
Proof.
  unfold Minimizer.headerStep. cbn [emit state probed world].
  destruct (CumulativeTestState.Headers (state run) !! name) as [v|] eqn:Hv;
    [|left; split; reflexivity].
  destruct (bool_decide (GoStrings.ToLower name = "user-agent")
            && ValidationConfig.PreserveUserAgent config) eqn:Hkeep;
    [left; split; reflexivity|].
  right. eexists v, _. split; [reflexivity|]. split; [reflexivity|].
  split; [reflexivity|].
  destruct (executeRequest backend _ config (world run)) as [testResult w'].
  cbn. split; [reflexivity|].
  destruct (SingleRequestResult.Success testResult); cbn; [reflexivity|].
  destruct (state run) as [headers cookies]. cbn in *. f_equal.
  destruct (bool_decide (GoStrings.ToLower name = "user-agent")).
  - rewrite insert_insert_eq. apply insert_id, Hv.
  - rewrite insert_delete_eq. apply insert_id, Hv.
Qed.

Lemma cookieStep_cases (run : Run) (name : string) :
  (state (cookieStep backend original config totalTests run name) = state run
   /\ probed (cookieStep backend original config totalTests run name) = probed run)
  \/ (exists v,
        CumulativeTestState.Cookies (state run) !! name = Some v
        /\ probed (cookieStep backend original config totalTests run name)
           = probed run
             ++ [buildRequestFromState
                   (CumulativeTestState.mk
                      (CumulativeTestState.Headers (state run))
                      (delete name (CumulativeTestState.Cookies (state run))))
                   original]
        /\ state (cookieStep backend original config totalTests run name)
           = (if SingleRequestResult.Success
                   (executeRequest backend
                      (buildRequestFromState
                         (CumulativeTestState.mk
                            (CumulativeTestState.Headers (state run))
                            (delete name (CumulativeTestState.Cookies (state run))))
                         original)
                      config (world run)).1
              then CumulativeTestState.mk
                     (CumulativeTestState.Headers (state run))
                     (delete name (CumulativeTestState.Cookies (state run)))
              else state run)).
Proof.
  unfold Minimizer.cookieStep. cbn [emit state probed world].
  destruct (CumulativeTestState.Cookies (state run) !! name) as [v|] eqn:Hv;
    [|left; split; reflexivity].
  right. exists v. split; [reflexivity|].
  destruct (executeRequest backend _ config (world run)) as [testResult w'].
  cbn. split; [reflexivity|].
  destruct (SingleRequestResult.Success testResult); cbn; [reflexivity|].
  destruct (state run) as [headers cookies]. cbn in *. f_equal.
  rewrite insert_delete_eq. apply insert_id, Hv.
Qed.

(** A property of the state and of the probes that every pass keeps holds
    at the end of the removal. *)
Lemma removal_invariant (P : CumulativeTestState.t -> list ParsedRequest.t -> Prop)
    (headerOrder cookieOrder : list string) (step : Z)
    (emitted : list TestProgress.t) (w : World) :
  P (CumulativeTestState.mk (ParsedRequest.Headers original)
       (ParsedRequest.Cookies original)) [] ->
  (forall st ps name removed,
     P st ps ->
     removed
     = (if bool_decide (GoStrings.ToLower name = "user-agent")
        then <[name := EmptyString]> (CumulativeTestState.Headers st)
        else delete name (CumulativeTestState.Headers st)) ->
     is_Some (CumulativeTestState.Headers st !! name) ->
     bool_decide (GoStrings.ToLower name = "user-agent")
     && ValidationConfig.PreserveUserAgent config = false ->
     forall w0,
       P (if SingleRequestResult.Success
               (executeRequest backend
                  (buildRequestFromState
                     (CumulativeTestState.mk removed (CumulativeTestState.Cookies st))
                     original) config w0).1
          then CumulativeTestState.mk removed (CumulativeTestState.Cookies st)
          else st)
         (ps ++ [buildRequestFromState
                   (CumulativeTestState.mk removed (CumulativeTestState.Cookies st))
                   original])) ->
  (forall st ps name,
     P st ps ->
     is_Some (CumulativeTestState.Cookies st !! name) ->
     forall w0,
       P (if SingleRequestResult.Success
               (executeRequest backend
                  (buildRequestFromState
                     (CumulativeTestState.mk (CumulativeTestState.Headers st)
                        (delete name (CumulativeTestState.Cookies st)))
                     original) config w0).1
          then CumulativeTestState.mk (CumulativeTestState.Headers st)
                 (delete name (CumulativeTestState.Cookies st))
          else st)
         (ps ++ [buildRequestFromState
                   (CumulativeTestState.mk (CumulativeTestState.Headers st)
                      (delete name (CumulativeTestState.Cookies st)))
                   original])) ->
  P (state (testFieldsWithCumulativeRemoval backend original config totalTests
              headerOrder cookieOrder step emitted w))
    (probed (testFieldsWithCumulativeRemoval backend original config totalTests
               headerOrder cookieOrder step emitted w)).
Proof.
  intros Hstart Hheader Hcookie. unfold testFieldsWithCumulativeRemoval.
  rewrite !copyInto_map_to_list.
  set (start := mkRun _ _ _ _ _ _ _ _ _).
  assert (P (state start) (probed start)) as H0 by exact Hstart.
  clearbody start.
  assert (P (state (fold_left (headerStep backend original config totalTests)
                      headerOrder start))
            (probed (fold_left (headerStep backend original config totalTests)
                       headerOrder start))) as H1.
  { revert start H0. induction headerOrder as [|n names IH]; intros run H0;
      [exact H0|].
    cbn [fold_left]. apply IH.
    destruct (headerStep_cases run n) as [[-> ->]|(v & removed & Hv & Hkeep & Hrem & -> & ->)];
      [exact H0|].
    apply (Hheader _ _ n removed H0 Hrem); [eauto|exact Hkeep]. }
  revert H1. generalize (fold_left (headerStep backend original config totalTests)
                           headerOrder start).
  induction cookieOrder as [|n names IH]; intros run H1; [exact H1|].
  cbn [fold_left]. apply IH.
  destruct (cookieStep_cases run n) as [[-> ->]|(v & Hv & -> & ->)]; [exact H1|].
  apply (Hcookie _ _ n H1). eauto.
Qed.

(** The progress events: their counters of completed steps never go
    down and never exceed the step counter, and they all carry the same
    total. *)
Lemma emit_events (message : Message) (fieldResult : option TestResult.t)
    (run : @Run World) (previous : list TestProgress.t) (step : Z) :
  StronglySorted Z.le (TestProgress.CompletedSteps <$> previous) ->
  Forall (fun e => TestProgress.CompletedSteps e <= step
                   /\ TestProgress.TotalSteps e = totalTests) previous ->
  events run = previous -> step <= currentStep run ->
  StronglySorted Z.le
    (TestProgress.CompletedSteps <$> events (emit totalTests message fieldResult run))
  /\ Forall (fun e => TestProgress.CompletedSteps e
                      <= currentStep (emit totalTests message fieldResult run)
                      /\ TestProgress.TotalSteps e = totalTests)
       (events (emit totalTests message fieldResult run)).
Proof.
  intros Hs Hb Hev Hstep. cbn. rewrite Hev, fmap_app. cbn. split.
  - apply sorted_snoc; [exact Hs|]. apply Forall_fmap.
    eapply Forall_impl; [exact Hb|]. cbn. intros e [He _]. lia.
  - apply Forall_app. split.
    + eapply Forall_impl; [exact Hb|]. cbn. intros e [He Ht]. split; [lia|exact Ht].
    + constructor; [|constructor]. cbn. split; [lia|reflexivity].
Qed.

Lemma headerStep_events (run : Run) (name : string) :
  StronglySorted Z.le (TestProgress.CompletedSteps <$> events run) ->
  Forall (fun e => TestProgress.CompletedSteps e <= currentStep run
                   /\ TestProgress.TotalSteps e = totalTests) (events run) ->
  StronglySorted Z.le
    (TestProgress.CompletedSteps
       <$> events (headerStep backend original config totalTests run name))
  /\ Forall (fun e => TestProgress.CompletedSteps e
                      <= currentStep (headerStep backend original config totalTests run name)
                      /\ TestProgress.TotalSteps e = totalTests)
       (events (headerStep backend original config totalTests run name)).
Proof.
  intros Hs Hb.
  destruct (emit_events (TestingHeader name) None run (events run) (currentStep run)
              Hs Hb eq_refl (Z.le_refl _)) as [Hs1 Hb1].
  unfold Minimizer.headerStep.
  set (run1 := emit totalTests (TestingHeader name) None run) in *.
  destruct (CumulativeTestState.Headers (state run1) !! name) as [v|];
    [|split; assumption].
  destruct (bool_decide (GoStrings.ToLower name = "user-agent")
            && ValidationConfig.PreserveUserAgent config).
  - eapply emit_events; [exact Hs1|exact Hb1|reflexivity|cbn; lia].
  - destruct (executeRequest backend _ config (world run1)) as [testResult w'].
    eapply emit_events; [exact Hs1|exact Hb1|reflexivity|cbn; lia].
Qed.

Lemma cookieStep_events (run : Run) (name : string) :
  StronglySorted Z.le (TestProgress.CompletedSteps <$> events run) ->
  Forall (fun e => TestProgress.CompletedSteps e <= currentStep run
                   /\ TestProgress.TotalSteps e = totalTests) (events run) ->
  StronglySorted Z.le
    (TestProgress.CompletedSteps
       <$> events (cookieStep backend original config totalTests run name))
  /\ Forall (fun e => TestProgress.CompletedSteps e
                      <= currentStep (cookieStep backend original config totalTests run name)
                      /\ TestProgress.TotalSteps e = totalTests)
       (events (cookieStep backend original config totalTests run name)).
Proof.
  intros Hs Hb.
  destruct (emit_events (TestingCookie name) None run (events run) (currentStep run)
              Hs Hb eq_refl (Z.le_refl _)) as [Hs1 Hb1].
  unfold Minimizer.cookieStep.
  set (run1 := emit totalTests (TestingCookie name) None run) in *.
  destruct (CumulativeTestState.Cookies (state run1) !! name) as [v|];
    [|split; assumption].
  destruct (executeRequest backend _ config (world run1)) as [testResult w'].
  eapply emit_events; [exact Hs1|exact Hb1|reflexivity|cbn; lia].
Qed.

Lemma removal_events (headerOrder cookieOrder : list string) (step : Z)
    (emitted : list TestProgress.t) (w : World) :
  StronglySorted Z.le (TestProgress.CompletedSteps <$> emitted) ->
  Forall (fun e => TestProgress.CompletedSteps e <= step
                   /\ TestProgress.TotalSteps e = totalTests) emitted ->
  StronglySorted Z.le
    (TestProgress.CompletedSteps
       <$> events (testFieldsWithCumulativeRemoval backend original config
                     totalTests headerOrder cookieOrder step emitted w))
  /\ Forall (fun e => TestProgress.CompletedSteps e
                      <= currentStep (testFieldsWithCumulativeRemoval backend original
                                        config totalTests headerOrder cookieOrder
                                        step emitted w)
                      /\ TestProgress.TotalSteps e = totalTests)
       (events (testFieldsWithCumulativeRemoval backend original config
                  totalTests headerOrder cookieOrder step emitted w)).
Proof.
  intros Hs Hb. unfold testFieldsWithCumulativeRemoval.
  set (start := mkRun _ _ _ _ _ _ _ _ _).
  assert (StronglySorted Z.le (TestProgress.CompletedSteps <$> events start)
          /\ Forall (fun e => TestProgress.CompletedSteps e <= currentStep start
                              /\ TestProgress.TotalSteps e = totalTests)
               (events start)) as H0 by (split; assumption).
  clearbody start.
  assert (forall names run,
            StronglySorted Z.le (TestProgress.CompletedSteps <$> events run)
            /\ Forall (fun e => TestProgress.CompletedSteps e <= currentStep run
                                /\ TestProgress.TotalSteps e = totalTests)
                 (events run) ->
            StronglySorted Z.le
              (TestProgress.CompletedSteps
                 <$> events (fold_left (headerStep backend original config totalTests)
                               names run))
            /\ Forall (fun e => TestProgress.CompletedSteps e
                                <= currentStep
                                     (fold_left (headerStep backend original config
                                                   totalTests) names run)
                                /\ TestProgress.TotalSteps e = totalTests)
                 (events (fold_left (headerStep backend original config totalTests)
                            names run))) as Hheaders.
  { induction names as [|n names IH]; intros run H; [exact H|].
    cbn [fold_left]. apply IH. apply headerStep_events; apply H. }
  specialize (Hheaders headerOrder start H0).
  revert Hheaders.
  generalize (fold_left (headerStep backend original config totalTests)
                headerOrder start).
  induction cookieOrder as [|n names IH]; intros run H; [exact H|].
  cbn [fold_left]. apply IH. apply cookieStep_events; apply H.
Qed.

End ProbeFacts.

Section BatchFacts.

Context {World : Type}.
Variable backend : Backend World.
Variable req : ParsedRequest.t.
Variable config : ValidationConfig.t.

(** A batch without an error: the original request has passed, and the
    result is read off the run of the removal. *)
Lemma batch_success (headerOrder cookieOrder : list string) (w : World)
    (result : BatchTestResult.t) (emitted : list TestProgress.t)
    (probes : list ParsedRequest.t) (w' : World) :
  BatchTestFieldNecessity backend req config headerOrder cookieOrder w
  = (result, None, emitted, probes, w') ->
  exists response w1,
    TestRequestWithRetry backend req config w = (inl response, w1)
    /\ ValidateResponseWithConfig backend response config = (true, None)
    /\ result = resultOf req (removalOf backend req config headerOrder cookieOrder w1)
    /\ emitted
       = events (removalOf backend req config headerOrder cookieOrder w1)
         ++ [TestProgress.mk Finished (totalTestsOf req)
               (currentStep (removalOf backend req config headerOrder cookieOrder w1))
               None]
    /\ probes = probed (removalOf backend req config headerOrder cookieOrder w1)
    /\ w' = world (removalOf backend req config headerOrder cookieOrder w1).
Proof.
  unfold BatchTestFieldNecessity.
  destruct (TestRequestWithRetry backend req config w) as [[response|err] w1]
    eqn:Hretry; [|discriminate].
  destruct (ValidateResponseWithConfig backend response config) as [[|] [err|]]
    eqn:Hvalid; try discriminate.
  intros H. injection H as <- <- <- <-. exists response, w1.
  split; [reflexivity|]. split; [exact Hvalid|]. split; [reflexivity|].
  split; [reflexivity|]. split; reflexivity.
Qed.

Lemma range_of_length {V : Type} (m : gmap string V) (l : list (string * V)) :
  range_of m l -> length l = size m.
Proof.
  unfold range_of. intros Hl. rewrite (Permutation_length Hl).
  apply length_map_to_list.
Qed.

Lemma batch_stops_at_original_probes (headerOrder cookieOrder : list string)
    (w : World) (result : BatchTestResult.t) (err : BatchErr)
    (emitted : list TestProgress.t) (probes : list ParsedRequest.t) (w' : World) :
  BatchTestFieldNecessity backend req config headerOrder cookieOrder w
  = (result, Some err, emitted, probes, w') -> probes = [].
Proof.
  unfold BatchTestFieldNecessity.
  destruct (TestRequestWithRetry backend req config w) as [[response|message] w1].
  - destruct (ValidateResponseWithConfig backend response config) as [[|] [e|]];
      try discriminate; intros H; injection H as <- <- <- <- <-; reflexivity.
  - intros H; injection H as <- <- <- <- <-. reflexivity.
Qed.

(** X1.  A batch that returns an error has stopped at the original
    request: the request did not get a response, or validation gave an
    error or said no.  No field was probed, the result has no field
    results and no simplified request, and the one event is the one for
    the original request. *)
Theorem batch_stops_at_original (headerOrder cookieOrder : list string)
    (w : World) (result : BatchTestResult.t) (err : BatchErr)
    (emitted : list TestProgress.t) (probes : list ParsedRequest.t) (w' : World) :
  BatchTestFieldNecessity backend req config headerOrder cookieOrder w
  = (result, Some err, emitted, probes, w') ->
  probes = []
  /\ BatchTestResult.HeaderResults result = []
  /\ BatchTestResult.CookieResults result = []
  /\ BatchTestResult.SimplifiedRequest result = None
  /\ BatchTestResult.CumulativeResults result = None
  /\ BatchTestResult.OriginalPassed result = false
  /\ BatchTestResult.OriginalError result = Some err
  /\ emitted = [TestProgress.mk TestingOriginal (totalTestsOf req) 0 None]
  /\ w' = (TestRequestWithRetry backend req config w).2
  /\ match (TestRequestWithRetry backend req config w).1 with
     | inr message => err = OriginalRequestFailed message
     | inl response =>
         match ValidateResponseWithConfig backend response config with
         | (_, Some e) => err = OriginalValidationError e
         | (passed, None) => passed = false /\ err = OriginalNotPassed
         end
     end.
Proof.
  unfold BatchTestFieldNecessity.
  destruct (TestRequestWithRetry backend req config w) as [[response|message] w1].
  - destruct (ValidateResponseWithConfig backend response config) as [[|] [e|]]
      eqn:Hvalid; try discriminate; intros H; injection H as <- <- <- <- <-;
      cbn; rewrite Hvalid; repeat split.
  - intros H; injection H as <- <- <- <- <-. cbn. repeat split.
Qed.

(** X2.  In a batch without an error every header and every cookie of the
    original request has exactly one result: the legacy lists name the
    fields in the order of the run, and the cumulative results have
    exactly the keys of the original maps, each with the original value. *)
Theorem batch_covers_every_field (hs cs : list (string * string)) (w : World)
    (result : BatchTestResult.t) (emitted : list TestProgress.t)
    (probes : list ParsedRequest.t) (w' : World) :
  range_of (ParsedRequest.Headers req) hs ->
  range_of (ParsedRequest.Cookies req) cs ->
  BatchTestFieldNecessity backend req config hs.*1 cs.*1 w
  = (result, None, emitted, probes, w') ->
  TestResult.FieldName <$> BatchTestResult.HeaderResults result = hs.*1
  /\ TestResult.FieldName <$> BatchTestResult.CookieResults result = cs.*1
  /\ exists rs,
      BatchTestResult.CumulativeResults result = Some rs
      /\ (forall k,
            match ParsedRequest.Headers req !! k with
            | Some v => exists r, TestResults.Headers rs !! k = Some r
                                  /\ FieldTestResult.Value r = v
            | None => TestResults.Headers rs !! k = None
            end)
      /\ (forall k,
            match ParsedRequest.Cookies req !! k with
            | Some v => exists r, TestResults.Cookies rs !! k = Some r
                                  /\ FieldTestResult.Value r = v
            | None => TestResults.Cookies rs !! k = None
            end).
Proof.
  intros Hh Hc Hbatch.
  destruct (batch_success _ _ _ _ _ _ _ Hbatch)
    as (response & w1 & _ & _ & -> & _ & _ & _).
  destruct (removal_run backend req config (totalTestsOf req) hs cs 1
              [TestProgress.mk TestingOriginal (totalTestsOf req) 0 None] w1 Hh Hc)
    as (RH & RC & LH & LC & _ & _).
  fold (removalOf backend req config hs.*1 cs.*1 w1) in RH, RC, LH, LC.
  cbn. split; [exact LH|]. split; [exact LC|].
  eexists. split; [reflexivity|]. split.
  - intros k. specialize (RH k).
    destruct (ParsedRequest.Headers req !! k); [|apply RH].
    destruct RH as (r & Hr & Hv & _). exists r. split; assumption.
  - intros k. specialize (RC k).
    destruct (ParsedRequest.Cookies req !! k); [|apply RC].
    destruct RC as (r & Hr & Hv & _). exists r. split; assumption.
Qed.

(** X3.  In a batch without an error the requests handed to [executeRequest]
    are one for each header that is not a preserved [User-Agent] and one
    for each cookie; with the original request that is at most
    [totalTests], which is one more than the number of fields. *)
Theorem batch_probe_count (hs cs : list (string * string)) (w : World)
    (result : BatchTestResult.t) (emitted : list TestProgress.t)
    (probes : list ParsedRequest.t) (w' : World) :
  range_of (ParsedRequest.Headers req) hs ->
  range_of (ParsedRequest.Cookies req) cs ->
  BatchTestFieldNecessity backend req config hs.*1 cs.*1 w
  = (result, None, emitted, probes, w') ->
  length probes
  = (length (filter (fun k =>
                       bool_decide (GoStrings.ToLower k = "user-agent")
                       && ValidationConfig.PreserveUserAgent config = false)
               hs.*1)
     + length cs)%nat
  /\ BatchTestResult.TotalTests result
     = Z.of_nat (length hs) + Z.of_nat (length cs) + 1
  /\ Z.of_nat (length probes) + 1 <= BatchTestResult.TotalTests result.
Proof.
  intros Hh Hc Hbatch.
  destruct (batch_success _ _ _ _ _ _ _ Hbatch)
    as (response & w1 & _ & _ & -> & _ & -> & _).
  destruct (removal_run backend req config (totalTestsOf req) hs cs 1
              [TestProgress.mk TestingOriginal (totalTestsOf req) 0 None] w1 Hh Hc)
    as (_ & _ & _ & _ & _ & HP).
  fold (removalOf backend req config hs.*1 cs.*1 w1) in HP.
  cbn. unfold totalTestsOf.
  rewrite <- (range_of_length _ _ Hh), <- (range_of_length _ _ Hc).
  split; [exact HP|]. split; [reflexivity|]. rewrite HP.
  pose proof (length_filter
                (fun k => bool_decide (GoStrings.ToLower k = "user-agent")
                          && ValidationConfig.PreserveUserAgent config = false)
                hs.*1) as Hf.
  rewrite length_fmap in Hf. lia.
Qed.

(** X4.  In a batch without an error the simplified request has exactly the
    headers and the cookies of the original request whose result says
    required, with their original values. *)
Theorem batch_simplified_fields (hs cs : list (string * string)) (w : World)
    (result : BatchTestResult.t) (emitted : list TestProgress.t)
    (probes : list ParsedRequest.t) (w' : World) :
  range_of (ParsedRequest.Headers req) hs ->
  range_of (ParsedRequest.Cookies req) cs ->
  BatchTestFieldNecessity backend req config hs.*1 cs.*1 w
  = (result, None, emitted, probes, w') ->
  exists simplified rs,
    BatchTestResult.SimplifiedRequest result = Some simplified
    /\ BatchTestResult.CumulativeResults result = Some rs
    /\ (forall k v,
          ParsedRequest.Headers simplified !! k = Some v <->
          ParsedRequest.Headers req !! k = Some v
          /\ exists r, TestResults.Headers rs !! k = Some r
                       /\ FieldTestResult.Required r = true)
    /\ (forall k v,
          ParsedRequest.Cookies simplified !! k = Some v <->
          ParsedRequest.Cookies req !! k = Some v
          /\ exists r, TestResults.Cookies rs !! k = Some r
                       /\ FieldTestResult.Required r = true).
Proof.
  intros Hh Hc Hbatch.
  destruct (batch_success _ _ _ _ _ _ _ Hbatch)
    as (response & w1 & _ & _ & -> & _ & _ & _).
  eexists _, _. cbn. split; [reflexivity|]. split; [reflexivity|].
  unfold generateSimplifiedRequestFromCumulative.
  cbn [ParsedRequest.Headers ParsedRequest.Cookies].
  split; intros k v; rewrite keepRequired_results.
  - destruct (TestResults.Headers _ !! k) as [r|] eqn:Hr.
    + destruct (FieldTestResult.Required r) eqn:Hreq.
      * split; [intros Hv; split; [exact Hv|eauto]|intros [Hv _]; exact Hv].
      * split; [discriminate|]. intros (_ & r' & [= <-] & Hreq'). congruence.
    + split; [discriminate|]. intros (_ & r' & Hr' & _). discriminate Hr'.
  - destruct (TestResults.Cookies _ !! k) as [r|] eqn:Hr.
    + destruct (FieldTestResult.Required r) eqn:Hreq.
      * split; [intros Hv; split; [exact Hv|eauto]|intros [Hv _]; exact Hv].
      * split; [discriminate|]. intros (_ & r' & [= <-] & Hreq'). congruence.
    + split; [discriminate|]. intros (_ & r' & Hr' & _). discriminate Hr'.
Qed.

(** A request whose fields all turn out required comes back as it went
    in: when every result of a batch says required, the simplified
    request is the original request. *)
Theorem batch_all_required (hs cs : list (string * string)) (w : World)
    (result : BatchTestResult.t) (emitted : list TestProgress.t)
    (probes : list ParsedRequest.t) (w' : World) (rs : TestResults.t) :
  range_of (ParsedRequest.Headers req) hs ->
  range_of (ParsedRequest.Cookies req) cs ->
  BatchTestFieldNecessity backend req config hs.*1 cs.*1 w
  = (result, None, emitted, probes, w') ->
  BatchTestResult.CumulativeResults result = Some rs ->
  (forall k r, TestResults.Headers rs !! k = Some r ->
               FieldTestResult.Required r = true) ->
  (forall k r, TestResults.Cookies rs !! k = Some r ->
               FieldTestResult.Required r = true) ->
  BatchTestResult.SimplifiedRequest result = Some req.
Proof.
  intros Hh Hc Hbatch Hrs HreqH HreqC.
  destruct (batch_success _ _ _ _ _ _ _ Hbatch)
    as (response & w1 & _ & _ & -> & _ & _ & _).
  cbn in Hrs. injection Hrs as <-.
  destruct (removal_run backend req config (totalTestsOf req) hs cs 1
              [TestProgress.mk TestingOriginal (totalTestsOf req) 0 None] w1 Hh Hc)
    as (RH & RC & _).
  fold (removalOf backend req config hs.*1 cs.*1 w1) in RH, RC.
  cbn. f_equal. unfold generateSimplifiedRequestFromCumulative.
  rewrite copyInto_map_to_list.
  assert (keepRequired (ParsedRequest.Headers req)
            (map_to_list
               (TestResults.Headers
                  (results (removalOf backend req config hs.*1 cs.*1 w1)))) ∅
          = ParsedRequest.Headers req) as ->.
  { apply map_eq. intros k. rewrite keepRequired_results. specialize (RH k).
    destruct (ParsedRequest.Headers req !! k) as [v|].
    - destruct RH as (r & Hr & _). rewrite Hr, (HreqH k r Hr). reflexivity.
    - destruct RH as [-> _]. reflexivity. }
  assert (keepRequired (ParsedRequest.Cookies req)
            (map_to_list
               (TestResults.Cookies
                  (results (removalOf backend req config hs.*1 cs.*1 w1)))) ∅
          = ParsedRequest.Cookies req) as ->.
  { apply map_eq. intros k. rewrite keepRequired_results. specialize (RC k).
    destruct (ParsedRequest.Cookies req !! k) as [v|].
    - destruct RC as (r & Hr & _). rewrite Hr, (HreqC k r Hr). reflexivity.
    - destruct RC as [-> _]. reflexivity. }
  destruct req. reflexivity.
Qed.

(** X5.  With [preserveUserAgent] a [User-Agent] header is never probed
    away: every request handed to [executeRequest] carries it with its
    value, its result says required, and the simplified request has it. *)
Theorem batch_preserves_user_agent (hs cs : list (string * string)) (w : World)
    (result : BatchTestResult.t) (emitted : list TestProgress.t)
    (probes : list ParsedRequest.t) (w' : World) (k v : string) :
  range_of (ParsedRequest.Headers req) hs ->
  range_of (ParsedRequest.Cookies req) cs ->
  BatchTestFieldNecessity backend req config hs.*1 cs.*1 w
  = (result, None, emitted, probes, w') ->
  ValidationConfig.PreserveUserAgent config = true ->
  GoStrings.ToLower k = "user-agent" ->
  ParsedRequest.Headers req !! k = Some v ->
  Forall (fun p => ParsedRequest.Headers p !! k = Some v) probes
  /\ exists simplified rs r,
      BatchTestResult.SimplifiedRequest result = Some simplified
      /\ ParsedRequest.Headers simplified !! k = Some v
      /\ BatchTestResult.CumulativeResults result = Some rs
      /\ TestResults.Headers rs !! k = Some r
      /\ FieldTestResult.Required r = true.
Proof.
  intros Hh Hc Hbatch Hkeep Hua Hv.
  destruct (batch_success _ _ _ _ _ _ _ Hbatch)
    as (response & w1 & _ & _ & -> & _ & -> & _).
  split.
  - unfold removalOf.
    apply (removal_invariant backend req config (totalTestsOf req)
             (fun st ps =>
                CumulativeTestState.Headers st !! k = Some v
                /\ Forall (fun p => ParsedRequest.Headers p !! k = Some v) ps)).
    + split; [exact Hv|constructor].
    + intros st ps name removed [Hst Hps] Hrem _ Hnot w0.
      rewrite Hkeep, andb_true_r in Hnot.
      assert (name <> k) as Hne by (intros ->; rewrite bool_decide_eq_true_2 in Hnot; [discriminate|exact Hua]).
      rewrite Hnot in Hrem. subst removed.
      assert (delete name (CumulativeTestState.Headers st) !! k = Some v) as Hdel
        by (rewrite lookup_delete_ne by exact Hne; exact Hst).
      split.
      * destruct (SingleRequestResult.Success _); [exact Hdel|exact Hst].
      * apply Forall_app. split; [exact Hps|].
        constructor; [|constructor]. rewrite buildRequestFromState_maps. exact Hdel.
    + intros st ps name [Hst Hps] _ w0. split.
      * destruct (SingleRequestResult.Success _); [exact Hst|exact Hst].
      * apply Forall_app. split; [exact Hps|].
        constructor; [|constructor]. rewrite buildRequestFromState_maps. exact Hst.
  - destruct (removal_run backend req config (totalTestsOf req) hs cs 1
                [TestProgress.mk TestingOriginal (totalTestsOf req) 0 None] w1 Hh Hc)
      as (RH & _).
    fold (removalOf backend req config hs.*1 cs.*1 w1) in RH.
    specialize (RH k). rewrite Hv in RH. destruct RH as (r & Hr & _ & _ & Hreq).
    assert (FieldTestResult.Required r = true) as Hrequired.
    { apply Hreq. rewrite Hkeep. rewrite bool_decide_eq_true_2; [reflexivity|exact Hua]. }
    eexists _, _, r. cbn. split; [reflexivity|].
    unfold generateSimplifiedRequestFromCumulative. cbn [ParsedRequest.Headers].
    rewrite keepRequired_results, Hr, Hrequired.
    split; [exact Hv|]. split; [reflexivity|]. split; [exact Hr|reflexivity].
Qed.

(** X6.  Against a server whose verdict depends on the request alone, the
    simplified request passes: if the original request passes as a probe
    and the [User-Agent] is preserved (or the request has none), then the
    verdict on the simplified request of a batch is a pass. *)
Theorem batch_simplified_passes (passes : ParsedRequest.t -> bool)
    (hs cs : list (string * string)) (w : World)
    (result : BatchTestResult.t) (emitted : list TestProgress.t)
    (probes : list ParsedRequest.t) (w' : World) :
  range_of (ParsedRequest.Headers req) hs ->
  range_of (ParsedRequest.Cookies req) cs ->
  BatchTestFieldNecessity backend req config hs.*1 cs.*1 w
  = (result, None, emitted, probes, w') ->
  (forall request w0,
      SingleRequestResult.Success (executeRequest backend request config w0).1
      = passes request) ->
  passes req = true ->
  ValidationConfig.PreserveUserAgent config = true
  \/ (forall k, is_Some (ParsedRequest.Headers req !! k) ->
                GoStrings.ToLower k <> "user-agent") ->
  exists simplified,
    BatchTestResult.SimplifiedRequest result = Some simplified
    /\ passes simplified = true.
Proof.
  intros Hh Hc Hbatch Hstateless Horiginal Hua.
  destruct (batch_success _ _ _ _ _ _ _ Hbatch)
    as (response & w1 & _ & _ & -> & _ & _ & _).
  eexists. cbn. split; [reflexivity|].
  assert (passes (buildRequestFromState
                    (state (removalOf backend req config hs.*1 cs.*1 w1)) req)
          = true) as Hfinal.
  { unfold removalOf.
    apply (removal_invariant backend req config (totalTestsOf req)
             (fun st _ => passes (buildRequestFromState st req) = true)).
    - rewrite buildRequestFromState_maps. cbn. destruct req. exact Horiginal.
    - intros st ps name removed Hst _ _ _ w0. rewrite Hstateless.
      destruct (passes (buildRequestFromState
                          (CumulativeTestState.mk removed
                             (CumulativeTestState.Cookies st)) req)) eqn:Hp;
        [exact Hp|exact Hst].
    - intros st ps name Hst _ w0. rewrite Hstateless.
      destruct (passes (buildRequestFromState
                          (CumulativeTestState.mk (CumulativeTestState.Headers st)
                             (delete name (CumulativeTestState.Cookies st))) req))
        eqn:Hp; [exact Hp|exact Hst]. }
  rewrite buildRequestFromState_maps in Hfinal.
  destruct (removal_run backend req config (totalTestsOf req) hs cs 1
              [TestProgress.mk TestingOriginal (totalTestsOf req) 0 None] w1 Hh Hc)
    as (RH & RC & _).
  fold (removalOf backend req config hs.*1 cs.*1 w1) in RH, RC.
  unfold generateSimplifiedRequestFromCumulative.
  rewrite copyInto_map_to_list.
  assert (keepRequired (ParsedRequest.Headers req)
            (map_to_list
               (TestResults.Headers
                  (results (removalOf backend req config hs.*1 cs.*1 w1)))) ∅
          = CumulativeTestState.Headers
              (state (removalOf backend req config hs.*1 cs.*1 w1))) as ->.
  { apply map_eq. intros k. rewrite keepRequired_results. specialize (RH k).
    destruct (ParsedRequest.Headers req !! k) as [v|] eqn:Hv.
    - destruct RH as (r & -> & _ & -> & Hkept).
      destruct (FieldTestResult.Required r) eqn:Hreq; [reflexivity|].
      case_bool_decide as Hk; [|reflexivity]. exfalso.
      destruct Hua as [Hpreserve|Hnone].
      + rewrite Hpreserve in Hkept. specialize (Hkept eq_refl). discriminate Hkept.
      + apply (Hnone k); [eauto|exact Hk].
    - destruct RH as [-> ->]. reflexivity. }
  assert (keepRequired (ParsedRequest.Cookies req)
            (map_to_list
               (TestResults.Cookies
                  (results (removalOf backend req config hs.*1 cs.*1 w1)))) ∅
          = CumulativeTestState.Cookies
              (state (removalOf backend req config hs.*1 cs.*1 w1))) as ->.
  { apply map_eq. intros k. rewrite keepRequired_results. specialize (RC k).
    destruct (ParsedRequest.Cookies req !! k) as [v|] eqn:Hv.
    - destruct RC as (r & -> & _ & ->).
      destruct (FieldTestResult.Required r); reflexivity.
    - destruct RC as [-> ->]. reflexivity. }
  exact Hfinal.
Qed.

(** X7.  The progress events of a batch without an error: the counter of
    completed steps never goes down from one event to the next, every
    event carries the total of the result, and the last event says that
    all the steps are completed. *)
Theorem batch_progress (hs cs : list (string * string)) (w : World)
    (result : BatchTestResult.t) (emitted : list TestProgress.t)
    (probes : list ParsedRequest.t) (w' : World) :
  range_of (ParsedRequest.Headers req) hs ->
  range_of (ParsedRequest.Cookies req) cs ->
  BatchTestFieldNecessity backend req config hs.*1 cs.*1 w
  = (result, None, emitted, probes, w') ->
  StronglySorted Z.le (TestProgress.CompletedSteps <$> emitted)
  /\ Forall (fun e =>
               TestProgress.TotalSteps e = BatchTestResult.TotalTests result
               /\ TestProgress.CompletedSteps e <= BatchTestResult.TotalTests result)
       emitted
  /\ last emitted
     = Some (TestProgress.mk Finished (BatchTestResult.TotalTests result)
               (BatchTestResult.TotalTests result) None).
Proof.
  intros Hh Hc Hbatch.
  destruct (batch_success _ _ _ _ _ _ _ Hbatch)
    as (response & w1 & _ & _ & -> & -> & _ & _).
  destruct (removal_run backend req config (totalTestsOf req) hs cs 1
              [TestProgress.mk TestingOriginal (totalTestsOf req) 0 None] w1 Hh Hc)
    as (_ & _ & _ & _ & Hstep & _).
  destruct (removal_events backend req config (totalTestsOf req) hs.*1 cs.*1 1
              [TestProgress.mk TestingOriginal (totalTestsOf req) 0 None] w1)
    as (Hsorted & Hbound).
  { repeat constructor. }
  { constructor; [|constructor]. cbn. split; [lia|reflexivity]. }
  fold (removalOf backend req config hs.*1 cs.*1 w1) in Hstep, Hsorted, Hbound.
  assert (currentStep (removalOf backend req config hs.*1 cs.*1 w1)
          = totalTestsOf req) as Hlast.
  { rewrite Hstep. unfold totalTestsOf.
    rewrite (range_of_length _ _ Hh), (range_of_length _ _ Hc). lia. }
  cbn [BatchTestResult.TotalTests resultOf]. rewrite Hlast in *.
  split; [|split].
  - rewrite fmap_app. apply sorted_snoc; [exact Hsorted|].
    apply Forall_fmap. eapply Forall_impl; [exact Hbound|]. cbn. tauto.
  - apply Forall_app. split.
    + eapply Forall_impl; [exact Hbound|]. cbn. tauto.
    + constructor; [|constructor]. cbn. split; [reflexivity|lia].
  - apply last_snoc.
Qed.

(** X8.  Every request handed to [executeRequest] has the method, the URL,
    the body, the query parameters and the content type of the original
    request; its cookies are cookies of the original with their values,
    and so are its headers, but for a [User-Agent] made empty. *)
Theorem batch_probes_within_original (hs cs : list string) (w : World)
    (result : BatchTestResult.t) (err : option BatchErr)
    (emitted : list TestProgress.t) (probes : list ParsedRequest.t) (w' : World) :
  BatchTestFieldNecessity backend req config hs cs w
  = (result, err, emitted, probes, w') ->
  Forall (fun p =>
            ParsedRequest.Method p = ParsedRequest.Method req
            /\ ParsedRequest.URL p = ParsedRequest.URL req
            /\ ParsedRequest.Body p = ParsedRequest.Body req
            /\ ParsedRequest.QueryParams p = ParsedRequest.QueryParams req
            /\ ParsedRequest.ContentType p = ParsedRequest.ContentType req
            /\ (forall k v,
                  ParsedRequest.Headers p !! k = Some v ->
                  ParsedRequest.Headers req !! k = Some v
                  \/ (GoStrings.ToLower k = "user-agent" /\ v = ""))
            /\ (forall k v,
                  ParsedRequest.Cookies p !! k = Some v ->
                  ParsedRequest.Cookies req !! k = Some v))
    probes.
Proof.
  intros Hbatch.
  destruct err as [err|].
  { rewrite (batch_stops_at_original_probes _ _ _ _ _ _ _ _ Hbatch). constructor. }
  destruct (batch_success _ _ _ _ _ _ _ Hbatch)
    as (response & w1 & _ & _ & _ & _ & -> & _).
  unfold removalOf.
  apply (removal_invariant backend req config (totalTestsOf req)
           (fun st ps =>
              ((forall k v,
                   CumulativeTestState.Headers st !! k = Some v ->
                   ParsedRequest.Headers req !! k = Some v
                   \/ (GoStrings.ToLower k = "user-agent" /\ v = ""))
               /\ (forall k v,
                     CumulativeTestState.Cookies st !! k = Some v ->
                     ParsedRequest.Cookies req !! k = Some v))
              /\ Forall (fun p =>
                           ParsedRequest.Method p = ParsedRequest.Method req
                           /\ ParsedRequest.URL p = ParsedRequest.URL req
                           /\ ParsedRequest.Body p = ParsedRequest.Body req
                           /\ ParsedRequest.QueryParams p = ParsedRequest.QueryParams req
                           /\ ParsedRequest.ContentType p = ParsedRequest.ContentType req
                           /\ (forall k v,
                                 ParsedRequest.Headers p !! k = Some v ->
                                 ParsedRequest.Headers req !! k = Some v
                                 \/ (GoStrings.ToLower k = "user-agent" /\ v = ""))
                           /\ (forall k v,
                                 ParsedRequest.Cookies p !! k = Some v ->
                                 ParsedRequest.Cookies req !! k = Some v))
                  ps)).
  - split; [split; [intros k v Hv; left; exact Hv|intros k v Hv; exact Hv]|constructor].
  - intros st ps name removed [[HstH HstC] Hps] Hrem _ _ w0.
    assert (forall k v, removed !! k = Some v ->
              ParsedRequest.Headers req !! k = Some v
              \/ (GoStrings.ToLower k = "user-agent" /\ v = "")) as Hremoved.
    { intros k v. subst removed. case_bool_decide as Hua.
      - rewrite lookup_insert. case_decide as Hk; [|apply HstH].
        subst k. intros [= <-]. right. split; [exact Hua|reflexivity].
      - intros Hv. apply lookup_delete_Some in Hv as [_ Hv]. apply HstH, Hv. }
    split.
    + destruct (SingleRequestResult.Success _); split; assumption.
    + apply Forall_app. split; [exact Hps|]. constructor; [|constructor].
      rewrite buildRequestFromState_maps. cbn. repeat split; assumption.
  - intros st ps name [[HstH HstC] Hps] _ w0.
    assert (forall k v, delete name (CumulativeTestState.Cookies st) !! k = Some v ->
              ParsedRequest.Cookies req !! k = Some v) as Hremoved.
    { intros k v Hv. apply lookup_delete_Some in Hv as [_ Hv]. apply HstC, Hv. }
    split.
    + destruct (SingleRequestResult.Success _); split; assumption.
    + apply Forall_app. split; [exact Hps|]. constructor; [|constructor].
      rewrite buildRequestFromState_maps. cbn. repeat split; assumption.
Qed.

End BatchFacts.

Lemma keyServer_stateless (request : ParsedRequest.t) (w0 : nat) :
  SingleRequestResult.Success
    (executeRequest (MinimizerSamples.backendOf MinimizerSamples.keyServer)
       request (Samples.textConfig ["ok"]) w0).1
  = bool_decide (ParsedRequest.Headers request !! "X-Key" = Some "k1").
Proof.
  unfold executeRequest, createHTTPRequest. cbn.
  unfold MinimizerSamples.keyServer. case_bool_decide; reflexivity.
Qed.

Lemma batch_stops_at_original_witness :
  MinimizerSamples.downBatch.1.2 = []
  /\ BatchTestResult.OriginalError MinimizerSamples.downBatch.1.1.1.1
     = Some (OriginalRequestFailed "connection refused").
Proof.
  destruct (batch_stops_at_original
              (MinimizerSamples.backendOf MinimizerSamples.downServer)
              MinimizerSamples.keyRequest (Samples.textConfig ["ok"])
              MinimizerSamples.keyHeaders.*1 MinimizerSamples.keyCookies.*1 0%nat
              MinimizerSamples.downBatch.1.1.1.1
              (OriginalRequestFailed "connection refused")
              MinimizerSamples.downBatch.1.1.2 MinimizerSamples.downBatch.1.2
              MinimizerSamples.downBatch.2)
    as (Hprobes & _ & _ & _ & _ & _ & Herr & _); [vm_compute; reflexivity|].
  split; [exact Hprobes|exact Herr].
Defined.

Lemma batch_covers_every_field_witness :
  TestResult.FieldName
    <$> BatchTestResult.HeaderResults MinimizerSamples.keyBatch.1.1.1.1
  = ["User-Agent"; "Accept"; "X-Key"]
  /\ TestResult.FieldName
       <$> BatchTestResult.CookieResults MinimizerSamples.keyBatch.1.1.1.1
     = ["s"].
Proof.
  destruct (batch_covers_every_field
              (MinimizerSamples.backendOf MinimizerSamples.keyServer)
              MinimizerSamples.keyRequest (Samples.textConfig ["ok"])
              MinimizerSamples.keyHeaders MinimizerSamples.keyCookies 0%nat
              MinimizerSamples.keyBatch.1.1.1.1
              MinimizerSamples.keyBatch.1.1.2 MinimizerSamples.keyBatch.1.2
              MinimizerSamples.keyBatch.2)
    as (Hh & Hc & _);
    [unfold range_of; reflexivity|unfold range_of; reflexivity
    |vm_compute; reflexivity|].
  split; [exact Hh|exact Hc].
Defined.

Lemma batch_probe_count_witness :
  length MinimizerSamples.keyBatch.1.2 = 3%nat
  /\ BatchTestResult.TotalTests MinimizerSamples.keyBatch.1.1.1.1 = 5.
Proof.
  destruct (batch_probe_count
              (MinimizerSamples.backendOf MinimizerSamples.keyServer)
              MinimizerSamples.keyRequest (Samples.textConfig ["ok"])
              MinimizerSamples.keyHeaders MinimizerSamples.keyCookies 0%nat
              MinimizerSamples.keyBatch.1.1.1.1
              MinimizerSamples.keyBatch.1.1.2 MinimizerSamples.keyBatch.1.2
              MinimizerSamples.keyBatch.2)
    as (Hp & Ht & _);
    [unfold range_of; reflexivity|unfold range_of; reflexivity
    |vm_compute; reflexivity|].
  split; [exact Hp|exact Ht].
Defined.

Lemma batch_simplified_fields_witness :
  exists simplified rs,
    BatchTestResult.SimplifiedRequest MinimizerSamples.keyBatch.1.1.1.1
    = Some simplified
    /\ BatchTestResult.CumulativeResults MinimizerSamples.keyBatch.1.1.1.1 = Some rs
    /\ (forall k v,
          ParsedRequest.Headers simplified !! k = Some v <->
          ParsedRequest.Headers MinimizerSamples.keyRequest !! k = Some v
          /\ exists r, TestResults.Headers rs !! k = Some r
                       /\ FieldTestResult.Required r = true)
    /\ (forall k v,
          ParsedRequest.Cookies simplified !! k = Some v <->
          ParsedRequest.Cookies MinimizerSamples.keyRequest !! k = Some v
          /\ exists r, TestResults.Cookies rs !! k = Some r
                       /\ FieldTestResult.Required r = true).
Proof.
  apply (batch_simplified_fields
           (MinimizerSamples.backendOf MinimizerSamples.keyServer)
           MinimizerSamples.keyRequest (Samples.textConfig ["ok"])
           MinimizerSamples.keyHeaders MinimizerSamples.keyCookies 0%nat
           MinimizerSamples.keyBatch.1.1.1.1
           MinimizerSamples.keyBatch.1.1.2 MinimizerSamples.keyBatch.1.2
           MinimizerSamples.keyBatch.2);
    [unfold range_of; reflexivity|unfold range_of; reflexivity
    |vm_compute; reflexivity].
Defined.

Lemma batch_all_required_witness :
  BatchTestResult.SimplifiedRequest MinimizerSamples.strictBatch.1.1.1.1
  = Some MinimizerSamples.keyRequest.
Proof.
  apply (batch_all_required
           (MinimizerSamples.backendOf
              (MinimizerSamples.strictServer MinimizerSamples.keyRequest))
           MinimizerSamples.keyRequest (Samples.textConfig ["ok"])
           MinimizerSamples.keyHeaders MinimizerSamples.keyCookies 0%nat
           MinimizerSamples.strictBatch.1.1.1.1
           MinimizerSamples.strictBatch.1.1.2 MinimizerSamples.strictBatch.1.2
           MinimizerSamples.strictBatch.2
           (default (TestResults.mk ∅ ∅)
              (BatchTestResult.CumulativeResults
                 MinimizerSamples.strictBatch.1.1.1.1)));
    [unfold range_of; reflexivity|unfold range_of; reflexivity
    |vm_compute; reflexivity|vm_compute; reflexivity| |].
  - intros k r Hr. apply elem_of_map_to_list in Hr.
    vm_compute in Hr. apply list_elem_of_In in Hr. cbn in Hr.
    destruct Hr as [Hr|[Hr|[Hr|[]]]]; injection Hr as <- <-; reflexivity.
  - intros k r Hr. apply elem_of_map_to_list in Hr.
    vm_compute in Hr. apply list_elem_of_In in Hr. cbn in Hr.
    destruct Hr as [Hr|[]]; injection Hr as <- <-; reflexivity.
Defined.

Lemma batch_preserves_user_agent_witness :
  Forall (fun p => ParsedRequest.Headers p !! "User-Agent" = Some "UA/1")
    MinimizerSamples.keyBatch.1.2.
Proof.
  apply (batch_preserves_user_agent
           (MinimizerSamples.backendOf MinimizerSamples.keyServer)
           MinimizerSamples.keyRequest (Samples.textConfig ["ok"])
           MinimizerSamples.keyHeaders MinimizerSamples.keyCookies 0%nat
           MinimizerSamples.keyBatch.1.1.1.1
           MinimizerSamples.keyBatch.1.1.2 MinimizerSamples.keyBatch.1.2
           MinimizerSamples.keyBatch.2 "User-Agent" "UA/1");
    [unfold range_of; reflexivity|unfold range_of; reflexivity
    |vm_compute; reflexivity|reflexivity|reflexivity|reflexivity].
Defined.

Lemma batch_simplified_passes_witness :
  exists simplified,
    BatchTestResult.SimplifiedRequest MinimizerSamples.keyBatch.1.1.1.1
    = Some simplified
    /\ bool_decide (ParsedRequest.Headers simplified !! "X-Key" = Some "k1") = true.
Proof.
  apply (batch_simplified_passes
           (MinimizerSamples.backendOf MinimizerSamples.keyServer)
           MinimizerSamples.keyRequest (Samples.textConfig ["ok"])
           (fun request =>
              bool_decide (ParsedRequest.Headers request !! "X-Key" = Some "k1"))
           MinimizerSamples.keyHeaders MinimizerSamples.keyCookies 0%nat
           MinimizerSamples.keyBatch.1.1.1.1
           MinimizerSamples.keyBatch.1.1.2 MinimizerSamples.keyBatch.1.2
           MinimizerSamples.keyBatch.2);
    [unfold range_of; reflexivity|unfold range_of; reflexivity
    |vm_compute; reflexivity|apply keyServer_stateless|reflexivity
    |left; reflexivity].
Defined.

Lemma batch_progress_witness :
  last MinimizerSamples.keyBatch.1.1.2 = Some (TestProgress.mk Finished 5 5 None).
Proof.
  apply (batch_progress
           (MinimizerSamples.backendOf MinimizerSamples.keyServer)
           MinimizerSamples.keyRequest (Samples.textConfig ["ok"])
           MinimizerSamples.keyHeaders MinimizerSamples.keyCookies 0%nat
           MinimizerSamples.keyBatch.1.1.1.1
           MinimizerSamples.keyBatch.1.1.2 MinimizerSamples.keyBatch.1.2
           MinimizerSamples.keyBatch.2);
    [unfold range_of; reflexivity|unfold range_of; reflexivity
    |vm_compute; reflexivity].
Defined.

Lemma batch_probes_within_original_witness :
  Forall (fun p =>
            ParsedRequest.Method p = "GET"
            /\ ParsedRequest.URL p = "https://a.test/x?y=1"
            /\ ParsedRequest.Body p = ""
            /\ ParsedRequest.QueryParams p
               = ParsedRequest.QueryParams MinimizerSamples.keyRequest
            /\ ParsedRequest.ContentType p = ""
            /\ (forall k v,
                  ParsedRequest.Headers p !! k = Some v ->
                  ParsedRequest.Headers MinimizerSamples.keyRequest !! k = Some v
                  \/ (GoStrings.ToLower k = "user-agent" /\ v = ""))
            /\ (forall k v,
                  ParsedRequest.Cookies p !! k = Some v ->
                  ParsedRequest.Cookies MinimizerSamples.keyRequest !! k = Some v))
    MinimizerSamples.keyBatch.1.2.
Proof.
  apply (batch_probes_within_original
           (MinimizerSamples.backendOf MinimizerSamples.keyServer)
           MinimizerSamples.keyRequest (Samples.textConfig ["ok"])
           MinimizerSamples.keyHeaders.*1 MinimizerSamples.keyCookies.*1 0%nat
           MinimizerSamples.keyBatch.1.1.1.1 None
           MinimizerSamples.keyBatch.1.1.2 MinimizerSamples.keyBatch.1.2
           MinimizerSamples.keyBatch.2).
  vm_compute; reflexivity.
Defined.

End MinimizerFacts.

(** ** Encoding detection, continued *)

Module DetectionFacts.
Import Encoding EncodingRegistry.

(** The loop passes over the codecs that fail on the data or whose
    decoding does not contain the calibration text, and records them. *)
Lemma detectLoop_skip (data calibrationText : string)
    (before rest : list (string * Decoder)) (tried : list string) :
  Forall (fun entry => forall decoded,
            entry.2 data = inl decoded ->
            GoStrings.Contains decoded calibrationText = false) before ->
  detectLoop data calibrationText (before ++ rest) tried
  = detectLoop data calibrationText rest (tried ++ before.*1).
Proof.
  intros H. revert tried.
  induction H as [|[name enc] before Hhead _ IH]; intros tried.
  - cbn. rewrite app_nil_r. reflexivity.
  - cbn [app detectLoop fmap list_fmap fst]. cbn in Hhead.
    destruct (enc data) as [decoded|msg] eqn:Henc.
    + rewrite (Hhead decoded eq_refl). rewrite IH.
      rewrite <- app_assoc. reflexivity.
    + rewrite IH. rewrite <- app_assoc. reflexivity.
Qed.

Lemma detectLoop_error (data calibrationText : string)
    (encodings : list (string * Decoder)) (tried : list string) :
  (detectLoop data calibrationText encodings tried).1.2 <> None ->
  Forall (fun entry => forall decoded,
            entry.2 data = inl decoded ->
            GoStrings.Contains decoded calibrationText = false) encodings.
Proof.
  revert tried. induction encodings as [|[name enc] rest IH]; intros tried H.
  - constructor.
  - cbn [detectLoop] in H. destruct (enc data) as [decoded|msg] eqn:Henc.
    + destruct (GoStrings.Contains decoded calibrationText) eqn:Hc.
      * cbn in H. congruence.
      * constructor; [|eapply IH, H]. cbn. intros d Hd.
        rewrite Henc in Hd. injection Hd as <-. exact Hc.
    + constructor; [|eapply IH, H]. cbn. intros d Hd.
      rewrite Henc in Hd. discriminate.
Qed.

(** X9.  With a calibration text, [DetectEncoding] answers the first
    codec, in the order in which the runtime enumerates the registry,
    whose decoding of the data contains the text; the codecs before it have
    been run, those after it have not. *)
Theorem DetectEncoding_first_match
    (before after : list (string * Decoder)) (name : string) (enc : Decoder)
    (data calibrationText decoded : string) :
  calibrationText <> "" ->
  Forall (fun entry => forall d,
            entry.2 data = inl d ->
            GoStrings.Contains d calibrationText = false) before ->
  enc data = inl decoded ->
  GoStrings.Contains decoded calibrationText = true ->
  DetectEncoding (before ++ (name, enc) :: after) data calibrationText
  = ((name, None), before.*1 ++ [name]).
Proof.
  intros Htext Hbefore Henc Hc. unfold DetectEncoding.
  rewrite bool_decide_eq_false_2 by exact Htext.
  rewrite detectLoop_skip by exact Hbefore.
  cbn [detectLoop]. rewrite Henc, Hc. reflexivity.
Qed.

(** X10.  With a calibration text, [DetectEncoding] returns an error
    exactly when no codec of the registry decodes the data to a text that
    contains the calibration text; it has then run every codec, and the
    name it returns is empty. *)
Theorem DetectEncoding_no_match (encodings : list (string * Decoder))
    (data calibrationText : string) :
  calibrationText <> "" ->
  ((DetectEncoding encodings data calibrationText).1.2 <> None <->
   Forall (fun entry => forall d,
             entry.2 data = inl d ->
             GoStrings.Contains d calibrationText = false) encodings)
  /\ ((DetectEncoding encodings data calibrationText).1.2 <> None ->
      DetectEncoding encodings data calibrationText
      = (("", Some (NoMatchingEncoding calibrationText)), encodings.*1)).
Proof.
  intros Htext. unfold DetectEncoding.
  rewrite bool_decide_eq_false_2 by exact Htext.
  assert (Hskip : Forall (fun entry : string * Decoder => forall d,
                            entry.2 data = inl d ->
                            GoStrings.Contains d calibrationText = false) encodings ->
                  detectLoop data calibrationText encodings []
                  = (("", Some (NoMatchingEncoding calibrationText)), encodings.*1)).
  { intros H. rewrite <- (app_nil_r encodings) at 1.
    rewrite detectLoop_skip by exact H. reflexivity. }
  split; [split|].
  - apply detectLoop_error.
  - intros H. rewrite (Hskip H). cbn. congruence.
  - intros H. apply Hskip. eapply detectLoop_error, H.
Qed.

(** Every name of [GetCommonEncodings] is registered by
    [initEncodings]: for such a name [IsValidEncoding] says yes and
    [DecodeWithEncoding] runs the registered codec, so it never answers
    that the encoding is not supported. *)
Theorem common_encodings_registered (decodeBytes : Codec -> Decoder)
    (data encodingName : string) :
  encodingName ∈ GetCommonEncodings ->
  IsValidEncoding initEncodings encodingName = true
  /\ exists codec,
      initEncodings !! encodingName = Some codec
      /\ DecodeWithEncoding (decoders decodeBytes) data encodingName
         = match decodeBytes codec data with
           | inl decoded => inl decoded
           | inr msg => inr (DecodeError msg)
           end.
Proof.
  intros Hin.
  assert (Hsome : exists codec, initEncodings !! encodingName = Some codec).
  { unfold GetCommonEncodings in Hin.
    repeat (apply elem_of_cons in Hin as [->|Hin];
            [eexists; vm_compute; reflexivity|]).
    apply elem_of_nil in Hin. destruct Hin. }
  destruct Hsome as [codec Hcodec]. split.
  - unfold IsValidEncoding. apply bool_decide_eq_true_2. eexists. exact Hcodec.
  - exists codec. split; [exact Hcodec|].
    unfold DecodeWithEncoding, decoders. rewrite lookup_fmap, Hcodec. cbn.
    destruct (decodeBytes codec data); reflexivity.
Qed.

Lemma DetectEncoding_first_match_witness :
  DetectEncoding
    ([("GBK", DetectionSamples.broken); ("Big5", DetectionSamples.shouting)]
     ++ ("UTF-8", DetectionSamples.plain) :: [("KOI8-R", DetectionSamples.plain)])
    "ok" "ok"
  = (("UTF-8", None), ["GBK"; "Big5"; "UTF-8"]).
Proof.
  apply (DetectEncoding_first_match
           [("GBK", DetectionSamples.broken); ("Big5", DetectionSamples.shouting)]
           [("KOI8-R", DetectionSamples.plain)] "UTF-8" DetectionSamples.plain
           "ok" "ok" "ok");
    [discriminate| |reflexivity|reflexivity].
  repeat constructor; cbn; intros d Hd; [discriminate|].
  injection Hd as <-. reflexivity.
Defined.

Lemma DetectEncoding_no_match_witness :
  DetectEncoding
    [("GBK", DetectionSamples.broken); ("Big5", DetectionSamples.shouting)]
    "ok" "ok"
  = (("", Some (NoMatchingEncoding "ok")), ["GBK"; "Big5"]).
Proof.
  apply (DetectEncoding_no_match
           [("GBK", DetectionSamples.broken); ("Big5", DetectionSamples.shouting)]
           "ok" "ok"); [discriminate|vm_compute; discriminate].
Defined.

Lemma common_encodings_registered_witness :
  IsValidEncoding initEncodings "GBK" = true.
Proof.
  apply (common_encodings_registered (fun _ => DetectionSamples.plain) "ok" "GBK").
  apply list_elem_of_further, list_elem_of_here.
Defined.

End DetectionFacts.

(** ** The validation modes, continued *)

Module ValidationFacts.
Import Models Validator.

Lemma ToLower_length (s : string) :
  String.length (GoStrings.ToLower s) = String.length s.
Proof. induction s as [|c s IH]; cbn; [reflexivity|rewrite IH; reflexivity]. Qed.

Lemma ToLower_idempotent (s : string) :
  GoStrings.ToLower (GoStrings.ToLower s) = GoStrings.ToLower s.
Proof.
  induction s as [|c s IH]; cbn; [reflexivity|].
  rewrite IH, TesterFacts.lowerByte_lowerByte. reflexivity.
Qed.

Lemma ToLower_empty (s : string) : GoStrings.ToLower s = "" <-> s = "".
Proof. destruct s; cbn; split; intros H; congruence. Qed.

(** What the loop of [checkTextMatching] says about the needles: it
    returns from inside only with [true], and then a needle was found;
    when it runs to its end the counter has grown exactly if a needle was
    found. *)
Lemma matchLoop_found (config : TextMatchingConfig.t) (text : string)
    (texts : list string) (matchCount : Z) :
  match matchLoop config text texts matchCount with
  | inl returned =>
      returned = true
      /\ Exists (fun searchText =>
                   searchText <> ""
                   /\ GoStrings.Contains text
                        (if negb (TextMatchingConfig.CaseSensitive config)
                         then GoStrings.ToLower searchText else searchText) = true)
           texts
  | inr count =>
      matchCount <= count
      /\ (matchCount < count <->
          Exists (fun searchText =>
                    searchText <> ""
                    /\ GoStrings.Contains text
                         (if negb (TextMatchingConfig.CaseSensitive config)
                          then GoStrings.ToLower searchText else searchText) = true)
            texts)
  end.
Proof.
  revert matchCount. induction texts as [|searchText rest IH]; intros matchCount.
  - cbn. split; [lia|]. split; [lia|]. intros H. inversion H.
  - cbn [matchLoop]. case_bool_decide as Hempty.
    + specialize (IH matchCount).
      destruct (matchLoop config text rest matchCount) as [returned|count].
      * destruct IH as [-> IH]. split; [reflexivity|]. right. exact IH.
      * destruct IH as [Hle IH]. split; [exact Hle|]. rewrite IH. split.
        -- intros H. right. exact H.
        -- intros H. inversion H as [? ? [Hne _]|? ? H']; subst;
             [contradiction|exact H'].
    + destruct (GoStrings.Contains text _) eqn:Hc.
      * case_bool_decide as Hany.
        -- split; [reflexivity|]. left. split; assumption.
        -- specialize (IH (matchCount + 1)).
           destruct (matchLoop config text rest (matchCount + 1)) as [returned|count].
           ++ destruct IH as [-> IH]. split; [reflexivity|]. right. exact IH.
           ++ destruct IH as [Hle IH]. split; [lia|]. split.
              ** intros _. left. split; assumption.
              ** intros _. lia.
      * specialize (IH matchCount).
        destruct (matchLoop config text rest matchCount) as [returned|count].
        -- destruct IH as [-> IH]. split; [reflexivity|]. right. exact IH.
        -- destruct IH as [Hle IH]. split; [exact Hle|]. rewrite IH. split.
           ++ intros H. right. exact H.
           ++ intros H. inversion H as [? ? [_ Hc']|? ? H']; subst;
                [congruence|exact H'].
Qed.

(** X11.  In a mode other than [all], that is in mode [any] and for any
    other mode string, text matching with a non-empty list of needles
    passes exactly when some needle of the list is non-empty and found in
    the body.  The check is case sensitive, where the code compares bytes,
    or the body and the needles are ASCII texts, which [strings.ToLower]
    lowers byte by byte. *)
Theorem checkTextMatching_any_iff (config : TextMatchingConfig.t) (body : string) :
  TextMatchingConfig.MatchMode config <> "all" ->
  TextMatchingConfig.Texts config <> [] ->
  TextMatchingConfig.CaseSensitive config = true
  \/ (GoStrings.isASCII body = true
      /\ Forall (fun searchText => GoStrings.isASCII searchText = true)
           (TextMatchingConfig.Texts config)) ->
  checkTextMatching config body = true <->
  Exists (fun searchText =>
            searchText <> ""
            /\ GoStrings.Contains
                 (if negb (TextMatchingConfig.CaseSensitive config)
                  then GoStrings.ToLower body else body)
                 (if negb (TextMatchingConfig.CaseSensitive config)
                  then GoStrings.ToLower searchText else searchText) = true)
    (TextMatchingConfig.Texts config).
Proof.
  intros Hmode Htexts _. unfold checkTextMatching.
  destruct (Z.eqb_spec (Z.of_nat (length (TextMatchingConfig.Texts config))) 0)
    as [Hlen|_].
  { destruct (TextMatchingConfig.Texts config); [contradiction|cbn in Hlen; lia]. }
  pose proof (matchLoop_found config
                (if negb (TextMatchingConfig.CaseSensitive config)
                 then GoStrings.ToLower body else body)
                (TextMatchingConfig.Texts config) 0) as H.
  destruct (matchLoop config _ (TextMatchingConfig.Texts config) 0)
    as [returned|count].
  - destruct H as [-> H]. split; [intros _; exact H|reflexivity].
  - destruct H as [Hle H]. rewrite bool_decide_eq_false_2 by exact Hmode.
    rewrite <- H. split.
    + intros Hlt. apply Z.ltb_lt in Hlt. exact Hlt.
    + intros Hlt. apply Z.ltb_lt. exact Hlt.
Qed.

Lemma matchLoop_lower_texts (config : TextMatchingConfig.t) (text : string)
    (texts : list string) (matchCount : Z) :
  TextMatchingConfig.CaseSensitive config = false ->
  matchLoop config text (GoStrings.ToLower <$> texts) matchCount
  = matchLoop config text texts matchCount.
Proof.
  intros Hcase. revert matchCount.
  induction texts as [|searchText rest IH]; intros matchCount; [reflexivity|].
  cbn [fmap list_fmap matchLoop]. rewrite Hcase. cbn [negb].
  rewrite ToLower_idempotent.
  destruct (decide (searchText = "")) as [->|Hne].
  - cbn. apply IH.
  - rewrite (bool_decide_eq_false_2 (GoStrings.ToLower searchText = ""))
      by (rewrite ToLower_empty; exact Hne).
    rewrite (bool_decide_eq_false_2 (searchText = "")) by exact Hne.
    destruct (GoStrings.Contains text (GoStrings.ToLower searchText));
      [case_bool_decide; [reflexivity|]|]; apply IH.
Qed.

(** X12.  Text matching that is not case sensitive depends on the body
    and on the needles only up to the case of ASCII letters: two bodies
    with the same lower-case form get the same verdict, and so does the
    configuration whose needles are put in lower case. *)
Theorem checkTextMatching_ignores_case (config : TextMatchingConfig.t)
    (body body' : string) :
  TextMatchingConfig.CaseSensitive config = false ->
  GoStrings.ToLower body = GoStrings.ToLower body' ->
  checkTextMatching config body = checkTextMatching config body'
  /\ checkTextMatching
       (TextMatchingConfig.mk (TextMatchingConfig.Enabled config)
          (GoStrings.ToLower <$> TextMatchingConfig.Texts config)
          (TextMatchingConfig.MatchMode config) false)
       body
     = checkTextMatching config body.
Proof.
  intros Hcase Hbody. split.
  - unfold checkTextMatching. rewrite Hcase. cbn [negb]. rewrite Hbody.
    unfold GoStrings.len.
    rewrite <- (ToLower_length body), <- (ToLower_length body'), Hbody.
    reflexivity.
  - unfold checkTextMatching.
    cbn [TextMatchingConfig.Texts TextMatchingConfig.CaseSensitive
         TextMatchingConfig.MatchMode negb].
    rewrite Hcase. cbn [negb]. rewrite length_fmap.
    destruct (Z.of_nat (length (TextMatchingConfig.Texts config)) =? 0);
      [reflexivity|].
    pose proof (matchLoop_lower_texts
                  (TextMatchingConfig.mk (TextMatchingConfig.Enabled config)
                     (GoStrings.ToLower <$> TextMatchingConfig.Texts config)
                     (TextMatchingConfig.MatchMode config) false)
                  (GoStrings.ToLower body) (TextMatchingConfig.Texts config) 0
                  eq_refl) as Hl.
    rewrite Hl.
    assert (Hsame : forall texts matchCount,
               matchLoop
                 (TextMatchingConfig.mk (TextMatchingConfig.Enabled config)
                    (GoStrings.ToLower <$> TextMatchingConfig.Texts config)
                    (TextMatchingConfig.MatchMode config) false)
                 (GoStrings.ToLower body) texts matchCount
               = matchLoop config (GoStrings.ToLower body) texts matchCount).
    { induction texts as [|s rest IH]; intros matchCount; [reflexivity|].
      cbn [matchLoop TextMatchingConfig.CaseSensitive
           TextMatchingConfig.MatchMode]. rewrite Hcase. cbn [negb].
      rewrite !IH. reflexivity. }
    rewrite Hsame. reflexivity.
Qed.

Section ConfigFacts.

Variable ParseExpr : string -> Expr + string.
Variable evaluateSimpleExpression :
  string -> ResponseData.t -> bool * option string.

(** X13.  [EvaluateConfig] never reports an error together with a pass.
    Without a custom expression the only error is the one for a
    configuration with no rule, and it is returned exactly when the status
    code lies in [200,300) and neither text matching nor the length range
    is enabled: under these conditions the result is this error, every
    error comes with these conditions, and for another status code the
    result is a plain failure. *)
Theorem EvaluateConfig_errors (config : ValidationConfig.t)
    (response : ResponseData.t) :
  (forall (passed : bool) (err : Err),
      EvaluateConfig ParseExpr evaluateSimpleExpression config response
      = (passed, Some err) ->
      passed = false)
  /\ (ValidationConfig.UseCustomExpr config
      && negb (bool_decide (ValidationConfig.Expression config = "")) = false ->
      (200 <= ResponseData.StatusCode response < 300
       /\ TextMatchingConfig.Enabled (ValidationConfig.TextMatching config) = false
       /\ LengthRangeConfig.Enabled (ValidationConfig.LengthRange config) = false ->
       EvaluateConfig ParseExpr evaluateSimpleExpression config response
       = (false, Some NoValidationRule))
      /\ (forall (passed : bool) (err : Err),
            EvaluateConfig ParseExpr evaluateSimpleExpression config response
            = (passed, Some err) ->
            err = NoValidationRule
            /\ 200 <= ResponseData.StatusCode response < 300
            /\ TextMatchingConfig.Enabled (ValidationConfig.TextMatching config)
               = false
            /\ LengthRangeConfig.Enabled (ValidationConfig.LengthRange config)
               = false)
      /\ (~ 200 <= ResponseData.StatusCode response < 300 ->
          EvaluateConfig ParseExpr evaluateSimpleExpression config response
          = (false, None))).
Proof.
  unfold EvaluateConfig, EvaluateExpression.
  destruct (ValidationConfig.UseCustomExpr config
            && negb (bool_decide (ValidationConfig.Expression config = ""))) eqn:Hc.
  - split; [|discriminate]. intros passed err.
    destruct (ValidateExpression ParseExpr (ValidationConfig.Expression config)).
    + intros H. injection H as <- _. reflexivity.
    + destruct (evaluateSimpleExpression _ response) as [result [msg|]];
        intros H; [|discriminate].
      injection H as <- _. reflexivity.
  - destruct (Z.ltb_spec (ResponseData.StatusCode response) 200) as [Hlo|Hlo].
    { cbn [orb]. split; [discriminate|]. intros _.
      split; [lia|]. split; [discriminate|reflexivity]. }
    destruct (Z.leb_spec 300 (ResponseData.StatusCode response)) as [Hhi|Hhi].
    { cbn [orb]. split; [discriminate|]. intros _.
      split; [lia|]. split; [discriminate|reflexivity]. }
    cbn [orb].
    destruct (TextMatchingConfig.Enabled (ValidationConfig.TextMatching config)).
    { split; [discriminate|]. intros _.
      split; [intros (_ & Htm & _); discriminate Htm|].
      split; [discriminate|lia]. }
    destruct (LengthRangeConfig.Enabled (ValidationConfig.LengthRange config)).
    { split; [discriminate|]. intros _.
      split; [intros (_ & _ & Hlr); discriminate Hlr|].
      split; [discriminate|lia]. }
    split; [intros passed err H; injection H as <- _; reflexivity|].
    intros _. split; [reflexivity|]. split; [|lia].
    intros passed err H. injection H as _ <-. repeat split; try reflexivity; lia.
Qed.

(** X14.  With the default configuration of the service a response passes
    exactly when its status code lies in [200,300) and its body is not
    empty, and no error is returned, whatever the expression parser and
    the evaluator are. *)
Theorem default_config_verdict (response : ResponseData.t) :
  EvaluateConfig ParseExpr evaluateSimpleExpression
    Service.GetDefaultValidationConfig response
  = (bool_decide (200 <= ResponseData.StatusCode response < 300)
     && negb (bool_decide (ResponseData.Body response = "")), None).
Proof.
  unfold EvaluateConfig, Service.GetDefaultValidationConfig.
  cbn [ValidationConfig.UseCustomExpr andb ValidationConfig.TextMatching
       TextMatchingConfig.Enabled].
  destruct (Z.ltb_spec (ResponseData.StatusCode response) 200) as [Hlo|Hlo].
  { cbn [orb]. rewrite bool_decide_eq_false_2 by lia. reflexivity. }
  destruct (Z.leb_spec 300 (ResponseData.StatusCode response)) as [Hhi|Hhi].
  { cbn [orb]. rewrite bool_decide_eq_false_2 by lia. reflexivity. }
  cbn [orb]. rewrite bool_decide_eq_true_2 by lia. cbn [andb].
  unfold checkTextMatching. cbn.
  destruct (ResponseData.Body response) as [|c body]; reflexivity.
Qed.

End ConfigFacts.

Lemma checkTextMatching_any_iff_witness :
  checkTextMatching (TextMatchingConfig.mk true ["NO"; "Ok"] "any" false) "it is OK"
  = true <->
  Exists (fun searchText =>
            searchText <> ""
            /\ GoStrings.Contains (GoStrings.ToLower "it is OK")
                 (GoStrings.ToLower searchText) = true)
    ["NO"; "Ok"].
Proof.
  apply (checkTextMatching_any_iff
           (TextMatchingConfig.mk true ["NO"; "Ok"] "any" false) "it is OK");
    [discriminate|discriminate|].
  right. split; [reflexivity|]. repeat constructor.
Defined.

Lemma checkTextMatching_ignores_case_witness :
  checkTextMatching (TextMatchingConfig.mk true ["Ok"] "all" false) "OK"
  = checkTextMatching (TextMatchingConfig.mk true ["Ok"] "all" false) "ok".
Proof.
  apply (checkTextMatching_ignores_case
           (TextMatchingConfig.mk true ["Ok"] "all" false) "OK" "ok");
    reflexivity.
Defined.

Lemma EvaluateConfig_errors_witness :
  EvaluateConfig Samples.noParser Samples.yes DetectionSamples.noRules
    (Samples.response 200 "x")
  = (false, Some NoValidationRule)
  /\ EvaluateConfig Samples.noParser Samples.yes DetectionSamples.noRules
       (Samples.response 404 "x")
     = (false, None).
Proof.
  split.
  - destruct (EvaluateConfig_errors Samples.noParser Samples.yes
                DetectionSamples.noRules (Samples.response 200 "x")) as [_ H].
    destruct (H eq_refl) as (Herror & _ & _). apply Herror.
    cbn. repeat split; (lia || reflexivity).
  - destruct (EvaluateConfig_errors Samples.noParser Samples.yes
                DetectionSamples.noRules (Samples.response 404 "x")) as [_ H].
    destruct (H eq_refl) as (_ & _ & Hother). apply Hother. cbn. lia.
Defined.

End ValidationFacts.

(** ** Strings *)

Module StringFacts.

Lemma append_cons (c : ascii) (s t : string) :
  String c s +:+ t = String c (s +:+ t).
Proof. reflexivity. Qed.

Lemma append_nil_r (s : string) : s +:+ "" = s.
Proof.
  induction s as [|c s IH]; [reflexivity|].
  rewrite append_cons, IH. reflexivity.
Qed.

Lemma append_assoc (s t u : string) : (s +:+ t) +:+ u = s +:+ (t +:+ u).
Proof.
  induction s as [|c s IH]; [reflexivity|].
  rewrite !append_cons, IH. reflexivity.
Qed.

Lemma prefix_single (c a : ascii) (s : string) :
  String.prefix (String c "") (String a s) = bool_decide (c = a).
Proof.
  cbn. destruct (ascii_dec c a) as [->|Hne].
  - rewrite bool_decide_eq_true_2 by reflexivity. destruct s; reflexivity.
  - rewrite bool_decide_eq_false_2 by exact Hne. reflexivity.
Qed.

Lemma Contains_single_cons (c a : ascii) (s : string) :
  GoStrings.Contains (String a s) (String c "")
  = bool_decide (c = a) || GoStrings.Contains s (String c "").
Proof.
  cbn [GoStrings.Contains]. rewrite prefix_single.
  destruct (bool_decide (c = a)); reflexivity.
Qed.

Lemma Contains_single_app (c : ascii) (s t : string) :
  GoStrings.Contains (s +:+ t) (String c "")
  = GoStrings.Contains s (String c "") || GoStrings.Contains t (String c "").
Proof.
  induction s as [|a s IH].
  - reflexivity.
  - rewrite append_cons, !Contains_single_cons, IH, orb_assoc. reflexivity.
Qed.

(** [Split] at a one-byte separator, byte by byte. *)
Lemma splitGo_sep (c : ascii) (rest cur : string) :
  GoStrings.splitGo (String c "") (String c rest) 0 cur
  = cur :: GoStrings.splitGo (String c "") rest 0 "".
Proof.
  cbn [GoStrings.splitGo]. rewrite prefix_single.
  rewrite bool_decide_eq_true_2 by reflexivity. reflexivity.
Qed.

Lemma splitGo_free (c : ascii) (s rest cur : string) :
  GoStrings.Contains s (String c "") = false ->
  GoStrings.splitGo (String c "") (s +:+ rest) 0 cur
  = GoStrings.splitGo (String c "") rest 0 (cur +:+ s).
Proof.
  revert cur. induction s as [|a s IH]; intros cur Hfree.
  - rewrite append_nil_r. reflexivity.
  - rewrite Contains_single_cons in Hfree.
    apply orb_false_iff in Hfree as [Hne Hfree].
    rewrite append_cons. cbn [GoStrings.splitGo]. rewrite prefix_single, Hne.
    rewrite IH by exact Hfree. rewrite append_assoc. reflexivity.
Qed.

Lemma splitGo_whole (c : ascii) (s cur : string) :
  GoStrings.Contains s (String c "") = false ->
  GoStrings.splitGo (String c "") s 0 cur = [cur +:+ s].
Proof.
  intros Hfree. rewrite <- (append_nil_r s) at 1.
  rewrite splitGo_free by exact Hfree. reflexivity.
Qed.

(** The pieces that [Split] returns do not hold the separator. *)
Lemma splitGo_pieces (c : ascii) (s cur : string) :
  GoStrings.Contains cur (String c "") = false ->
  Forall (fun piece => GoStrings.Contains piece (String c "") = false)
    (GoStrings.splitGo (String c "") s 0 cur).
Proof.
  revert cur. induction s as [|a s IH]; intros cur Hcur.
  - cbn. constructor; [exact Hcur|constructor].
  - cbn [GoStrings.splitGo]. rewrite prefix_single. case_bool_decide as Ha.
    + cbn [Nat.pred String.length]. constructor; [exact Hcur|].
      apply IH. reflexivity.
    + apply IH. rewrite Contains_single_app, Hcur, Contains_single_cons.
      rewrite bool_decide_eq_false_2 by exact Ha. reflexivity.
Qed.

(** [Split] undoes [Join] when no element holds the separator. *)
Lemma splitGo_Join (c : ascii) (elems : list string) (first cur : string) :
  Forall (fun piece => GoStrings.Contains piece (String c "") = false)
    (first :: elems) ->
  GoStrings.splitGo (String c "") (GoStrings.Join (first :: elems) (String c "")) 0 cur
  = (cur +:+ first) :: elems.
Proof.
  revert first cur. induction elems as [|second elems IH]; intros first cur H.
  - cbn [GoStrings.Join]. apply splitGo_whole.
    inversion H; subst; assumption.
  - inversion H as [|? ? Hfirst Hrest]; subst.
    change (GoStrings.Join (first :: second :: elems) (String c ""))
      with (first +:+ String c "" +:+ GoStrings.Join (second :: elems) (String c "")).
    rewrite splitGo_free by exact Hfirst.
    rewrite append_cons. change ("" +:+ GoStrings.Join (second :: elems) (String c ""))
      with (GoStrings.Join (second :: elems) (String c "")).
    rewrite splitGo_sep. rewrite IH by exact Hrest. reflexivity.
Qed.

Lemma ToUpper_empty (s : string) : GoStrings.ToUpper s = "" <-> s = "".
Proof. destruct s; cbn; split; intros H; congruence. Qed.

(** A trimmed string that is not empty begins with a byte that is not a
    space. *)
Lemma trimLeft_head (s : string) :
  match GoStrings.trimLeft s with
  | EmptyString => True
  | String c _ => GoStrings.isSpace c = false
  end.
Proof.
  induction s as [|c s IH]; cbn; [exact I|].
  destruct (GoStrings.isSpace c) eqn:Hc; [exact IH|exact Hc].
Qed.

Lemma trimRight_head (c : ascii) (s : string) :
  GoStrings.isSpace c = false ->
  exists t, GoStrings.trimRight (String c s) = String c t.
Proof.
  intros Hc. cbn [GoStrings.trimRight].
  destruct (GoStrings.trimRight s); [rewrite Hc|]; eexists; reflexivity.
Qed.

Lemma TrimSpace_head (s : string) :
  match GoStrings.TrimSpace s with
  | EmptyString => True
  | String c _ => GoStrings.isSpace c = false
  end.
Proof.
  unfold GoStrings.TrimSpace. pose proof (trimLeft_head s) as H.
  destruct (GoStrings.trimLeft s) as [|c t]; [exact I|].
  destruct (trimRight_head c t H) as [t' ->]. exact H.
Qed.

(** The name before a separator found past the first byte of a trimmed
    string is not empty. *)
Lemma name_before_separator (s sep : string) :
  0 < GoStrings.Index (GoStrings.TrimSpace s) sep ->
  GoStrings.TrimSpace
    (GoStrings.sliceTo (GoStrings.TrimSpace s)
       (GoStrings.Index (GoStrings.TrimSpace s) sep)) <> "".
Proof.
  intros Hi. pose proof (TrimSpace_head s) as H.
  destruct (GoStrings.TrimSpace s) as [|c t].
  - unfold GoStrings.Index, GoStrings.indexGo in Hi.
    destruct (String.prefix sep ""); lia.
  - unfold GoStrings.sliceTo.
    destruct (Z.to_nat (GoStrings.Index (String c t) sep)) as [|n] eqn:Hn; [lia|].
    cbn [substring]. unfold GoStrings.TrimSpace. cbn [GoStrings.trimLeft].
    rewrite H. destruct (trimRight_head c (substring 0 n t) H) as [t' ->].
    discriminate.
Qed.

End StringFacts.

(** ** The parsers, continued *)

Module IntakeFacts.
Import Models.

(** *** The arguments of a curl command *)

Lemma argStep_args (st : CurlParser.ArgState) (char : ascii) :
  Forall (fun arg => arg <> "") (CurlParser.args st) ->
  Forall (fun arg => arg <> "") (CurlParser.args (CurlParser.argStep st char)).
Proof.
  intros H. unfold CurlParser.argStep.
  repeat (match goal with
          | |- context [if ?b then _ else _] => destruct b eqn:?
          end; cbn [CurlParser.args]; try exact H).
  apply Forall_app. split; [exact H|]. constructor; [|constructor].
  intros Hempty. rewrite Hempty in *. discriminate.
Qed.

Lemma argLoop_args (command : string) (st : CurlParser.ArgState) :
  Forall (fun arg => arg <> "") (CurlParser.args st) ->
  Forall (fun arg => arg <> "") (CurlParser.args (CurlParser.argLoop command st)).
Proof.
  revert st. induction command as [|char rest IH]; intros st H; [exact H|].
  cbn [CurlParser.argLoop]. apply IH, argStep_args, H.
Qed.

Lemma parseCurlArgs_nonempty_args (command : string) :
  Forall (fun arg => arg <> "") (CurlParser.parseCurlArgs command).
Proof.
  unfold CurlParser.parseCurlArgs.
  pose proof (argLoop_args command
                (CurlParser.mkArgState [] EmptyString false "000"%char false)
                (Forall_nil_2 _)) as H.
  destruct (0 <? GoStrings.len (CurlParser.current _)) eqn:Hlen; [|exact H].
  apply Forall_app. split; [exact H|]. constructor; [|constructor].
  intros Hempty. rewrite Hempty in Hlen. discriminate.
Qed.

(** X15.  [parseCurlArgs] never yields an empty argument: an argument
    that is empty after its quotes are taken off, as in [-d ''], is
    dropped, and so is the flag's value. *)
Theorem parseCurlArgs_nonempty (command : string) :
  Forall (fun arg => arg <> "") (CurlParser.parseCurlArgs command)
  /\ CurlParser.parseCurlArgs "curl -d '' https://a.test/x"
     = ["curl"; "-d"; "https://a.test/x"].
Proof. split; [apply parseCurlArgs_nonempty_args|reflexivity]. Qed.

Lemma filter_nonempty_cons (s : string) (l : list string) :
  filter (fun arg : string => arg <> "") (s :: l)
  = if 0 <? GoStrings.len s then s :: filter (fun arg : string => arg <> "") l
    else filter (fun arg : string => arg <> "") l.
Proof.
  destruct s as [|c s].
  - rewrite filter_cons_False by (intros H; apply H; reflexivity). reflexivity.
  - rewrite filter_cons_True by discriminate.
    unfold GoStrings.len. cbn [String.length].
    destruct (Z.ltb_spec 0 (Z.of_nat (S (String.length s)))); [reflexivity|lia].
Qed.

(** Outside quotes and escapes the loop cuts the command at its spaces. *)
Lemma argLoop_plain (command : string) (args : list string) (current : string)
    (quoteChar : ascii) :
  GoStrings.Contains command "\" = false ->
  GoStrings.Contains command (String "034" "") = false ->
  GoStrings.Contains command "'" = false ->
  let st :=
    CurlParser.argLoop command
      (CurlParser.mkArgState args current false quoteChar false) in
  (if 0 <? GoStrings.len (CurlParser.current st)
   then CurlParser.args st ++ [CurlParser.current st] else CurlParser.args st)
  = args ++ filter (fun arg : string => arg <> "")
              (GoStrings.splitGo " " command 0 current).
Proof.
  revert args current. induction command as [|char rest IH];
    intros args current Hb Hd Hs.
  - cbn [CurlParser.argLoop GoStrings.splitGo CurlParser.current CurlParser.args].
    rewrite filter_nonempty_cons, filter_nil.
    destruct (0 <? GoStrings.len current); [reflexivity|].
    rewrite app_nil_r. reflexivity.
  - rewrite StringFacts.Contains_single_cons in Hb, Hd, Hs.
    apply orb_false_iff in Hb as [Hb1 Hb], Hd as [Hd1 Hd], Hs as [Hs1 Hs].
    apply bool_decide_eq_false in Hb1, Hd1, Hs1.
    cbn [CurlParser.argLoop]. unfold CurlParser.argStep.
    cbn [CurlParser.escaped CurlParser.inQuotes CurlParser.args
         CurlParser.current CurlParser.quoteChar negb andb].
    rewrite (bool_decide_eq_false_2 (char = "\"%char)) by congruence.
    rewrite (bool_decide_eq_false_2 (char = "034"%char)) by congruence.
    rewrite (bool_decide_eq_false_2 (char = "'"%char)) by congruence.
    cbn [orb GoStrings.splitGo]. rewrite StringFacts.prefix_single.
    case_bool_decide as Hspace.
    + subst char. rewrite bool_decide_eq_true_2 by reflexivity.
      cbn [Nat.pred String.length]. rewrite filter_nonempty_cons.
      destruct (0 <? GoStrings.len current) eqn:Hlen.
      * cbv zeta in IH. rewrite IH by assumption.
        rewrite <- app_assoc. reflexivity.
      * assert (current = "") as ->.
        { destruct current; [reflexivity|].
          unfold GoStrings.len in Hlen. cbn [String.length] in Hlen.
          apply Z.ltb_ge in Hlen. lia. }
        cbv zeta in IH. apply IH; assumption.
    + rewrite bool_decide_eq_false_2 by congruence.
      cbv zeta in IH. apply IH; assumption.
Qed.

(** X16.  For a command without a backslash and without quotes,
    [parseCurlArgs] gives the pieces between the spaces that are not
    empty, in their order.  The command is well-formed UTF-8, so that the
    runes that the loop of the source visits and writes are the bytes of
    the command. *)
Theorem parseCurlArgs_plain (command : string) :
  UTF8.ValidString command = true ->
  GoStrings.Contains command "\" = false ->
  GoStrings.Contains command (String "034" "") = false ->
  GoStrings.Contains command "'" = false ->
  CurlParser.parseCurlArgs command
  = filter (fun arg : string => arg <> "") (GoStrings.Split command " ").
Proof.
  intros _ Hb Hd Hs. unfold CurlParser.parseCurlArgs, GoStrings.Split.
  pose proof (argLoop_plain command [] "" "000"%char Hb Hd Hs) as H.
  cbv zeta in H. exact H.
Qed.

Lemma parseCurlArgs_plain_witness :
  CurlParser.parseCurlArgs "curl  -X POST -d café https://a.test/x"
  = filter (fun arg : string => arg <> "")
      (GoStrings.Split "curl  -X POST -d café https://a.test/x" " ").
Proof.
  apply (parseCurlArgs_plain "curl  -X POST -d café https://a.test/x");
    reflexivity.
Defined.

(** *** What a parsed curl command holds *)

Lemma at_elem (l : list string) (i : Z) :
  0 <= i -> i < Z.of_nat (length l) -> CurlParser.at_ l i ∈ l.
Proof.
  intros Hlo Hhi. unfold CurlParser.at_. apply list_elem_of_In, nth_In. lia.
Qed.

Lemma extractMethodLoop_cases (all : list string) (i : Z) (rest : list string) :
  0 <= i ->
  CurlParser.extractMethodLoop all i rest = "GET"
  \/ exists arg, arg ∈ all
                 /\ CurlParser.extractMethodLoop all i rest = GoStrings.ToUpper arg.
Proof.
  revert i. induction rest as [|arg rest IH]; intros i Hi; [left; reflexivity|].
  cbn [CurlParser.extractMethodLoop].
  destruct (_ && (i + 1 <? Z.of_nat (length all))) eqn:Hflag.
  - right. exists (CurlParser.at_ all (i + 1)). split; [|reflexivity].
    apply andb_true_iff in Hflag as [_ Hlt]. apply Z.ltb_lt in Hlt.
    apply at_elem; lia.
  - apply IH. lia.
Qed.

Lemma extractMethodLoop_default (all : list string) (i : Z) (rest : list string) :
  (forall arg, arg ∈ rest -> arg <> "-X" /\ arg <> "--request") ->
  CurlParser.extractMethodLoop all i rest = "GET".
Proof.
  revert i. induction rest as [|arg rest IH]; intros i H; [reflexivity|].
  cbn [CurlParser.extractMethodLoop].
  destruct (H arg (list_elem_of_here _ _)) as [HX Hrequest].
  rewrite (bool_decide_eq_false_2 (arg = "-X")) by exact HX.
  rewrite (bool_decide_eq_false_2 (arg = "--request")) by exact Hrequest.
  cbn [orb andb]. apply IH. intros a Ha. apply H, list_elem_of_further, Ha.
Qed.

(** What a successful [Parse] of a curl command returns, field by
    field. *)
Lemma curl_Parse_inl
    (urlQuery : string -> gmap string (list string) + string)
    (curlCommand : string) (req : ParsedRequest.t) :
  CurlParser.Parse urlQuery curlCommand = inl req ->
  ParsedRequest.URL req
  = CurlParser.extractURL
      (CurlParser.parseCurlArgs (CurlParser.cleanCurlCommand curlCommand))
  /\ ParsedRequest.URL req <> ""
  /\ ParsedRequest.Method req
     = CurlParser.extractMethod
         (CurlParser.parseCurlArgs (CurlParser.cleanCurlCommand curlCommand))
  /\ ParsedRequest.Headers req
     = CurlParser.extractHeaders
         (CurlParser.parseCurlArgs (CurlParser.cleanCurlCommand curlCommand))
  /\ ParsedRequest.Cookies req
     = CurlParser.extractCookies
         (CurlParser.parseCurlArgs (CurlParser.cleanCurlCommand curlCommand))
  /\ ParsedRequest.Body req
     = CurlParser.extractBody
         (CurlParser.parseCurlArgs (CurlParser.cleanCurlCommand curlCommand)).
Proof.
  unfold CurlParser.Parse. case_bool_decide; [discriminate|].
  case_bool_decide as Hurl; [discriminate|].
  destruct (CurlParser.parseQueryParams urlQuery _); [|discriminate].
  intros Hreq. injection Hreq as <-. cbn. repeat split. exact Hurl.
Qed.

Lemma curl_URL_argument (args : list string) :
  CurlParser.extractURL args <> "" ->
  CurlParser.extractURL args ∈ args
  /\ CurlParser.extractURL args <> "curl"
  /\ GoStrings.HasPrefix (CurlParser.extractURL args) "-" = false.
Proof.
  rewrite ParserFacts.extractURL_first.
  destruct (filter _ args) as [|u us] eqn:Hfilter; [intros H; contradiction|].
  intros _. cbn [hd].
  assert (u ∈ filter (fun arg => arg <> "curl" /\ GoStrings.HasPrefix arg "-" = false) args)
    as Hin by (rewrite Hfilter; apply list_elem_of_here).
  apply list_elem_of_filter in Hin as [[Hcurl Hdash] Hin]. auto.
Qed.

Lemma curl_Method_nonempty (args : list string) :
  Forall (fun arg => arg <> "") args -> CurlParser.extractMethod args <> "".
Proof.
  intros Hargs. unfold CurlParser.extractMethod.
  destruct (extractMethodLoop_cases args 0 args ltac:(lia)) as [->|(arg & Hin & ->)];
    [discriminate|].
  rewrite StringFacts.ToUpper_empty.
  rewrite Forall_forall in Hargs. apply Hargs, Hin.
Qed.

(** X17.  In the request that the curl parser returns, the URL is an
    argument of the command that is not [curl] and does not begin with a
    dash, the method is not empty, and the method is [GET] whenever no
    argument is [-X] or [--request], also when the command carries data. *)
Theorem curl_Parse_fields
    (urlQuery : string -> gmap string (list string) + string)
    (curlCommand : string) (req : ParsedRequest.t) :
  CurlParser.Parse urlQuery curlCommand = inl req ->
  ParsedRequest.URL req
    ∈ CurlParser.parseCurlArgs (CurlParser.cleanCurlCommand curlCommand)
  /\ ParsedRequest.URL req <> ""
  /\ ParsedRequest.URL req <> "curl"
  /\ GoStrings.HasPrefix (ParsedRequest.URL req) "-" = false
  /\ ParsedRequest.Method req <> ""
  /\ ((forall arg,
         arg ∈ CurlParser.parseCurlArgs (CurlParser.cleanCurlCommand curlCommand) ->
         arg <> "-X" /\ arg <> "--request") ->
      ParsedRequest.Method req = "GET"
      /\ ParsedRequest.Body req
         = CurlParser.extractBody
             (CurlParser.parseCurlArgs (CurlParser.cleanCurlCommand curlCommand))).
Proof.
  intros H. apply curl_Parse_inl in H as (Hurl & Hne & Hmethod & _ & _ & Hbody).
  rewrite Hurl in Hne. destruct (curl_URL_argument _ Hne) as (Hin & Hcurl & Hdash).
  rewrite <- Hurl in Hin, Hcurl, Hdash, Hne.
  split; [exact Hin|]. split; [exact Hne|]. split; [exact Hcurl|].
  split; [exact Hdash|]. split.
  - rewrite Hmethod. apply curl_Method_nonempty, parseCurlArgs_nonempty_args.
  - intros Hflags. split; [|exact Hbody].
    rewrite Hmethod. apply extractMethodLoop_default, Hflags.
Qed.

Lemma curl_Parse_fields_witness :
  exists req,
    CurlParser.Parse Samples.noQuery "curl -d a=1 https://a.test/x" = inl req
    /\ ParsedRequest.Method req = "GET"
    /\ ParsedRequest.Body req = "a=1".
Proof.
  eexists. split; [vm_compute; reflexivity|].
  apply (curl_Parse_fields Samples.noQuery "curl -d a=1 https://a.test/x");
    [vm_compute; reflexivity|].
  intros arg Harg. vm_compute in Harg.
  repeat (apply elem_of_cons in Harg as [->|Harg]; [split; discriminate|]).
  apply elem_of_nil in Harg. destruct Harg.
Defined.

(** *** What a parsed raw request holds *)

Lemma Fields_nonempty (s : string) :
  Forall (fun word => word <> "") (GoStrings.Fields s).
Proof.
  induction s as [|c s IH]; [constructor|].
  cbn [GoStrings.Fields]. destruct (GoStrings.isSpace c); [exact IH|].
  destruct s as [|c' s']; [repeat constructor; discriminate|].
  destruct (GoStrings.isSpace c').
  - constructor; [discriminate|exact IH].
  - destruct (GoStrings.Fields (String c' s')) as [|w ws].
    + repeat constructor. discriminate.
    + inversion IH; subst. constructor; [discriminate|assumption].
Qed.

Lemma parseRequestLine_inl (line method url : string) :
  RawParser.parseRequestLine line = inl (method, url) ->
  method ∈ RawParser.validMethods /\ url <> "".
Proof.
  unfold RawParser.parseRequestLine.
  pose proof (Fields_nonempty line) as Hwords.
  destruct (GoStrings.Fields line) as [|first [|second rest]];
    [discriminate|discriminate|].
  destruct (Z.ltb_spec (Z.of_nat (length (first :: second :: rest))) 2) as [Hlen|_];
    [cbn [length] in Hlen; lia|].
  destruct (existsb _ RawParser.validMethods) eqn:Hvalid; [|discriminate].
  intros H. injection H as <- <-. split.
  - apply existsb_exists in Hvalid as (validMethod & Hin & Heq).
    apply bool_decide_eq_true in Heq. rewrite Heq. apply list_elem_of_In, Hin.
  - inversion Hwords as [|? ? _ Hrest]; subst.
    inversion Hrest; subst. assumption.
Qed.

Lemma validMethods_nonempty (method : string) :
  method ∈ RawParser.validMethods -> method <> "".
Proof.
  unfold RawParser.validMethods. intros H.
  repeat (apply elem_of_cons in H as [->|H]; [discriminate|]).
  apply elem_of_nil in H. destruct H.
Qed.

Lemma cookiePairs_names (pieces : list string) (cookies : gmap string string) :
  cookies !! "" = None -> CurlParser.cookiePairs pieces cookies !! "" = None.
Proof.
  revert cookies. induction pieces as [|piece rest IH]; intros cookies H;
    [exact H|].
  cbn [CurlParser.cookiePairs].
  destruct (Z.ltb_spec 0 (GoStrings.Index (GoStrings.TrimSpace piece) "="))
    as [Hi|_]; [|apply IH, H].
  apply IH. rewrite lookup_insert_ne; [exact H|].
  apply StringFacts.name_before_separator, Hi.
Qed.

Lemma headerLoop_names (i : Z) (rest : list string)
    (headers cookies : gmap string string) :
  headers !! "" = None -> cookies !! "" = None ->
  (RawParser.headerLoop i rest headers cookies).1.1 !! "" = None
  /\ (RawParser.headerLoop i rest headers cookies).1.2 !! "" = None.
Proof.
  revert i headers cookies.
  induction rest as [|l rest IH]; intros i headers cookies Hh Hc;
    [split; assumption|].
  cbn [RawParser.headerLoop]. case_bool_decide; [split; assumption|].
  destruct (Z.ltb_spec 0 (GoStrings.Index (GoStrings.TrimSpace l) ":"))
    as [Hi|_]; [|apply IH; assumption].
  apply IH.
  - rewrite lookup_insert_ne; [exact Hh|].
    apply StringFacts.name_before_separator, Hi.
  - case_bool_decide; [|exact Hc].
    apply lookup_union_None. split; [|exact Hc].
    apply cookiePairs_names, lookup_empty.
Qed.

(** What a successful [Parse] of a raw request returns. *)
Lemma raw_Parse_inl
    (urlQuery : string -> gmap string (list string) + string)
    (rawRequest : string) (req : ParsedRequest.t) :
  RawParser.Parse urlQuery rawRequest = inl req ->
  exists (line : string) (others : list string),
    RawParser.parseRequestLine line
    = inl (ParsedRequest.Method req, ParsedRequest.URL req)
    /\ ParsedRequest.Headers req = (RawParser.headerLoop 1 others ∅ ∅).1.1
    /\ ParsedRequest.Cookies req = (RawParser.headerLoop 1 others ∅ ∅).1.2.
Proof.
  unfold RawParser.Parse. case_bool_decide; [discriminate|].
  destruct (GoStrings.Split _ GoStrings.LF) as [|first others]; [discriminate|].
  destruct (RawParser.parseRequestLine (GoStrings.TrimSpace first))
    as [[method requestURL]|err] eqn:Hline; [|discriminate].
  destruct (RawParser.headerLoop 1 others ∅ ∅) as [[headers cookies] start]
    eqn:Hloop.
  destruct (CurlParser.parseQueryParams urlQuery requestURL); [|discriminate].
  intros Hreq. injection Hreq as <-.
  exists (GoStrings.TrimSpace first), others. cbn. rewrite Hloop. auto.
Qed.

(** X18.  A request that the raw parser returns has a method among the
    seven that it knows, a URL that is not empty, and no header and no
    cookie with an empty name. *)
Theorem raw_Parse_fields
    (urlQuery : string -> gmap string (list string) + string)
    (rawRequest : string) (req : ParsedRequest.t) :
  RawParser.Parse urlQuery rawRequest = inl req ->
  ParsedRequest.Method req ∈ RawParser.validMethods
  /\ ParsedRequest.URL req <> ""
  /\ ParsedRequest.Headers req !! "" = None
  /\ ParsedRequest.Cookies req !! "" = None.
Proof.
  intros H. apply raw_Parse_inl in H as (line & others & Hline & -> & ->).
  apply parseRequestLine_inl in Hline as [Hmethod Hurl].
  split; [exact Hmethod|]. split; [exact Hurl|].
  apply headerLoop_names; apply lookup_empty.
Qed.

Lemma raw_Parse_fields_witness :
  exists req,
    RawParser.Parse Samples.noQuery
      ("get /x HTTP/1.1" +:+ GoStrings.LF +:+ " : v" +:+ GoStrings.LF
       +:+ "Cookie: =1; s=2")
    = inl req
    /\ ParsedRequest.Method req ∈ RawParser.validMethods
    /\ ParsedRequest.Headers req !! "" = None
    /\ ParsedRequest.Cookies req !! "" = None.
Proof.
  eexists. split; [vm_compute; reflexivity|].
  destruct (raw_Parse_fields Samples.noQuery
              ("get /x HTTP/1.1" +:+ GoStrings.LF +:+ " : v" +:+ GoStrings.LF
               +:+ "Cookie: =1; s=2") _ ltac:(vm_compute; reflexivity))
    as (Hm & _ & Hh & Hc).
  split; [exact Hm|]. split; [exact Hh|exact Hc].
Defined.

(** The curl parser, for its part, takes the name of a header from the
    argument as it is, and records a header with an empty name. *)
Example curl_header_empty_name :
  exists req,
    CurlParser.Parse Samples.noQuery "curl -H ' : v' https://a.test/x" = inl req
    /\ ParsedRequest.Headers req !! "" = Some "v".
Proof. eexists. split; vm_compute; reflexivity. Qed.

(** *** The parser of the service *)

Lemma ValidateRequest_cases (req : ParsedRequest.t) :
  ParsedRequest.Method req <> "" -> ParsedRequest.URL req <> "" ->
  RequestChecks.ValidateRequest (Some req)
  = if negb (GoStrings.HasPrefix (ParsedRequest.URL req) "http://")
       && negb (GoStrings.HasPrefix (ParsedRequest.URL req) "https://")
    then Some RequestChecks.SchemeMissing
    else if bool_decide (ParsedRequest.Method req ∈ RawParser.validMethods)
    then None
    else Some (RequestChecks.UnsupportedMethod (ParsedRequest.Method req)).
Proof.
  intros Hm Hu. unfold RequestChecks.ValidateRequest.
  rewrite (bool_decide_eq_false_2 _ Hm), (bool_decide_eq_false_2 _ Hu).
  destruct (_ && _); [reflexivity|].
  destruct (existsb _ RawParser.validMethods) eqn:Hvalid.
  - rewrite bool_decide_eq_true_2; [reflexivity|].
    apply existsb_exists in Hvalid as (validMethod & Hin & Heq).
    apply bool_decide_eq_true in Heq. rewrite Heq. apply list_elem_of_In, Hin.
  - rewrite bool_decide_eq_false_2; [reflexivity|].
    intros Hin. apply list_elem_of_In in Hin.
    assert (existsb (fun method => bool_decide (ParsedRequest.Method req = method))
              RawParser.validMethods = true) as Habs.
    { apply existsb_exists. eexists. split; [exact Hin|].
      apply bool_decide_eq_true. reflexivity. }
    congruence.
Qed.

Lemma unified_Parse_inl
    (urlQuery : string -> gmap string (list string) + string)
    (input : string) (req : ParsedRequest.t) :
  UnifiedParser.Parse urlQuery input = inl req ->
  (UnifiedParser.DetectInputType input = "curl"
   /\ CurlParser.Parse urlQuery input = inl req)
  \/ (UnifiedParser.DetectInputType input = "raw"
      /\ RawParser.Parse urlQuery input = inl req).
Proof.
  unfold UnifiedParser.Parse. case_bool_decide; [discriminate|].
  case_bool_decide as Hcurl.
  - unfold UnifiedParser.viaCurl.
    destruct (CurlParser.Parse urlQuery input) eqn:Hp; [|discriminate].
    intros Hreq. injection Hreq as <-. left. auto.
  - case_bool_decide as Hraw; [|discriminate].
    unfold UnifiedParser.viaRaw.
    destruct (RawParser.Parse urlQuery input) eqn:Hp; [|discriminate].
    intros Hreq. injection Hreq as <-. right. auto.
Qed.

(** X19.  [ParseRequest] of the service returns a request exactly when
    the parser returns it, its URL begins with [http://] or [https://] and
    its method is one of the seven.  After the parser the validation
    cannot find an empty method or an empty URL; for an input taken as a
    raw request it can only miss the scheme, so a raw request whose
    request line has a path for target is always rejected. *)
Theorem ParseRequest_outcomes
    (urlQuery : string -> gmap string (list string) + string)
    (input : string) :
  (forall req,
      Service.ParseRequest urlQuery input = inl req <->
      UnifiedParser.Parse urlQuery input = inl req
      /\ (GoStrings.HasPrefix (ParsedRequest.URL req) "http://" = true
          \/ GoStrings.HasPrefix (ParsedRequest.URL req) "https://" = true)
      /\ ParsedRequest.Method req ∈ RawParser.validMethods)
  /\ (forall err,
        Service.ParseRequest urlQuery input
        = inr (Service.InvalidRequest err) ->
        err = RequestChecks.SchemeMissing
        \/ (UnifiedParser.DetectInputType input = "curl"
            /\ exists method, err = RequestChecks.UnsupportedMethod method)).
Proof.
  assert (Hparsed : forall req,
             UnifiedParser.Parse urlQuery input = inl req ->
             ParsedRequest.Method req <> "" /\ ParsedRequest.URL req <> ""
             /\ (UnifiedParser.DetectInputType input = "raw" ->
                 ParsedRequest.Method req ∈ RawParser.validMethods)).
  { intros req Hp.
    destruct (unified_Parse_inl _ _ _ Hp) as [[Hkind Hc]|[Hkind Hr]].
    - apply curl_Parse_inl in Hc as (_ & Hurl & Hmethod & _).
      split; [|split; [exact Hurl|]].
      + rewrite Hmethod. apply curl_Method_nonempty, parseCurlArgs_nonempty_args.
      + rewrite Hkind. discriminate.
    - apply raw_Parse_inl in Hr as (line & others & Hline & _).
      apply parseRequestLine_inl in Hline as [Hmethod Hurl].
      split; [apply validMethods_nonempty, Hmethod|]. split; [exact Hurl|].
      intros _. exact Hmethod. }
  unfold Service.ParseRequest. split.
  - intros req. destruct (UnifiedParser.Parse urlQuery input) as [request|err] eqn:Hp.
    + destruct (Hparsed request eq_refl) as (Hm & Hu & _).
      rewrite (ValidateRequest_cases request Hm Hu).
      destruct (GoStrings.HasPrefix (ParsedRequest.URL request) "http://") eqn:Hhttp;
        destruct (GoStrings.HasPrefix (ParsedRequest.URL request) "https://") eqn:Hhttps;
        cbn [negb andb]; try case_bool_decide as Hvalid;
        (split; [intros Hreq; try discriminate; injection Hreq as <-; auto
                |intros (Hreq & Hscheme & Hmethod); injection Hreq as <-;
                 try contradiction; try reflexivity]).
      destruct Hscheme; congruence.
    + split; [discriminate|]. intros (Hreq & _). discriminate.
  - intros err. destruct (UnifiedParser.Parse urlQuery input) as [request|perr] eqn:Hp;
      [|discriminate].
    destruct (Hparsed request eq_refl) as (Hm & Hu & Hraw).
    rewrite (ValidateRequest_cases request Hm Hu).
    destruct (_ && _).
    + intros Hreq. injection Hreq as <-. left. reflexivity.
    + case_bool_decide as Hvalid; [discriminate|].
      intros Hreq. injection Hreq as <-. right.
      destruct (unified_Parse_inl _ _ _ Hp) as [[Hkind _]|[Hkind _]].
      * split; [exact Hkind|]. eexists. reflexivity.
      * exfalso. apply Hvalid, Hraw, Hkind.
Qed.

Lemma ParseRequest_outcomes_witness :
  RequestChecks.SchemeMissing = RequestChecks.SchemeMissing
  \/ (UnifiedParser.DetectInputType "GET /x HTTP/1.1" = "curl"
      /\ exists method,
          RequestChecks.SchemeMissing = RequestChecks.UnsupportedMethod method).
Proof.
  apply (ParseRequest_outcomes Samples.noQuery "GET /x HTTP/1.1").
  vm_compute. reflexivity.
Defined.

(** *** The URL and its parameters *)

Lemma at_first (a : string) (l : list string) : CurlParser.at_ (a :: l) 0 = a.
Proof. reflexivity. Qed.

Lemma at_second (a b : string) (l : list string) :
  CurlParser.at_ (a :: b :: l) 1 = b.
Proof. reflexivity. Qed.

Lemma Split_single_free (c : ascii) (s : string) :
  GoStrings.Contains s (String c "") = false ->
  GoStrings.Split s (String c "") = [s].
Proof. intros H. unfold GoStrings.Split. rewrite StringFacts.splitGo_whole; auto. Qed.

Lemma Split_single_two (c : ascii) (s t : string) :
  GoStrings.Contains s (String c "") = false ->
  GoStrings.Contains t (String c "") = false ->
  GoStrings.Split (s +:+ String c "" +:+ t) (String c "") = [s; t].
Proof.
  intros Hs Ht. unfold GoStrings.Split.
  rewrite StringFacts.splitGo_free by exact Hs.
  rewrite StringFacts.append_cons, StringFacts.splitGo_sep.
  change ("" +:+ t) with t. rewrite StringFacts.splitGo_whole by exact Ht.
  reflexivity.
Qed.

Lemma Join_free (c : ascii) (elems : list string) (sep : string) :
  GoStrings.Contains sep (String c "") = false ->
  Forall (fun piece => GoStrings.Contains piece (String c "") = false) elems ->
  GoStrings.Contains (GoStrings.Join elems sep) (String c "") = false.
Proof.
  intros Hsep H. induction H as [|first rest Hfirst Hrest IH]; [reflexivity|].
  destruct rest as [|second rest]; [exact Hfirst|].
  change (GoStrings.Join (first :: second :: rest) sep)
    with (first +:+ sep +:+ GoStrings.Join (second :: rest) sep).
  rewrite !StringFacts.Contains_single_app, Hfirst, Hsep, IH. reflexivity.
Qed.

Lemma paramPairs_pairs (pairs : list (string * string))
    (queryParams : gmap string string) :
  Forall (fun kv => GoStrings.Contains kv.1 "=" = false
                    /\ GoStrings.Contains kv.2 "=" = false) pairs ->
  RequestChecks.paramPairs ((fun kv => kv.1 +:+ "=" +:+ kv.2) <$> pairs) queryParams
  = foldl (fun params kv => <[kv.1 := kv.2]> params) queryParams pairs.
Proof.
  intros H. revert queryParams.
  induction H as [|[k v] rest [Hk Hv] _ IH]; intros queryParams; [reflexivity|].
  cbn [fmap list_fmap RequestChecks.paramPairs foldl fst snd].
  cbn [fst snd] in Hk, Hv. rewrite (Split_single_two "=" k v Hk Hv). apply IH.
Qed.

(** X20.  [parseURLAndParams] on a URL without a question mark gives the
    URL and no parameter; on a base without a question mark followed by
    [?] and by pairs [key=value] joined with [&], where no key and no
    value holds one of [?], [&], [=], it gives the base and the pairs, a
    later pair winning over an earlier one with the same key. *)
Theorem parseURLAndParams_round_trip (base : string)
    (pairs : list (string * string)) :
  GoStrings.Contains base "?" = false ->
  Forall (fun kv =>
            (GoStrings.Contains kv.1 "?" = false /\ GoStrings.Contains kv.2 "?" = false)
            /\ (GoStrings.Contains kv.1 "&" = false /\ GoStrings.Contains kv.2 "&" = false)
            /\ (GoStrings.Contains kv.1 "=" = false /\ GoStrings.Contains kv.2 "=" = false))
    pairs ->
  RequestChecks.parseURLAndParams base = (base, ∅)
  /\ RequestChecks.parseURLAndParams
       (base +:+ "?"
        +:+ GoStrings.Join ((fun kv => kv.1 +:+ "=" +:+ kv.2) <$> pairs) "&")
     = (base, foldl (fun params kv => <[kv.1 := kv.2]> params) ∅ pairs).
Proof.
  intros Hbase Hpairs. split.
  - unfold RequestChecks.parseURLAndParams.
    rewrite (Split_single_free "?" base Hbase). reflexivity.
  - unfold RequestChecks.parseURLAndParams.
    assert (Hpieces : forall c : ascii,
               GoStrings.Contains "=" (String c "") = false ->
               Forall (fun kv : string * string =>
                         GoStrings.Contains kv.1 (String c "") = false
                         /\ GoStrings.Contains kv.2 (String c "") = false) pairs ->
               Forall (fun piece => GoStrings.Contains piece (String c "") = false)
                 ((fun kv => kv.1 +:+ "=" +:+ kv.2) <$> pairs)).
    { intros c Hc H. apply Forall_fmap. eapply Forall_impl; [exact H|].
      intros [k v] [Hk Hv]. unfold compose. cbn [fst snd] in *.
      rewrite !StringFacts.Contains_single_app, Hk, Hv, Hc. reflexivity. }
    rewrite (Split_single_two "?" base _ Hbase).
    2:{ apply Join_free; [reflexivity|]. apply Hpieces; [reflexivity|].
        eapply Forall_impl; [exact Hpairs|]. intros kv (H & _). exact H. }
    rewrite at_first, at_second. cbn [length].
    change (1 <? Z.of_nat 2) with true. cbv iota.
    f_equal.
    destruct pairs as [|kv rest]; [reflexivity|].
    unfold GoStrings.Split. cbn [fmap list_fmap].
    rewrite StringFacts.splitGo_Join.
    2:{ apply (Hpieces "&"%char eq_refl).
        eapply Forall_impl; [exact Hpairs|]. intros ? (_ & H & _). exact H. }
    change ("" +:+ (kv.1 +:+ "=" +:+ kv.2)) with (kv.1 +:+ "=" +:+ kv.2).
    apply (paramPairs_pairs (kv :: rest)).
    eapply Forall_impl; [exact Hpairs|]. intros ? (_ & _ & H). exact H.
Qed.

Lemma parseURLAndParams_round_trip_witness :
  RequestChecks.parseURLAndParams "https://a.test/x?y=1&z=2"
  = ("https://a.test/x", <["z" := "2"]> (<["y" := "1"]> ∅)).
Proof.
  apply (parseURLAndParams_round_trip "https://a.test/x" [("y", "1"); ("z", "2")]);
    [reflexivity|].
  repeat constructor.
Defined.

Lemma splitGo_not_nil (sep s : string) (skip : nat) (cur : string) :
  GoStrings.splitGo sep s skip cur <> [].
Proof.
  revert skip cur. induction s as [|b s IH]; intros skip cur; [discriminate|].
  cbn [GoStrings.splitGo]. destruct skip; [|apply IH].
  destruct (String.prefix _ _); [discriminate|apply IH].
Qed.

Lemma splitGo_two (c : ascii) (s cur : string) :
  GoStrings.Contains s (String c "") = true ->
  exists first second rest,
    GoStrings.splitGo (String c "") s 0 cur = first :: second :: rest.
Proof.
  revert cur. induction s as [|a s IH]; intros cur H; [discriminate|].
  cbn [GoStrings.splitGo]. rewrite StringFacts.prefix_single.
  rewrite StringFacts.Contains_single_cons in H. case_bool_decide as Ha.
  - cbn [Nat.pred String.length].
    destruct (GoStrings.splitGo (String c "") s 0 "") as [|x xs] eqn:Hx;
      [|eauto].
    exfalso. exact (splitGo_not_nil _ _ _ _ Hx).
  - apply IH. exact H.
Qed.

(** X21.  [parseURLAndParams] keeps a piece of the query only when it
    has exactly one [=]: a parameter whose value holds an [=], as the
    padding of a base64 value does, is dropped. *)
Theorem parseURLAndParams_drops (base key value : string) :
  GoStrings.Contains base "?" = false ->
  GoStrings.Contains key "?" = false -> GoStrings.Contains value "?" = false ->
  GoStrings.Contains key "&" = false -> GoStrings.Contains value "&" = false ->
  GoStrings.Contains key "=" = false -> GoStrings.Contains value "=" = true ->
  RequestChecks.parseURLAndParams (base +:+ "?" +:+ key +:+ "=" +:+ value)
  = (base, ∅).
Proof.
  intros Hbase Hkq Hvq Hka Hva Hke Hve. unfold RequestChecks.parseURLAndParams.
  rewrite (Split_single_two "?" base (key +:+ "=" +:+ value) Hbase)
    by (rewrite !StringFacts.Contains_single_app, Hkq, Hvq; reflexivity).
  rewrite at_first, at_second. cbn [length].
  change (1 <? Z.of_nat 2) with true. cbv iota. f_equal.
  rewrite (Split_single_free "&" (key +:+ "=" +:+ value))
    by (rewrite !StringFacts.Contains_single_app, Hka, Hva; reflexivity).
  cbn [RequestChecks.paramPairs]. unfold GoStrings.Split.
  rewrite StringFacts.splitGo_free by exact Hke.
  rewrite StringFacts.append_cons, StringFacts.splitGo_sep.
  change ("" +:+ value) with value.
  destruct (splitGo_two "=" value "" Hve) as (first & second & rest & ->).
  reflexivity.
Qed.

Lemma parseURLAndParams_drops_witness :
  RequestChecks.parseURLAndParams "https://a.test/x?token=YQ=="
  = ("https://a.test/x", ∅).
Proof.
  apply (parseURLAndParams_drops "https://a.test/x" "token" "YQ=="); reflexivity.
Defined.

End IntakeFacts.

(** ** The expression templates *)

Module TemplateFacts.
Import TemplateManager.

Lemma find_ID_None (l : list ExpressionTemplate.t) (id : string) :
  List.find (fun template => bool_decide (ExpressionTemplate.ID template = id)) l = None
  <-> id ∉ ExpressionTemplate.ID <$> l.
Proof.
  induction l as [|t l IH]; cbn.
  - split; [intros _; apply not_elem_of_nil|reflexivity].
  - case_bool_decide as Ht.
    + split; [discriminate|]. intros Hn. exfalso. apply Hn.
      rewrite Ht. apply list_elem_of_here.
    + rewrite IH, not_elem_of_cons. split; [intros Hn; split; congruence|tauto].
Qed.

Lemma existsb_ID_false (l : list ExpressionTemplate.t) (id : string) :
  existsb (fun existing => bool_decide (ExpressionTemplate.ID existing = id)) l = false
  <-> id ∉ ExpressionTemplate.ID <$> l.
Proof.
  induction l as [|t l IH]; cbn.
  - split; [intros _; apply not_elem_of_nil|reflexivity].
  - rewrite orb_false_iff, IH, not_elem_of_cons, bool_decide_eq_false.
    split; intros [H1 H2]; split; congruence.
Qed.

Lemma find_ID_app (l : list ExpressionTemplate.t) (t : ExpressionTemplate.t) :
  ExpressionTemplate.ID t ∉ ExpressionTemplate.ID <$> l ->
  List.find
    (fun template =>
       bool_decide (ExpressionTemplate.ID template = ExpressionTemplate.ID t))
    (l ++ [t])
  = Some t.
Proof.
  induction l as [|x l IH]; intros Hn; cbn.
  - rewrite bool_decide_eq_true_2 by reflexivity. reflexivity.
  - rewrite fmap_cons, not_elem_of_cons in Hn. destruct Hn as [Hx Hn].
    rewrite bool_decide_eq_false_2 by congruence. apply IH, Hn.
Qed.

Lemma replaceFirst_ids (template : ExpressionTemplate.t)
    (l l' : list ExpressionTemplate.t) :
  replaceFirst template l = Some l' ->
  ExpressionTemplate.ID <$> l' = ExpressionTemplate.ID <$> l.
Proof.
  revert l'. induction l as [|x l IH]; intros l' H; [discriminate|].
  cbn in H. case_bool_decide as Hx.
  - injection H as <-. rewrite !fmap_cons, Hx. reflexivity.
  - destruct (replaceFirst template l) as [r|]; [|discriminate].
    injection H as <-. rewrite !fmap_cons, (IH r eq_refl). reflexivity.
Qed.

Lemma removeFirst_split (id : string) (l l' : list ExpressionTemplate.t) :
  removeFirst id l = Some l' ->
  exists before template after,
    l = before ++ template :: after /\ l' = before ++ after
    /\ ExpressionTemplate.ID template = id
    /\ id ∉ ExpressionTemplate.ID <$> before.
Proof.
  revert l'. induction l as [|x l IH]; intros l' H; [discriminate|].
  cbn in H. case_bool_decide as Hx.
  - injection H as <-. exists [], x, l. repeat split; [exact Hx|].
    apply not_elem_of_nil.
  - destruct (removeFirst id l) as [r|]; [|discriminate].
    injection H as <-.
    destruct (IH r eq_refl) as (before & t & after & -> & -> & Ht & Hn).
    exists (x :: before), t, after. repeat split; [exact Ht|].
    rewrite fmap_cons, not_elem_of_cons. split; [congruence|exact Hn].
Qed.

Lemma removeFirst_None (id : string) (l : list ExpressionTemplate.t) :
  removeFirst id l = None <-> id ∉ ExpressionTemplate.ID <$> l.
Proof.
  induction l as [|x l IH]; cbn.
  - split; [intros _; apply not_elem_of_nil|reflexivity].
  - case_bool_decide as Hx.
    + split; [discriminate|]. intros Hn. exfalso. apply Hn.
      rewrite Hx. apply list_elem_of_here.
    + rewrite not_elem_of_cons, <- IH.
      destruct (removeFirst id l); cbn; split; try discriminate; try tauto.
      * intros [_ H]; discriminate.
      * intros _. split; [congruence|reflexivity].
Qed.

Lemma existingIDs_read (l : list ExpressionTemplate.t) (ids : gmap string bool)
    (id : string) :
  Validator.readBool
    (foldl (fun ids template => <[ExpressionTemplate.ID template := true]> ids) ids l)
    id = true
  <-> id ∈ ExpressionTemplate.ID <$> l \/ Validator.readBool ids id = true.
Proof.
  revert ids. induction l as [|x l IH]; intros ids; cbn [foldl].
  - rewrite fmap_nil, elem_of_nil. tauto.
  - rewrite IH, fmap_cons, elem_of_cons. unfold Validator.readBool.
    destruct (decide (id = ExpressionTemplate.ID x)) as [->|Hne].
    + rewrite lookup_insert_eq. cbn. tauto.
    + rewrite lookup_insert_ne by congruence. tauto.
Qed.

Lemma filter_ids_NoDup (f : ExpressionTemplate.t -> bool)
    (l : list ExpressionTemplate.t) :
  NoDup (ExpressionTemplate.ID <$> l) ->
  NoDup (ExpressionTemplate.ID <$> List.filter f l).
Proof.
  induction l as [|x l IH]; intros H; [constructor|].
  rewrite fmap_cons in H. apply NoDup_cons in H as [Hx H].
  cbn. destruct (f x); [|apply IH, H].
  rewrite fmap_cons. apply NoDup_cons. split; [|apply IH, H].
  intros Hin. apply Hx. apply list_elem_of_fmap in Hin as (y & -> & Hy).
  apply list_elem_of_fmap. exists y. split; [reflexivity|].
  apply list_elem_of_In. apply list_elem_of_In in Hy.
  apply filter_In in Hy. tauto.
Qed.

Section DiskFacts.

Variable WriteFile_error : list ExpressionTemplate.t -> option string.

Lemma saveUserTemplates_templates (m : Manager) :
  templates (saveUserTemplates WriteFile_error m).1 = templates m.
Proof. reflexivity. Qed.

(** What [AddTemplate] does to the templates. *)
Lemma AddTemplate_templates (now : Z) (template : ExpressionTemplate.t)
    (m : Manager) :
  ExpressionTemplate.ID template <> "" ->
  (ExpressionTemplate.ID template ∈ (ExpressionTemplate.ID <$> templates m)
   /\ AddTemplate WriteFile_error now template m
      = (m, Some (TemplateExists (ExpressionTemplate.ID template))))
  \/ ((ExpressionTemplate.ID template ∉ ExpressionTemplate.ID <$> templates m)
      /\ AddTemplate WriteFile_error now template m
         = saveUserTemplates WriteFile_error
             (mkManager (templates m ++ [template]) (writes m))).
Proof.
  intros Hid. unfold AddTemplate.
  destruct (existsb _ (templates m)) eqn:Hex.
  - left. split; [|reflexivity].
    destruct (decide (ExpressionTemplate.ID template
                      ∈ ExpressionTemplate.ID <$> templates m)) as [Hin|Hn];
      [exact Hin|].
    apply existsb_ID_false in Hn. congruence.
  - right. apply existsb_ID_false in Hex. split; [exact Hex|].
    rewrite bool_decide_eq_false_2 by exact Hid. reflexivity.
Qed.

(** X22.  The templates keep distinct IDs: when no two templates have
    the same ID, this is still so after [AddTemplate] of a template with
    an ID of its own, after [UpdateTemplate], after [DeleteTemplate], and
    after [ImportTemplates] of a file whose templates have distinct IDs,
    whatever these calls return. *)
Theorem template_ids_distinct (m : Manager) :
  NoDup (ExpressionTemplate.ID <$> templates m) ->
  (forall now template,
      ExpressionTemplate.ID template <> "" ->
      NoDup (ExpressionTemplate.ID
               <$> templates (AddTemplate WriteFile_error now template m).1))
  /\ (forall template,
        NoDup (ExpressionTemplate.ID
                 <$> templates (UpdateTemplate WriteFile_error template m).1))
  /\ (forall id,
        NoDup (ExpressionTemplate.ID
                 <$> templates (DeleteTemplate WriteFile_error id m).1))
  /\ (forall importedTemplates,
        NoDup (ExpressionTemplate.ID <$> importedTemplates) ->
        NoDup (ExpressionTemplate.ID
                 <$> templates
                       (ImportTemplates WriteFile_error (inl importedTemplates) m).1)).
Proof.
  intros Hm. split; [|split; [|split]].
  - intros now template Hid.
    destruct (AddTemplate_templates now template m Hid) as [[_ ->]|[Hn ->]];
      [exact Hm|].
    cbn. rewrite fmap_app. apply NoDup_app. split; [exact Hm|].
    split; [|apply NoDup_singleton].
    intros id Hin Hin'. cbn in Hin'. apply list_elem_of_singleton in Hin'.
    subst id. contradiction.
  - intros template. unfold UpdateTemplate.
    destruct (replaceFirst template (templates m)) as [l|] eqn:Hl; [|exact Hm].
    cbn. rewrite (replaceFirst_ids _ _ _ Hl). exact Hm.
  - intros id. unfold DeleteTemplate.
    destruct (Validator.readBool defaultIDs id); [exact Hm|].
    destruct (removeFirst id (templates m)) as [l|] eqn:Hl; [|exact Hm].
    apply removeFirst_split in Hl as (before & t & after & Heq & -> & _ & _).
    cbn. rewrite Heq in Hm. rewrite fmap_app in *. rewrite fmap_cons in Hm.
    apply NoDup_app in Hm as (Hb & Hba & Ha). apply NoDup_cons in Ha as [_ Ha].
    apply NoDup_app. split; [exact Hb|]. split; [|exact Ha].
    intros x Hx Hx'. apply (Hba x Hx). apply list_elem_of_further, Hx'.
  - intros importedTemplates Hi. unfold ImportTemplates.
    set (added := List.filter _ importedTemplates).
    assert (NoDup (ExpressionTemplate.ID <$> (templates m ++ added))) as Hadded.
    { rewrite fmap_app. apply NoDup_app. split; [exact Hm|].
      split; [|apply filter_ids_NoDup, Hi].
      intros id Hin Hin'. apply list_elem_of_fmap in Hin' as (t & -> & Ht).
      apply list_elem_of_In, filter_In in Ht as [_ Ht].
      apply negb_true_iff in Ht.
      assert (Validator.readBool
                (foldl (fun ids template =>
                          <[ExpressionTemplate.ID template := true]> ids)
                   ∅ (templates m)) (ExpressionTemplate.ID t) = true) as Hread
        by (apply existingIDs_read; left; exact Hin).
      congruence. }
    destruct (0 <? Z.of_nat (length added)); exact Hadded.
Qed.

Lemma removeFirst_last (l : list ExpressionTemplate.t)
    (template : ExpressionTemplate.t) :
  ExpressionTemplate.ID template ∉ ExpressionTemplate.ID <$> l ->
  removeFirst (ExpressionTemplate.ID template) (l ++ [template]) = Some l.
Proof.
  induction l as [|x l IH]; intros Hn; cbn.
  - rewrite bool_decide_eq_true_2 by reflexivity. reflexivity.
  - rewrite fmap_cons, not_elem_of_cons in Hn. destruct Hn as [Hx Hn].
    rewrite bool_decide_eq_false_2 by congruence. rewrite IH by exact Hn.
    reflexivity.
Qed.

Lemma reserved_nonempty (id : string) :
  Validator.readBool defaultIDs id = true -> id <> "".
Proof. intros H ->. vm_compute in H. discriminate. Qed.

(** X23.  In memory a template with an ID of its own that no template
    has yet is there after [AddTemplate], whether or not the file could be
    written; [DeleteTemplate] of this ID then gives back the templates as
    they were, and the ID is found no more. *)
Theorem AddTemplate_DeleteTemplate (now : Z) (template : ExpressionTemplate.t)
    (m : Manager) :
  ExpressionTemplate.ID template <> "" ->
  Validator.readBool defaultIDs (ExpressionTemplate.ID template) = false ->
  ExpressionTemplate.ID template ∉ ExpressionTemplate.ID <$> templates m ->
  GetTemplateByID (AddTemplate WriteFile_error now template m).1
    (ExpressionTemplate.ID template)
  = inl template
  /\ templates
       (DeleteTemplate WriteFile_error (ExpressionTemplate.ID template)
          (AddTemplate WriteFile_error now template m).1).1
     = templates m
  /\ GetTemplateByID
       (DeleteTemplate WriteFile_error (ExpressionTemplate.ID template)
          (AddTemplate WriteFile_error now template m).1).1
       (ExpressionTemplate.ID template)
     = inr (TemplateNotFound (ExpressionTemplate.ID template)).
Proof.
  intros Hid Hreserved Hfresh.
  destruct (AddTemplate_templates now template m Hid) as [[Hin _]|[_ ->]];
    [contradiction|].
  cbn [fst saveUserTemplates]. unfold GetTemplateByID, DeleteTemplate.
  cbn [templates]. rewrite (find_ID_app _ _ Hfresh). split; [reflexivity|].
  rewrite Hreserved, (removeFirst_last _ _ Hfresh). cbn [fst saveUserTemplates templates].
  split; [reflexivity|].
  apply find_ID_None in Hfresh. rewrite Hfresh. reflexivity.
Qed.

(** X24.  A template whose ID is in the table of default IDs can be
    added and is then found in memory, but the content written to the file
    after the addition does not hold it: it is the content for the
    templates before the addition.  [DeleteTemplate] refuses such an ID
    and leaves the manager as it is. *)
Theorem reserved_template (now : Z) (template : ExpressionTemplate.t)
    (m : Manager) :
  Validator.readBool defaultIDs (ExpressionTemplate.ID template) = true ->
  ExpressionTemplate.ID template ∉ ExpressionTemplate.ID <$> templates m ->
  GetTemplateByID (AddTemplate WriteFile_error now template m).1
    (ExpressionTemplate.ID template)
  = inl template
  /\ writes (AddTemplate WriteFile_error now template m).1
     = writes (saveUserTemplates WriteFile_error m).1
  /\ (AddTemplate WriteFile_error now template m).2
     = (saveUserTemplates WriteFile_error m).2
  /\ DeleteTemplate WriteFile_error (ExpressionTemplate.ID template)
       (AddTemplate WriteFile_error now template m).1
     = ((AddTemplate WriteFile_error now template m).1, Some DefaultTemplate).
Proof.
  intros Hreserved Hfresh.
  destruct (AddTemplate_templates now template m (reserved_nonempty _ Hreserved))
    as [[Hin _]|[_ ->]]; [contradiction|].
  cbn [fst snd saveUserTemplates templates writes].
  assert (List.filter
            (fun t => negb (Validator.readBool defaultIDs (ExpressionTemplate.ID t)))
            (templates m ++ [template])
          = List.filter
              (fun t => negb (Validator.readBool defaultIDs (ExpressionTemplate.ID t)))
              (templates m)) as ->.
  { rewrite List.filter_app. cbn [List.filter]. rewrite Hreserved.
    cbn [negb]. apply app_nil_r. }
  unfold GetTemplateByID, DeleteTemplate. cbn [templates].
  rewrite (find_ID_app _ _ Hfresh), Hreserved. repeat split.
Qed.

End DiskFacts.

Lemma template_ids_distinct_witness :
  NoDup (ExpressionTemplate.ID
           <$> templates
                 (DeleteTemplate TemplateSamples.diskFull "a" TemplateSamples.two).1).
Proof.
  apply (template_ids_distinct TemplateSamples.diskFull TemplateSamples.two).
  cbn. apply NoDup_cons. split.
  - apply not_elem_of_cons. split; [discriminate|apply not_elem_of_nil].
  - apply NoDup_singleton.
Defined.

Lemma AddTemplate_DeleteTemplate_witness :
  GetTemplateByID
    (AddTemplate TemplateSamples.diskFull 1700000000
       (TemplateSamples.template "c" "status") TemplateSamples.two).1 "c"
  = inl (TemplateSamples.template "c" "status").
Proof.
  apply (AddTemplate_DeleteTemplate TemplateSamples.diskFull 1700000000
           (TemplateSamples.template "c" "status") TemplateSamples.two);
    [discriminate|reflexivity|].
  cbn. repeat (apply not_elem_of_cons; split; [discriminate|]).
  apply not_elem_of_nil.
Defined.

Lemma reserved_template_witness :
  writes
    (AddTemplate TemplateSamples.diskOK 1700000000
       (TemplateSamples.template "status_ok" "status") TemplateSamples.two).1
  = writes (saveUserTemplates TemplateSamples.diskOK TemplateSamples.two).1.
Proof.
  apply (reserved_template TemplateSamples.diskOK 1700000000
           (TemplateSamples.template "status_ok" "status") TemplateSamples.two);
    [reflexivity|].
  cbn. repeat (apply not_elem_of_cons; split; [discriminate|]).
  apply not_elem_of_nil.
Defined.

(** Without an ID of its own a template gets one from the clock, and the
    check for an ID that exists is made before: two additions within one
    second give two templates with one ID. *)
Example AddTemplate_same_second :
  ExpressionTemplate.ID
    <$> templates
          (AddTemplate TemplateSamples.diskOK 1700000000
             (TemplateSamples.template "" "status")
             (AddTemplate TemplateSamples.diskOK 1700000000
                (TemplateSamples.template "" "status")
                (mkManager [] [])).1).1
  = ["custom_1700000000"; "custom_1700000000"].
Proof. vm_compute. reflexivity. Qed.

(** [ImportTemplates] compares the IDs of the file with the IDs that
    were there before the call only: a file that holds a new ID twice
    gives two templates with this ID. *)
Example ImportTemplates_same_id :
  ExpressionTemplate.ID
    <$> templates
          (ImportTemplates TemplateSamples.diskOK
             (inl [TemplateSamples.template "c" "status";
                   TemplateSamples.template "c" "body"])
             TemplateSamples.two).1
  = ["a"; "b"; "c"; "c"].
Proof. vm_compute. reflexivity. Qed.

End TemplateFacts.

(** ** The retries of the service *)

Module ServiceFacts.
Import Models Service.




Section RetryFacts.

Context {World : Type}.
Variable TestSingleRequest :
  ParsedRequest.t -> ValidationConfig.t -> World ->
  (ResponseData.t + string) * World.
Variable contextDone : Z -> World -> bool * World.



End RetryFacts.


(** With the default of three retries and a network on which every
    exchange fails, the service sends three requests where the tester sends
    four. *)
Example service_three_tester_four :
  TestRequestWithRetry Samples.unreachable (fun _ w => (false, w)) 10
    (Samples.request ∅ ∅) (Samples.retryConfig 3) tt
  = Some (inr (RetriesExhausted 3 "connection refused"), tt,
          [Attempt 0; Wait 1000000000; Attempt 1; Wait 2000000000; Attempt 2])
  /\ (exists outcome,
        Tester.TestRequestWithRetry Samples.unreachable 10
          (Samples.request ∅ ∅) (Samples.retryConfig 3) tt
        = Some (outcome, tt,
                [Tester.Attempt 0; Tester.Sleep 100000000;
                 Tester.Attempt 1; Tester.Sleep 200000000;
                 Tester.Attempt 2; Tester.Sleep 400000000; Tester.Attempt 3])).
Proof. split; [vm_compute; reflexivity|eexists; vm_compute; reflexivity]. Qed.

End ServiceFacts.

(** ** The test of one field *)

Module FieldProbeFacts.
Import Models Tester Minimizer FieldProbe.

Lemma copyExcept_false (fieldName : string) (entries : list (string * string))
    (target : gmap string string) :
  copyExcept false fieldName entries target = copyInto entries target.
Proof.
  revert target. induction entries as [|[key value] rest IH]; intros target;
    [reflexivity|].
  cbn [copyExcept copyInto andb]. apply IH.
Qed.

Lemma copyExcept_true (fieldName : string) (entries : list (string * string))
    (target : gmap string string) :
  copyExcept true fieldName entries (delete fieldName target)
  = delete fieldName (copyInto entries target).
Proof.
  revert target. induction entries as [|[key value] rest IH]; intros target;
    [reflexivity|].
  cbn [copyExcept copyInto andb]. case_bool_decide as Hkey.
  - subst key. rewrite <- IH. f_equal.
    apply map_eq. intros k. destruct (decide (k = fieldName)) as [->|Hne].
    + rewrite !lookup_delete_eq. reflexivity.
    + rewrite !lookup_delete_ne by congruence.
      rewrite lookup_insert_ne by congruence. reflexivity.
  - rewrite <- IH. f_equal.
    apply map_eq. intros k. destruct (decide (k = fieldName)) as [->|Hne].
    + rewrite lookup_insert_ne by congruence. rewrite !lookup_delete_eq.
      reflexivity.
    + rewrite lookup_delete_ne by congruence.
      destruct (decide (k = key)) as [->|Hk].
      * rewrite !lookup_insert_eq. reflexivity.
      * rewrite !lookup_insert_ne by congruence.
        rewrite lookup_delete_ne by congruence. reflexivity.
Qed.

Lemma copyExcept_range (skip : bool) (fieldName : string)
    (m : gmap string string) (entries : list (string * string)) :
  range_of m entries ->
  copyExcept skip fieldName entries ∅ = if skip then delete fieldName m else m.
Proof.
  intros Hr. destruct skip.
  - rewrite <- (delete_empty (M := gmap string) fieldName) at 1.
    rewrite copyExcept_true, (TesterFacts.copyInto_range m entries Hr).
    reflexivity.
  - rewrite copyExcept_false. apply TesterFacts.copyInto_range, Hr.
Qed.

Section ProbeFacts.

Context {World : Type}.
Variable backend : Backend World.

(** X26.  [TestFieldNecessity] sends one request, which is the original
    request without the field under test and with everything else (for a
    field type other than [header] and [cookie], the original request as
    it is); the field is reported as required exactly when the test is
    not reported as passed, and the test is passed exactly when the
    request got a response that validation accepts without an error. *)
Theorem TestFieldNecessity_probe (originalReq : ParsedRequest.t)
    (fieldName fieldType : string) (config : ValidationConfig.t)
    (headerOrder cookieOrder queryOrder : list (string * string)) (w : World) :
  range_of (ParsedRequest.Headers originalReq) headerOrder ->
  range_of (ParsedRequest.Cookies originalReq) cookieOrder ->
  range_of (ParsedRequest.QueryParams originalReq) queryOrder ->
  createTestRequest originalReq fieldName fieldType
    headerOrder cookieOrder queryOrder
  = ParsedRequest.mk
      (ParsedRequest.Method originalReq) (ParsedRequest.URL originalReq)
      (if bool_decide (fieldType = "header")
       then delete fieldName (ParsedRequest.Headers originalReq)
       else ParsedRequest.Headers originalReq)
      (if bool_decide (fieldType = "cookie")
       then delete fieldName (ParsedRequest.Cookies originalReq)
       else ParsedRequest.Cookies originalReq)
      (ParsedRequest.Body originalReq) (ParsedRequest.QueryParams originalReq)
      (ParsedRequest.ContentType originalReq)
  /\ (TestFieldNecessity backend originalReq fieldName fieldType config
        headerOrder cookieOrder queryOrder w).2
     = (TestRequestWithRetry backend
          (createTestRequest originalReq fieldName fieldType
             headerOrder cookieOrder queryOrder) config w).2
  /\ TestResult.IsRequired
       (TestFieldNecessity backend originalReq fieldName fieldType config
          headerOrder cookieOrder queryOrder w).1
     = negb (TestResult.TestPassed
               (TestFieldNecessity backend originalReq fieldName fieldType
                  config headerOrder cookieOrder queryOrder w).1)
  /\ (TestResult.TestPassed
        (TestFieldNecessity backend originalReq fieldName fieldType config
           headerOrder cookieOrder queryOrder w).1 = true <->
      exists response,
        (TestRequestWithRetry backend
           (createTestRequest originalReq fieldName fieldType
              headerOrder cookieOrder queryOrder) config w).1 = inl response
        /\ ValidateResponseWithConfig backend response config = (true, None)).
Proof.
  intros Hh Hc Hq. split.
  - unfold createTestRequest.
    rewrite (copyExcept_range _ fieldName _ _ Hh),
      (copyExcept_range _ fieldName _ _ Hc),
      (TesterFacts.copyInto_range _ _ Hq).
    reflexivity.
  - unfold TestFieldNecessity.
    destruct (TestRequestWithRetry backend _ config w) as [[response|err] w'];
      cbn [fst snd].
    + destruct (ValidateResponseWithConfig backend response config)
        as [passed [err|]] eqn:Hvalid; cbn [fst snd TestResult.IsRequired
                                            TestResult.TestPassed negb].
      * repeat split; try discriminate.
        intros (r & Hr & Hv). injection Hr as <-. congruence.
      * repeat split.
        -- intros ->. exists response. split; [reflexivity|exact Hvalid].
        -- intros (r & Hr & Hv). injection Hr as <-. congruence.
    + cbn [TestResult.IsRequired TestResult.TestPassed negb].
      repeat split; try discriminate.
      intros (r & Hr & _). discriminate.
Qed.

End ProbeFacts.

Lemma TestFieldNecessity_probe_witness :
  createTestRequest MinimizerSamples.keyRequest "X-Key" "header"
    MinimizerSamples.keyHeaders MinimizerSamples.keyCookies [("y", "1")]
  = ParsedRequest.mk "GET" "https://a.test/x?y=1"
      (delete "X-Key" (ParsedRequest.Headers MinimizerSamples.keyRequest))
      (ParsedRequest.Cookies MinimizerSamples.keyRequest) "" {["y" := "1"]} "".
Proof.
  apply (TestFieldNecessity_probe
           (MinimizerSamples.backendOf MinimizerSamples.keyServer)
           MinimizerSamples.keyRequest "X-Key" "header" (Samples.textConfig ["ok"])
           MinimizerSamples.keyHeaders MinimizerSamples.keyCookies [("y", "1")]
           0%nat);
    unfold range_of; reflexivity.
Defined.

End FieldProbeFacts.

(** ** The evaluator of expressions *)

Module EvaluatorFacts.
Import Models Evaluator.

(** *** Needles of two bytes *)

Lemma prefix_nil (s : string) : String.prefix "" s = true.
Proof. destruct s; reflexivity. Qed.

Lemma prefix_two (a b c : ascii) (s : string) :
  String.prefix (String a (String b "")) (String c s)
  = bool_decide (a = c) && String.prefix (String b "") s.
Proof.
  cbn [String.prefix]. destruct (ascii_dec a c) as [->|Hne].
  - rewrite bool_decide_eq_true_2 by reflexivity. reflexivity.
  - rewrite bool_decide_eq_false_2 by exact Hne. reflexivity.
Qed.

Lemma Contains_two_cons (a b c : ascii) (s : string) :
  GoStrings.Contains (String c s) (String a (String b ""))
  = (bool_decide (a = c) && String.prefix (String b "") s)
    || GoStrings.Contains s (String a (String b "")).
Proof.
  cbn [GoStrings.Contains]. rewrite prefix_two.
  destruct (bool_decide (a = c) && String.prefix (String b "") s); reflexivity.
Qed.

Lemma Contains_two_nil (a b : ascii) :
  GoStrings.Contains "" (String a (String b "")) = false.
Proof. reflexivity. Qed.

(** A needle does not begin inside a string that does not hold its first
    byte. *)
Lemma Contains_two_free (a b : ascii) (x y : string) :
  GoStrings.Contains x (String a "") = false ->
  GoStrings.Contains (x +:+ y) (String a (String b ""))
  = GoStrings.Contains y (String a (String b "")).
Proof.
  induction x as [|c x IH]; intros Hx; [reflexivity|].
  rewrite StringFacts.Contains_single_cons in Hx.
  apply orb_false_iff in Hx as [Hc Hx].
  rewrite StringFacts.append_cons, Contains_two_cons, Hc. cbn [andb orb].
  apply IH, Hx.
Qed.

(** A needle does not lie across a cut when what follows the cut does not
    begin with its second byte. *)
Lemma Contains_two_cut (a b : ascii) (x y : string) :
  String.prefix (String b "") y = false ->
  GoStrings.Contains (x +:+ y) (String a (String b ""))
  = GoStrings.Contains x (String a (String b ""))
    || GoStrings.Contains y (String a (String b "")).
Proof.
  intros Hy. induction x as [|c x IH]; [reflexivity|].
  rewrite StringFacts.append_cons, !Contains_two_cons, IH, orb_assoc.
  f_equal. f_equal. destruct x as [|c' x].
  - change ("" +:+ y) with y. rewrite Hy. destruct y; reflexivity.
  - rewrite StringFacts.append_cons, !StringFacts.prefix_single. reflexivity.
Qed.

Lemma prefix_free (b : ascii) (y z : string) :
  y <> "" -> GoStrings.Contains y (String b "") = false ->
  String.prefix (String b "") (y +:+ z) = false.
Proof.
  intros Hne Hy. destruct y as [|c y]; [contradiction|].
  rewrite StringFacts.Contains_single_cons in Hy.
  apply orb_false_iff in Hy as [Hc _].
  rewrite StringFacts.append_cons, StringFacts.prefix_single. exact Hc.
Qed.

Lemma Contains_two_Join (a b : ascii) (sep : string) (segments : list string) :
  sep <> "" ->
  GoStrings.Contains sep (String a "") = false ->
  GoStrings.Contains sep (String b "") = false ->
  GoStrings.Contains (GoStrings.Join segments sep) (String a (String b ""))
  = existsb (fun segment => GoStrings.Contains segment (String a (String b "")))
      segments.
Proof.
  intros Hne Ha Hb. induction segments as [|x [|y rest] IH].
  - reflexivity.
  - cbn [GoStrings.Join existsb]. rewrite orb_false_r. reflexivity.
  - change (GoStrings.Join (x :: y :: rest) sep)
      with (x +:+ sep +:+ GoStrings.Join (y :: rest) sep).
    rewrite Contains_two_cut by (apply prefix_free; assumption).
    rewrite Contains_two_free by exact Ha. rewrite IH. reflexivity.
Qed.

(** *** [Split] and [Join] *)

Lemma prefix_split (p s : string) :
  String.prefix p s = true -> exists t, s = p +:+ t.
Proof.
  revert s. induction p as [|a p IH]; intros s H.
  - exists s. reflexivity.
  - destruct s as [|c s]; [discriminate|]. cbn [String.prefix] in H.
    destruct (ascii_dec a c) as [->|_]; [|discriminate].
    destruct (IH s H) as [t ->]. exists t. reflexivity.
Qed.

Lemma prefix_app (p t : string) : String.prefix p (p +:+ t) = true.
Proof.
  induction p as [|a p IH]; [apply prefix_nil|].
  rewrite StringFacts.append_cons. cbn [String.prefix].
  destruct (ascii_dec a a); [exact IH|contradiction].
Qed.

Lemma length_append (s t : string) :
  String.length (s +:+ t) = (String.length s + String.length t)%nat.
Proof.
  induction s as [|c s IH]; [reflexivity|].
  rewrite StringFacts.append_cons. cbn [String.length]. rewrite IH. reflexivity.
Qed.

(** The bytes of a separator that was found are passed over. *)
Lemma splitGo_skip (sep t rest cur : string) :
  GoStrings.splitGo sep (t +:+ rest) (String.length t) cur
  = GoStrings.splitGo sep rest 0 cur.
Proof.
  induction t as [|c t IH]; [destruct rest; reflexivity|].
  rewrite StringFacts.append_cons. cbn [String.length GoStrings.splitGo].
  exact IH.
Qed.

Lemma splitGo_occurrence (sep rest cur : string) :
  sep <> "" ->
  GoStrings.splitGo sep (sep +:+ rest) 0 cur
  = cur :: GoStrings.splitGo sep rest 0 "".
Proof.
  intros Hne. destruct sep as [|c sep]; [contradiction|].
  pose proof (prefix_app (String c sep) rest) as Hp.
  rewrite StringFacts.append_cons in *. cbn [GoStrings.splitGo].
  rewrite Hp. cbn [String.length Nat.pred]. rewrite splitGo_skip. reflexivity.
Qed.

Lemma Join_cons (x : string) (l : list string) (sep : string) :
  l <> [] -> GoStrings.Join (x :: l) sep = x +:+ sep +:+ GoStrings.Join l sep.
Proof. destruct l; [contradiction|reflexivity]. Qed.

(** [Join] undoes [Split]. *)
Lemma Join_splitGo (sep : string) (n : nat) :
  sep <> "" ->
  forall s cur,
    (String.length s <= n)%nat ->
    GoStrings.Join (GoStrings.splitGo sep s 0 cur) sep = cur +:+ s.
Proof.
  intros Hne. induction n as [|n IH]; intros s cur Hlen.
  - destruct s; [|cbn in Hlen; lia]. cbn.
    rewrite StringFacts.append_nil_r. reflexivity.
  - destruct s as [|c s]; [cbn; rewrite StringFacts.append_nil_r; reflexivity|].
    destruct (String.prefix sep (String c s)) eqn:Hp.
    + destruct (prefix_split _ _ Hp) as [t Ht]. rewrite Ht.
      rewrite splitGo_occurrence by exact Hne.
      rewrite Join_cons by apply IntakeFacts.splitGo_not_nil.
      rewrite IH.
      * reflexivity.
      * assert (String.length (String c s) = String.length (sep +:+ t)) as Hl
          by (rewrite Ht; reflexivity).
        rewrite length_append in Hl. cbn [String.length] in Hl, Hlen.
        destruct sep; [contradiction|]. cbn [String.length] in Hl. lia.
    + cbn [GoStrings.splitGo]. rewrite Hp. rewrite IH by (cbn in Hlen; lia).
      rewrite StringFacts.append_assoc. reflexivity.
Qed.

(** [ReplaceAll] neither makes nor breaks a needle of two bytes when
    neither byte is in what is replaced or in what replaces it. *)
Lemma Contains_two_ReplaceAll (a b : ascii) (s old new : string) :
  old <> "" -> new <> "" ->
  GoStrings.Contains old (String a "") = false ->
  GoStrings.Contains old (String b "") = false ->
  GoStrings.Contains new (String a "") = false ->
  GoStrings.Contains new (String b "") = false ->
  GoStrings.Contains (GoStrings.ReplaceAll s old new) (String a (String b ""))
  = GoStrings.Contains s (String a (String b "")).
Proof.
  intros Hold Hnew Hoa Hob Hna Hnb. unfold GoStrings.ReplaceAll, GoStrings.Split.
  rewrite Contains_two_Join by assumption.
  rewrite <- (Contains_two_Join a b old) by assumption.
  rewrite (Join_splitGo old (String.length s) Hold s "") by lia. reflexivity.
Qed.

Lemma Contains_two_one (a b : ascii) (s : string) :
  GoStrings.Contains s (String a (String b "")) = true ->
  GoStrings.Contains s (String a "") = true.
Proof.
  induction s as [|c s IH]; [discriminate|].
  rewrite Contains_two_cons, StringFacts.Contains_single_cons.
  intros H. apply orb_true_iff in H as [H|H].
  - apply andb_true_iff in H as [-> _]. reflexivity.
  - rewrite (IH H). apply orb_true_r.
Qed.

(** *** Decimal numbers *)

Lemma pretty_N_char_digit (d : N) : RawParser.isDigit (pretty_N_char d) = true.
Proof. unfold pretty_N_char. repeat case_match; reflexivity. Qed.

Lemma pretty_N_char_value (d : N) :
  (d < 10)%N -> Z.of_N (N_of_ascii (pretty_N_char d)) - 48 = Z.of_N d.
Proof.
  intros Hd.
  assert (d = 0 \/ d = 1 \/ d = 2 \/ d = 3 \/ d = 4 \/ d = 5 \/ d = 6 \/ d = 7
          \/ d = 8 \/ d = 9)%N as Hcases by lia.
  repeat (destruct Hcases as [->|Hcases]; [reflexivity|]). subst d. reflexivity.
Qed.

Lemma pretty_N_go_bytes (P : ascii -> Prop) (x : N) (s : string) :
  (forall d, P (pretty_N_char d)) ->
  Forall P (list_ascii_of_string s) ->
  Forall P (list_ascii_of_string (pretty_N_go x s)).
Proof.
  intros Hchar. revert s. induction (N.lt_wf_0 x) as [x _ IH]; intros s Hs.
  destruct (decide (x = 0)%N) as [->|Hx]; [rewrite pretty_N_go_0; exact Hs|].
  rewrite pretty_N_go_step by lia. apply IH.
  - apply N.div_lt; lia.
  - cbn [list_ascii_of_string]. constructor; [apply Hchar|exact Hs].
Qed.

Lemma pretty_N_go_nonempty (x : N) (s : string) :
  s <> "" -> pretty_N_go x s <> "".
Proof.
  revert s. induction (N.lt_wf_0 x) as [x _ IH]; intros s Hs.
  destruct (decide (x = 0)%N) as [->|Hx]; [rewrite pretty_N_go_0; exact Hs|].
  rewrite pretty_N_go_step by lia. apply IH; [apply N.div_lt; lia|discriminate].
Qed.

Lemma digitsValue_pretty_N_go (x : N) :
  exists k : nat, forall s acc,
    digitsValue (pretty_N_go x s) acc
    = digitsValue s (acc * 10 ^ Z.of_nat k + Z.of_N x).
Proof.
  induction (N.lt_wf_0 x) as [x _ IH].
  destruct (decide (x = 0)%N) as [->|Hx].
  - exists 0%nat. intros s acc. rewrite pretty_N_go_0. f_equal. cbn. lia.
  - destruct (IH (x `div` 10)%N) as [k Hk]; [apply N.div_lt; lia|].
    exists (S k). intros s acc. rewrite pretty_N_go_step by lia. rewrite Hk.
    cbn [digitsValue]. rewrite pretty_N_char_digit.
    rewrite pretty_N_char_value by (apply N.mod_lt; lia).
    f_equal. rewrite Nat2Z.inj_succ, Z.pow_succ_r by lia.
    pose proof (N.div_mod x 10 ltac:(lia)) as Hdm.
    assert (Z.of_N x = 10 * Z.of_N (x `div` 10) + Z.of_N (x `mod` 10)) as ->
      by lia.
    ring.
Qed.

Lemma Atoi_unsigned (c : ascii) (rest : string) :
  RawParser.isDigit c = true ->
  Atoi (String c rest)
  = match digitsValue (String c rest) 0 with
    | None => None
    | Some n => if (- 2 ^ 63 <=? n) && (n <? 2 ^ 63) then Some n else None
    end.
Proof.
  intros Hc. unfold Atoi.
  destruct c as [[] [] [] [] [] [] [] []]; try discriminate Hc; reflexivity.
Qed.

Lemma pretty_positive_digits (p : positive) :
  exists c rest,
    pretty (Npos p) = String c rest /\ RawParser.isDigit c = true
    /\ digitsValue (String c rest) 0 = Some (Zpos p).
Proof.
  unfold pretty, pretty_N. rewrite decide_False by discriminate.
  pose proof (pretty_N_go_bytes (fun c => RawParser.isDigit c = true) (Npos p) ""
                pretty_N_char_digit (Forall_nil_2 _)) as Hbytes.
  assert (pretty_N_go (Npos p) "" <> "") as Hne.
  { rewrite pretty_N_go_step by lia. apply pretty_N_go_nonempty. discriminate. }
  destruct (digitsValue_pretty_N_go (Npos p)) as [k Hk].
  specialize (Hk "" 0). cbn [digitsValue] in Hk.
  destruct (pretty_N_go (Npos p) "") as [|c rest]; [contradiction|].
  exists c, rest. split; [reflexivity|]. split.
  - cbn [list_ascii_of_string] in Hbytes. inversion Hbytes; assumption.
  - rewrite Hk. f_equal.
Qed.

(** [Atoi] reads what [Itoa] writes. *)
Lemma Atoi_Itoa (i : Z) : - 2 ^ 63 <= i < 2 ^ 63 -> Atoi (Itoa i) = Some i.
Proof.
  intros Hi. unfold Itoa. destruct i as [|p|p].
  - reflexivity.
  - change (pretty (Zpos p)) with (pretty (Npos p)).
    destruct (pretty_positive_digits p) as (c & rest & -> & Hc & Hv).
    rewrite (Atoi_unsigned c rest Hc), Hv.
    destruct (Z.leb_spec (- 2 ^ 63) (Z.pos p)); [|lia].
    destruct (Z.ltb_spec (Z.pos p) (2 ^ 63)); [reflexivity|lia].
  - change (pretty (Zneg p)) with ("-" +:+ pretty (Npos p)).
    destruct (pretty_positive_digits p) as (c & rest & -> & Hc & Hv).
    change ("-" +:+ String c rest) with (String "-" (String c rest)).
    unfold Atoi. rewrite bool_decide_eq_false_2 by discriminate. rewrite Hv.
    change (- Z.pos p) with (Z.neg p).
    destruct (Z.leb_spec (- 2 ^ 63) (Z.neg p)); [|lia].
    destruct (Z.ltb_spec (Z.neg p) (2 ^ 63)); [reflexivity|lia].
Qed.

(** What [Itoa] writes is made of digits and of a dash. *)
Lemma Itoa_bytes (i : Z) :
  Itoa i <> ""
  /\ Forall (fun c => RawParser.isDigit c || bool_decide (c = "-"%char) = true)
       (list_ascii_of_string (Itoa i)).
Proof.
  assert (Hpos : forall p,
             pretty (Npos p) <> ""
             /\ Forall (fun c => RawParser.isDigit c || bool_decide (c = "-"%char) = true)
                  (list_ascii_of_string (pretty (Npos p)))).
  { intros p. unfold pretty, pretty_N. rewrite decide_False by discriminate. split.
    - rewrite pretty_N_go_step by lia. apply pretty_N_go_nonempty. discriminate.
    - apply pretty_N_go_bytes; [|constructor].
      intros d. rewrite pretty_N_char_digit. reflexivity. }
  unfold Itoa. destruct i as [|p|p].
  - split; [discriminate|]. repeat constructor.
  - exact (Hpos p).
  - change (pretty (Zneg p)) with ("-" +:+ pretty (Npos p)).
    destruct (Hpos p) as [_ Hbytes]. split.
    + destruct (pretty (Npos p)); discriminate.
    + change ("-" +:+ pretty (Npos p)) with (String "-" (pretty (Npos p))).
      cbn [list_ascii_of_string]. constructor; [reflexivity|exact Hbytes].
Qed.

Lemma Contains_single_bytes (P : ascii -> Prop) (a : ascii) (s : string) :
  ~ P a -> Forall P (list_ascii_of_string s) ->
  GoStrings.Contains s (String a "") = false.
Proof.
  intros Ha. induction s as [|c s IH]; intros Hs; [reflexivity|].
  cbn [list_ascii_of_string] in Hs. inversion Hs as [|? ? Hc Hrest]; subst.
  rewrite StringFacts.Contains_single_cons, (IH Hrest), orb_false_r.
  apply bool_decide_eq_false_2. intros ->. contradiction.
Qed.

Lemma Itoa_free (i : Z) (a : ascii) :
  RawParser.isDigit a || bool_decide (a = "-"%char) = false ->
  GoStrings.Contains (Itoa i) (String a "") = false.
Proof.
  intros Ha. eapply Contains_single_bytes; [|apply Itoa_bytes].
  cbn beta. rewrite Ha. discriminate.
Qed.

Lemma digit_not_space (c : ascii) :
  RawParser.isDigit c || bool_decide (c = "-"%char) = true ->
  GoStrings.isSpace c = false.
Proof.
  destruct c as [[] [] [] [] [] [] [] []]; intros H; try discriminate H;
    reflexivity.
Qed.

Lemma trimRight_bytes (s : string) :
  Forall (fun c => GoStrings.isSpace c = false) (list_ascii_of_string s) ->
  GoStrings.trimRight s = s /\ GoStrings.trimRight (s +:+ " ") = s.
Proof.
  induction s as [|c s IH]; intros Hs; [split; reflexivity|].
  cbn [list_ascii_of_string] in Hs. inversion Hs as [|? ? Hc Hrest]; subst.
  destruct (IH Hrest) as [IH1 IH2]. rewrite StringFacts.append_cons.
  cbn [GoStrings.trimRight]. rewrite IH1, IH2, Hc.
  destruct s; split; reflexivity.
Qed.

Lemma TrimSpace_bytes (s : string) :
  Forall (fun c => GoStrings.isSpace c = false) (list_ascii_of_string s) ->
  GoStrings.TrimSpace s = s
  /\ GoStrings.TrimSpace (s +:+ " ") = s
  /\ GoStrings.TrimSpace (String " " s) = s.
Proof.
  intros Hs. destruct (trimRight_bytes s Hs) as [H1 H2].
  assert (GoStrings.trimLeft s = s) as Hleft.
  { destruct s as [|c s]; [reflexivity|].
    cbn [list_ascii_of_string] in Hs. inversion Hs as [|? ? Hc _]; subst.
    cbn [GoStrings.trimLeft]. rewrite Hc. reflexivity. }
  unfold GoStrings.TrimSpace. split; [rewrite Hleft; exact H1|]. split.
  - destruct s as [|c s]; [reflexivity|].
    cbn [list_ascii_of_string] in Hs. inversion Hs as [|? ? Hc _]; subst.
    rewrite StringFacts.append_cons. cbn [GoStrings.trimLeft]. rewrite Hc.
    rewrite <- StringFacts.append_cons. exact H2.
  - cbn [GoStrings.trimLeft GoStrings.isSpace]. rewrite Hleft. exact H1.
Qed.

Lemma Itoa_TrimSpace (i : Z) :
  GoStrings.TrimSpace (Itoa i) = Itoa i
  /\ GoStrings.TrimSpace (Itoa i +:+ " ") = Itoa i
  /\ GoStrings.TrimSpace (String " " (Itoa i)) = Itoa i.
Proof.
  apply TrimSpace_bytes. eapply Forall_impl; [apply Itoa_bytes|].
  intros c Hc. apply digit_not_space, Hc.
Qed.

(** [Split] at a separator of any length passes over a piece that does
    not hold the first byte of the separator. *)
Lemma splitGo_free_first (c : ascii) (sep s rest cur : string) :
  GoStrings.Contains s (String c "") = false ->
  GoStrings.splitGo (String c sep) (s +:+ rest) 0 cur
  = GoStrings.splitGo (String c sep) rest 0 (cur +:+ s).
Proof.
  revert cur. induction s as [|a s IH]; intros cur Hfree.
  - rewrite StringFacts.append_nil_r. reflexivity.
  - rewrite StringFacts.Contains_single_cons in Hfree.
    apply orb_false_iff in Hfree as [Hne Hfree].
    apply bool_decide_eq_false in Hne.
    rewrite StringFacts.append_cons. cbn [GoStrings.splitGo String.prefix].
    destruct (ascii_dec c a) as [Heq|_]; [contradiction|].
    rewrite IH by exact Hfree. rewrite StringFacts.append_assoc. reflexivity.
Qed.

Lemma splitGo_free_whole (c : ascii) (sep s cur : string) :
  GoStrings.Contains s (String c "") = false ->
  GoStrings.splitGo (String c sep) s 0 cur = [cur +:+ s].
Proof.
  intros Hfree. rewrite <- (StringFacts.append_nil_r s) at 1.
  rewrite splitGo_free_first by exact Hfree. reflexivity.
Qed.

Lemma ReplaceAll_head (c : ascii) (old rest new : string) :
  GoStrings.Contains rest (String c "") = false ->
  GoStrings.ReplaceAll (String c old +:+ rest) (String c old) new = new +:+ rest.
Proof.
  intros Hfree. unfold GoStrings.ReplaceAll, GoStrings.Split.
  rewrite splitGo_occurrence by discriminate.
  rewrite splitGo_free_whole by exact Hfree. reflexivity.
Qed.

Lemma Contains_prefix (s sub : string) :
  String.prefix sub s = true -> GoStrings.Contains s sub = true.
Proof. intros H. destruct s; cbn [GoStrings.Contains]; rewrite H; reflexivity. Qed.

Lemma Contains_occurrence (x sub y : string) :
  GoStrings.Contains (x +:+ (sub +:+ y)) sub = true.
Proof.
  induction x as [|c x IH].
  { change ("" +:+ (sub +:+ y)) with (sub +:+ y).
    apply Contains_prefix, prefix_app. }
  rewrite StringFacts.append_cons. cbn [GoStrings.Contains].
  destruct (String.prefix sub _); [reflexivity|exact IH].
Qed.

Lemma Contains_two_absent (a b : ascii) (s : string) :
  GoStrings.Contains s (String a "") = false ->
  GoStrings.Contains s (String a (String b "")) = false.
Proof.
  intros H. destruct (GoStrings.Contains s (String a (String b ""))) eqn:Hc;
    [|reflexivity].
  apply Contains_two_one in Hc. congruence.
Qed.

(** Without an occurrence of the separator [Split] gives one piece. *)
Lemma splitGo_absent (sep s cur : string) :
  GoStrings.Contains s sep = false ->
  GoStrings.splitGo sep s 0 cur = [cur +:+ s].
Proof.
  revert cur. induction s as [|c s IH]; intros cur H.
  - cbn. rewrite StringFacts.append_nil_r. reflexivity.
  - cbn [GoStrings.Contains] in H. cbn [GoStrings.splitGo].
    destruct (String.prefix sep (String c s)); [discriminate|].
    rewrite IH by exact H. rewrite StringFacts.append_assoc. reflexivity.
Qed.

Lemma ReplaceAll_absent (s old new : string) :
  GoStrings.Contains s old = false -> GoStrings.ReplaceAll s old new = s.
Proof.
  intros H. unfold GoStrings.ReplaceAll, GoStrings.Split.
  rewrite splitGo_absent by exact H. reflexivity.
Qed.

Lemma trimRight_end (p : string) (c : ascii) :
  GoStrings.isSpace c = false ->
  GoStrings.trimRight (p +:+ String c "") = p +:+ String c "".
Proof.
  intros Hc. induction p as [|a p IH].
  - change ("" +:+ String c "") with (String c "").
    cbn [GoStrings.trimRight]. rewrite Hc. reflexivity.
  - rewrite StringFacts.append_cons. cbn [GoStrings.trimRight]. rewrite IH.
    destruct p; reflexivity.
Qed.

Lemma cutRight_end (cutset needle : string) (q : ascii) :
  inCutset q cutset = true ->
  Forall (fun c => inCutset c cutset = false) (list_ascii_of_string needle) ->
  cutRight cutset (needle +:+ String q "") = needle.
Proof.
  intros Hq. induction needle as [|c needle IH]; intros Hn.
  - change ("" +:+ String q "") with (String q "").
    cbn [cutRight]. rewrite Hq. reflexivity.
  - cbn [list_ascii_of_string] in Hn. inversion Hn as [|? ? Hc Hrest]; subst.
    rewrite StringFacts.append_cons. cbn [cutRight]. rewrite (IH Hrest), Hc.
    destruct needle; reflexivity.
Qed.

Lemma free_bytes (a b : ascii) (s : string) :
  GoStrings.Contains s (String a "") = false ->
  GoStrings.Contains s (String b "") = false ->
  Forall (fun c => inCutset c (String a (String b "")) = false)
    (list_ascii_of_string s).
Proof.
  induction s as [|c s IH]; intros Ha Hb; [constructor|].
  rewrite StringFacts.Contains_single_cons in Ha, Hb.
  apply orb_false_iff in Ha as [Ha Ha'], Hb as [Hb Hb'].
  cbn [list_ascii_of_string]. constructor; [|apply IH; assumption].
  cbn [inCutset]. apply bool_decide_eq_false in Ha, Hb.
  rewrite !bool_decide_eq_false_2 by congruence. reflexivity.
Qed.

Section ValueFacts.

Context {Document : Type} `{EqDecision Document}.
Variable Unmarshal : string -> option (string + Document).

Lemma createResponseMap_status_code (response : ResponseData.t) :
  createResponseMap Unmarshal response !! "status_code"
  = Some (VInt (ResponseData.StatusCode response)).
Proof.
  unfold createResponseMap.
  destruct (negb _); [destruct (Unmarshal _) as [[s|document]|]|];
    repeat (rewrite lookup_insert_ne by discriminate);
    apply lookup_insert_eq.
Qed.

Lemma parseValue_Itoa (i : Z) (responseMap : gmap string (@Value Document)) :
  - 2 ^ 63 <= i < 2 ^ 63 -> parseValue (Itoa i) responseMap = VInt i.
Proof.
  intros Hi. unfold parseValue.
  rewrite (proj1 (Itoa_TrimSpace i)), (Atoi_Itoa i Hi). reflexivity.
Qed.

(** X27.  An expression that holds [<=] and no [==] is evaluated as the
    test that the status code lies in [200,300), whatever stands on the
    two sides of its comparisons, and without an error. *)
Theorem range_shape_verdict (expression : string) (response : ResponseData.t) :
  GoStrings.Contains expression "==" = false ->
  GoStrings.Contains expression "<=" = true ->
  evaluateSimpleExpression Unmarshal expression response
  = (bool_decide (200 <= ResponseData.StatusCode response < 300), None).
Proof.
  intros Hequal Hrange. unfold evaluateSimpleExpression.
  rewrite createResponseMap_status_code.
  assert (Hplain : forall a : ascii,
             RawParser.isDigit a || bool_decide (a = "-"%char) = false ->
             GoStrings.Contains "response.status_code" (String a "") = false ->
             forall b : ascii,
               RawParser.isDigit b || bool_decide (b = "-"%char) = false ->
               GoStrings.Contains "response.status_code" (String b "") = false ->
               GoStrings.Contains
                 (GoStrings.ReplaceAll expression "response.status_code"
                    (Itoa (ResponseData.StatusCode response)))
                 (String a (String b ""))
               = GoStrings.Contains expression (String a (String b ""))).
  { intros a Ha Hoa b Hb Hob. apply Contains_two_ReplaceAll;
      [discriminate|apply Itoa_bytes|exact Hoa|exact Hob
      |apply Itoa_free, Ha|apply Itoa_free, Hb]. }
  unfold equalityShape.
  rewrite (Hplain "="%char eq_refl eq_refl "="%char eq_refl eq_refl), Hequal.
  unfold rangeShape.
  rewrite (Hplain "<"%char eq_refl eq_refl "="%char eq_refl eq_refl), Hrange.
  rewrite (Contains_two_one "<" "=")
    by (rewrite (Hplain "<"%char eq_refl eq_refl "="%char eq_refl eq_refl);
        exact Hrange).
  cbn [andb]. rewrite createResponseMap_status_code.
  destruct (Z.leb_spec 200 (ResponseData.StatusCode response));
    destruct (Z.ltb_spec (ResponseData.StatusCode response) 300); cbn [andb];
    [rewrite bool_decide_eq_true_2 by lia
    |rewrite bool_decide_eq_false_2 by lia
    |rewrite bool_decide_eq_false_2 by lia
    |rewrite bool_decide_eq_false_2 by lia]; reflexivity.
Qed.

(** X28.  The comparison of the status code with a number written in
    decimal, [response.status_code == n], is evaluated to the truth of
    the equality, without an error. *)
Theorem status_equality_verdict (n : Z) (response : ResponseData.t) :
  - 2 ^ 63 <= n < 2 ^ 63 ->
  - 2 ^ 63 <= ResponseData.StatusCode response < 2 ^ 63 ->
  evaluateSimpleExpression Unmarshal ("response.status_code == " +:+ Itoa n)
    response
  = (bool_decide (ResponseData.StatusCode response = n), None).
Proof.
  intros Hn Hstatus. unfold evaluateSimpleExpression.
  rewrite createResponseMap_status_code.
  set (status := ResponseData.StatusCode response) in *.
  assert (Hfree : forall (i : Z) (a : ascii),
             RawParser.isDigit a || bool_decide (a = "-"%char) = false ->
             a <> " "%char -> a <> "="%char ->
             GoStrings.Contains (" == " +:+ Itoa i) (String a "") = false).
  { intros i a Ha Hspace Hequal.
    change (" == " +:+ Itoa i)
      with (String " " (String "=" (String "=" (String " " (Itoa i))))).
    rewrite !StringFacts.Contains_single_cons, (Itoa_free i a Ha).
    rewrite (bool_decide_eq_false_2 (a = " "%char)) by exact Hspace.
    rewrite (bool_decide_eq_false_2 (a = "="%char)) by exact Hequal.
    reflexivity. }
  change ("response.status_code == " +:+ Itoa n)
    with ("response.status_code" +:+ (" == " +:+ Itoa n)).
  rewrite (ReplaceAll_head "r" "esponse.status_code" (" == " +:+ Itoa n)
             (Itoa status))
    by (apply Hfree; [reflexivity|discriminate|discriminate]).
  change (Itoa status +:+ " == " +:+ Itoa n)
    with (Itoa status +:+ (" " +:+ ("==" +:+ String " " (Itoa n)))).
  rewrite <- StringFacts.append_assoc.
  assert (Hleft : GoStrings.Contains (Itoa status +:+ " ") "=" = false).
  { rewrite StringFacts.Contains_single_app, (Itoa_free status "="%char eq_refl).
    reflexivity. }
  assert (Hright : GoStrings.Contains (String " " (Itoa n)) "=" = false).
  { rewrite StringFacts.Contains_single_cons, (Itoa_free n "="%char eq_refl).
    reflexivity. }
  unfold equalityShape.
  rewrite (Contains_two_free "=" "=" (Itoa status +:+ " ") _ Hleft).
  change ("==" +:+ String " " (Itoa n))
    with (String "=" (String "=" (String " " (Itoa n)))).
  rewrite Contains_two_cons, StringFacts.prefix_single.
  rewrite !bool_decide_eq_true_2 by reflexivity. cbn [andb orb].
  unfold GoStrings.Split.
  change (String "=" (String "=" (String " " (Itoa n))))
    with ("==" +:+ String " " (Itoa n)).
  rewrite (splitGo_free_first "=" "=" (Itoa status +:+ " ") _ "" Hleft).
  rewrite splitGo_occurrence by discriminate.
  rewrite (splitGo_free_whole "=" "=" (String " " (Itoa n)) "" Hright).
  change ("" +:+ (Itoa status +:+ " ")) with (Itoa status +:+ " ").
  change ("" +:+ String " " (Itoa n)) with (String " " (Itoa n)).
  destruct (Itoa_TrimSpace status) as (_ & -> & _).
  destruct (Itoa_TrimSpace n) as (_ & _ & ->).
  rewrite (parseValue_Itoa status _ Hstatus), (parseValue_Itoa n _ Hn).
  f_equal. destruct (decide (status = n)) as [->|Hne].
  - rewrite !bool_decide_eq_true_2 by reflexivity. reflexivity.
  - rewrite !bool_decide_eq_false_2 by congruence. reflexivity.
Qed.

Lemma createResponseMap_text (response : ResponseData.t) :
  createResponseMap Unmarshal response !! "text"
  = Some (VString (ResponseData.Body response)).
Proof.
  unfold createResponseMap.
  destruct (negb _); [destruct (Unmarshal _) as [[s|document]|]|];
    repeat (rewrite lookup_insert_ne by discriminate);
    apply lookup_insert_eq.
Qed.

(** X29.  The test that a text is in the body, ['needle' in
    response.text], is evaluated to the truth of it, without an error,
    for a needle without a space, a quote, [=] or [<], when the expression
    does not name the status code. *)
Theorem contains_shape_verdict (needle : string) (response : ResponseData.t) :
  GoStrings.Contains needle " " = false ->
  GoStrings.Contains needle "'" = false ->
  GoStrings.Contains needle (String "034" "") = false ->
  GoStrings.Contains needle "=" = false ->
  GoStrings.Contains needle "<" = false ->
  GoStrings.Contains ("'" +:+ needle +:+ "' in response.text")
    "response.status_code" = false ->
  evaluateSimpleExpression Unmarshal ("'" +:+ needle +:+ "' in response.text")
    response
  = (GoStrings.Contains (ResponseData.Body response) needle, None).
Proof.
  intros Hspace Hsingle Hdouble Hequal Hless Hstatus.
  unfold evaluateSimpleExpression. rewrite createResponseMap_status_code.
  rewrite (ReplaceAll_absent _ _ _ Hstatus).
  assert (Hfree : forall a : ascii,
             GoStrings.Contains needle (String a "") = false ->
             GoStrings.Contains "'" (String a "") = false ->
             GoStrings.Contains "' in response.text" (String a "") = false ->
             GoStrings.Contains ("'" +:+ needle +:+ "' in response.text")
               (String a "") = false).
  { intros a Hn Hq Ht. rewrite !StringFacts.Contains_single_app, Hn, Hq, Ht.
    reflexivity. }
  unfold equalityShape.
  rewrite (Contains_two_absent "=" "=") by (apply Hfree; [exact Hequal|reflexivity..]).
  unfold rangeShape.
  rewrite (Contains_two_absent "<" "=") by (apply Hfree; [exact Hless|reflexivity..]).
  cbn [andb]. unfold containsShape.
  assert ("'" +:+ needle +:+ "' in response.text"
          = ("'" +:+ needle +:+ "'") +:+ (" in " +:+ "response.text")) as ->.
  { rewrite !StringFacts.append_assoc. reflexivity. }
  rewrite Contains_occurrence. unfold GoStrings.Split.
  rewrite (splitGo_free_first " " "in " ("'" +:+ needle +:+ "'") _ "")
    by (rewrite !StringFacts.Contains_single_app, Hspace; reflexivity).
  rewrite splitGo_occurrence by discriminate.
  rewrite (splitGo_free_whole " " "in " "response.text" "" eq_refl).
  change ("" +:+ ("'" +:+ needle +:+ "'")) with (String "'" (needle +:+ "'")).
  change ("" +:+ "response.text") with "response.text".
  assert (GoStrings.TrimSpace (String "'" (needle +:+ "'"))
          = String "'" (needle +:+ "'")) as ->.
  { unfold GoStrings.TrimSpace. cbn [GoStrings.trimLeft GoStrings.isSpace].
    rewrite <- StringFacts.append_cons. apply trimRight_end. reflexivity. }
  assert (Trim (String "'" (needle +:+ "'")) (String "034" (String "'" ""))
          = needle) as ->.
  { unfold Trim.
    pose proof (free_bytes "034" "'" needle Hdouble Hsingle) as Hbytes.
    destruct needle as [|c needle]; [reflexivity|].
    cbn [list_ascii_of_string] in Hbytes.
    assert (inCutset c (String "034" (String "'" "")) = false) as Hc
      by (inversion Hbytes; assumption).
    rewrite StringFacts.append_cons.
    change (cutLeft (String "034" (String "'" ""))
              (String "'" (String c (needle +:+ "'"))))
      with (cutLeft (String "034" (String "'" "")) (String c (needle +:+ "'"))).
    cbn [cutLeft]. rewrite Hc. rewrite <- StringFacts.append_cons.
    apply cutRight_end; [reflexivity|exact Hbytes]. }
  rewrite (bool_decide_eq_true_2
             (GoStrings.TrimSpace "response.text" = "response.text"))
    by reflexivity.
  rewrite createResponseMap_text. reflexivity.
Qed.

End ValueFacts.

Lemma range_shape_verdict_witness :
  evaluateSimpleExpression DetectionSamples.noDocument
    "response.status_code <= 100" (Samples.response 200 "ok")
  = (bool_decide (200 <= 200 < 300), None).
Proof.
  apply (range_shape_verdict DetectionSamples.noDocument
           "response.status_code <= 100" (Samples.response 200 "ok"));
    reflexivity.
Defined.

Lemma status_equality_verdict_witness :
  evaluateSimpleExpression DetectionSamples.noDocument
    ("response.status_code == " +:+ Itoa 404) (Samples.response 404 "gone")
  = (bool_decide (404 = 404), None).
Proof.
  apply (status_equality_verdict DetectionSamples.noDocument 404
           (Samples.response 404 "gone")); cbn; lia.
Defined.

Lemma contains_shape_verdict_witness :
  evaluateSimpleExpression DetectionSamples.noDocument
    ("'" +:+ "ok" +:+ "' in response.text") (Samples.response 200 "it is ok")
  = (GoStrings.Contains "it is ok" "ok", None).
Proof.
  apply (contains_shape_verdict DetectionSamples.noDocument "ok"
           (Samples.response 200 "it is ok")); reflexivity.
Defined.

(** The walk of the validator accepts operators that the evaluator does
    not know: an expression with [!=], or with two comparisons joined by
    [&&], is evaluated to an error. *)
Example operators_without_evaluation :
  evaluateSimpleExpression DetectionSamples.noDocument
    "response.status_code != 200" (Samples.response 200 "ok")
  = (false, Some unsupportedFormat)
  /\ evaluateSimpleExpression DetectionSamples.noDocument
       "response.status_code == 200 && response.text == 'ok'"
       (Samples.response 200 "ok")
     = (false, Some unsupportedFormat).
Proof. split; vm_compute; reflexivity. Qed.

End EvaluatorFacts.

(** ** The detection of raw requests *)

Module DetectionAgreement.
Import Models.

Lemma reSpace_isSpace (c : ascii) :
  CurlParser.reSpace c = true -> GoStrings.isSpace c = true.
Proof.
  destruct c as [[] [] [] [] [] [] [] []]; intros H; try discriminate H;
    reflexivity.
Qed.

(** What is left of a string after [TrimSpace] is empty or ends with a
    byte that is not a space. *)
Lemma trimRight_last (s : string) :
  GoStrings.trimRight s = ""
  \/ exists p c, GoStrings.trimRight s = p +:+ String c ""
                 /\ GoStrings.isSpace c = false.
Proof.
  induction s as [|a s IH]; [left; reflexivity|].
  cbn [GoStrings.trimRight].
  destruct IH as [->|(p & c & -> & Hc)].
  - destruct (GoStrings.isSpace a) eqn:Ha; [left; reflexivity|].
    right. exists "", a. split; [reflexivity|exact Ha].
  - right. exists (String a p), c. split; [|exact Hc].
    destruct p; reflexivity.
Qed.

Lemma TrimSpace_last (s : string) :
  GoStrings.TrimSpace s = ""
  \/ exists p c, GoStrings.TrimSpace s = p +:+ String c ""
                 /\ GoStrings.isSpace c = false.
Proof. apply trimRight_last. Qed.

Lemma last_of_append (x y p : string) (c : ascii) :
  y <> "" -> x +:+ y = p +:+ String c "" -> exists q, y = q +:+ String c "".
Proof.
  revert p. induction x as [|a x IH]; intros p Hy H.
  - exists p. exact H.
  - destruct p as [|b p].
    + rewrite StringFacts.append_cons in H. injection H as _ H.
      destruct x; [|discriminate H]. destruct y; [contradiction|discriminate H].
    + rewrite !StringFacts.append_cons in H. injection H as _ H.
      exact (IH p Hy H).
Qed.

Lemma Fields_last (p : string) (c : ascii) :
  GoStrings.isSpace c = false -> GoStrings.Fields (p +:+ String c "") <> [].
Proof.
  intros Hc. induction p as [|a p IH].
  - change ("" +:+ String c "") with (String c "").
    cbn [GoStrings.Fields]. rewrite Hc. discriminate.
  - rewrite StringFacts.append_cons. cbn [GoStrings.Fields].
    destruct (GoStrings.isSpace a); [exact IH|].
    destruct (p +:+ String c "") as [|a' rest]; [discriminate|].
    destruct (GoStrings.isSpace a'); [discriminate|].
    destruct (GoStrings.Fields (String a' rest)); discriminate.
Qed.

(** A word followed by a space is the first field. *)
Lemma Fields_word (a : ascii) (w : string) (c : ascii) (r : string) :
  Forall (fun b => GoStrings.isSpace b = false) (list_ascii_of_string (String a w)) ->
  GoStrings.isSpace c = true ->
  GoStrings.Fields (String a w +:+ String c r)
  = String a w :: GoStrings.Fields (String c r).
Proof.
  revert a. induction w as [|a' w IH]; intros a Hw Hc.
  - cbn [list_ascii_of_string] in Hw. inversion Hw as [|? ? Ha _]; subst.
    change (String a "" +:+ String c r) with (String a (String c r)).
    cbn [GoStrings.Fields]. rewrite Ha, Hc. reflexivity.
  - cbn [list_ascii_of_string] in Hw. inversion Hw as [|? ? Ha Hrest]; subst.
    assert (GoStrings.isSpace a' = false) as Ha'
      by (inversion Hrest; assumption).
    rewrite StringFacts.append_cons. cbn [GoStrings.Fields]. rewrite Ha.
    rewrite StringFacts.append_cons, Ha'. rewrite <- StringFacts.append_cons.
    rewrite (IH a' Hrest Hc). reflexivity.
Qed.

Lemma validMethods_words (method : string) :
  method ∈ RawParser.validMethods ->
  GoStrings.ToUpper method = method
  /\ exists a w,
      method = String a w
      /\ Forall (fun b => GoStrings.isSpace b = false)
           (list_ascii_of_string (String a w)).
Proof.
  unfold RawParser.validMethods. intros H.
  repeat (apply elem_of_cons in H as [->|H];
          [split; [reflexivity|]; do 2 eexists; split; [reflexivity|];
           repeat constructor|]).
  apply elem_of_nil in H. destruct H.
Qed.

Lemma substring_whole (y : string) : substring 0 (String.length y) y = y.
Proof.
  induction y as [|b y IH]; [reflexivity|].
  cbn [String.length substring]. rewrite IH. reflexivity.
Qed.

Lemma sliceFrom_append (x y : string) :
  GoStrings.sliceFrom (x +:+ y) (GoStrings.len x) = y.
Proof.
  unfold GoStrings.sliceFrom, GoStrings.len. rewrite Nat2Z.id.
  rewrite EvaluatorFacts.length_append.
  replace (String.length x + String.length y - String.length x)%nat
    with (String.length y) by lia.
  induction x as [|a x IH]; [apply substring_whole|].
  rewrite StringFacts.append_cons. cbn [String.length substring]. exact IH.
Qed.

(** A line that matches the pattern of a request line begins with one of
    the seven methods, and a space follows. *)
Lemma matchRequestLine_method (line : string) :
  RawParser.matchRequestLine line = true ->
  exists method c rest,
    method ∈ RawParser.validMethods
    /\ line = method +:+ String c rest
    /\ GoStrings.isSpace c = true.
Proof.
  unfold RawParser.matchRequestLine. intros H.
  apply existsb_exists in H as (method & Hin & H).
  apply andb_true_iff in H as [Hprefix Hafter].
  destruct (EvaluatorFacts.prefix_split _ _ Hprefix) as [tail ->].
  rewrite sliceFrom_append in Hafter.
  unfold RawParser.matchAfterMethod in Hafter.
  apply andb_true_iff in Hafter as [Hhead _].
  destruct tail as [|c rest]; [discriminate|].
  exists method, c, rest. split; [apply list_elem_of_In, Hin|].
  split; [reflexivity|]. apply reSpace_isSpace, Hhead.
Qed.

(** A trimmed line that matches the pattern passes the check of the
    request line. *)
Lemma matchRequestLine_parseRequestLine (s : string) :
  RawParser.matchRequestLine (GoStrings.TrimSpace s) = true ->
  exists method url,
    RawParser.parseRequestLine (GoStrings.TrimSpace s) = inl (method, url)
    /\ GoStrings.HasPrefix (GoStrings.TrimSpace s) method = true.
Proof.
  intros Hmatch.
  destruct (matchRequestLine_method _ Hmatch) as (method & c & rest & Hin & Hline & Hc).
  destruct (validMethods_words method Hin) as (Hupper & a & w & -> & Hword).
  destruct (TrimSpace_last s) as [Hempty|(p & cl & Hlast & Hcl)].
  { rewrite Hempty in Hline. discriminate. }
  destruct (last_of_append (String a w) (String c rest) p cl) as [q Hq];
    [discriminate|congruence|].
  pose proof (Fields_last q cl Hcl) as Hfields. rewrite <- Hq in Hfields.
  unfold RawParser.parseRequestLine. rewrite Hline.
  rewrite (Fields_word a w c rest Hword Hc).
  destruct (GoStrings.Fields (String c rest)) as [|url more]; [contradiction|].
  exists (String a w), url.
  destruct (Z.ltb_spec (Z.of_nat (length (String a w :: url :: more))) 2) as [Hlen|_];
    [cbn [length] in Hlen; lia|].
  rewrite IntakeFacts.at_first, IntakeFacts.at_second, Hupper.
  assert (existsb (fun validMethod => bool_decide (String a w = validMethod))
            RawParser.validMethods = true) as ->.
  { apply existsb_exists. exists (String a w).
    split; [apply list_elem_of_In, Hin|apply bool_decide_eq_true; reflexivity]. }
  split; [reflexivity|]. apply EvaluatorFacts.prefix_app.
Qed.

Lemma IsRawRequest_first_line (input : string) :
  RawParser.IsRawRequest input = true ->
  exists first rest,
    GoStrings.Split (GoStrings.TrimSpace input) GoStrings.LF = first :: rest
    /\ RawParser.matchRequestLine (GoStrings.TrimSpace first) = true.
Proof.
  unfold RawParser.IsRawRequest.
  destruct (GoStrings.Split (GoStrings.TrimSpace input) GoStrings.LF)
    as [|first rest]; [discriminate|].
  intros H. exists first, rest. split; [reflexivity|exact H].
Qed.

(** X30.  For an input of ASCII bytes, on which [TrimSpace] and [Fields]
    are Go's: what the detector takes for a raw request has a first line
    that the raw parser accepts as a request line, once the input and the
    line are trimmed.  So for an input without spaces around it and
    without carriage returns that [DetectInputType] calls [raw], the
    parser can fail on the query of the URL only. *)
Theorem raw_detection_agrees
    (urlQuery : string -> gmap string (list string) + string)
    (input : string) :
  GoStrings.isASCII input = true ->
  RawParser.IsRawRequest input = true ->
  (exists first rest method url,
      GoStrings.Split (GoStrings.TrimSpace input) GoStrings.LF = first :: rest
      /\ RawParser.parseRequestLine (GoStrings.TrimSpace first) = inl (method, url))
  /\ (GoStrings.TrimSpace input = input ->
      GoStrings.Contains input (String "013" "") = false ->
      UnifiedParser.DetectInputType input = "raw" ->
      forall err,
        UnifiedParser.Parse urlQuery input = inr err ->
        exists msg,
          err = UnifiedParser.RawError (RawParser.QueryParseError msg)).
Proof.
  intros _ Hraw.
  destruct (IsRawRequest_first_line input Hraw) as (first & rest & Hsplit & Hmatch).
  destruct (matchRequestLine_parseRequestLine first Hmatch)
    as (method & url & Hline & _).
  split; [exists first, rest, method, url; split; assumption|].
  intros Htrim Hcr Hkind err. rewrite Htrim in Hsplit.
  unfold UnifiedParser.Parse. rewrite Htrim, Hkind.
  assert (input <> "") as Hne.
  { intros ->. cbn in Hsplit. injection Hsplit as <- _. discriminate Hmatch. }
  rewrite (bool_decide_eq_false_2 _ Hne).
  rewrite (bool_decide_eq_false_2 ("raw" = "curl")) by discriminate.
  rewrite (bool_decide_eq_true_2 ("raw" = "raw")) by reflexivity.
  unfold UnifiedParser.viaRaw, RawParser.Parse.
  rewrite Htrim, (bool_decide_eq_false_2 _ Hne).
  assert (GoStrings.ReplaceAll input GoStrings.CRLF GoStrings.LF = input) as ->.
  { unfold GoStrings.ReplaceAll, GoStrings.Split, GoStrings.CRLF.
    rewrite (EvaluatorFacts.splitGo_free_whole "013" _ input "" Hcr).
    reflexivity. }
  rewrite Hsplit, Hline.
  destruct (RawParser.headerLoop 1 rest ∅ ∅) as [[headers cookies] start].
  destruct (CurlParser.parseQueryParams urlQuery url) as [params|msg];
    [discriminate|].
  intros Herr. injection Herr as <-. exists msg. reflexivity.
Qed.

Lemma raw_detection_agrees_witness :
  (exists first rest method url,
      GoStrings.Split
        (GoStrings.TrimSpace
           ("GET http://a.test/x?y=%zz HTTP/1.1" +:+ GoStrings.LF
            +:+ "Host: a.test"))
        GoStrings.LF
      = first :: rest
      /\ RawParser.parseRequestLine (GoStrings.TrimSpace first)
         = inl (method, url))
  /\ (exists msg,
        UnifiedParser.Parse (fun _ => inr "invalid URL escape")
          ("GET http://a.test/x?y=%zz HTTP/1.1" +:+ GoStrings.LF
           +:+ "Host: a.test")
        = inr (UnifiedParser.RawError (RawParser.QueryParseError msg))).
Proof.
  destruct (raw_detection_agrees (fun _ => inr "invalid URL escape")
              ("GET http://a.test/x?y=%zz HTTP/1.1" +:+ GoStrings.LF
               +:+ "Host: a.test"))
    as [Hline Hquery]; [vm_compute; reflexivity..|].
  split; [exact Hline|].
  destruct (UnifiedParser.Parse (fun _ => inr "invalid URL escape")
              ("GET http://a.test/x?y=%zz HTTP/1.1" +:+ GoStrings.LF
               +:+ "Host: a.test")) as [req|err] eqn:Hparse.
  - vm_compute in Hparse. discriminate Hparse.
  - destruct (Hquery ltac:(vm_compute; reflexivity) ltac:(vm_compute; reflexivity)
                ltac:(vm_compute; reflexivity) err eq_refl) as [msg ->].
    exists msg. reflexivity.
Defined.

End DetectionAgreement.
